(** * Force diagrams of a bridge deck: a shallow embedding

    The repository renders shear-force and bending-moment diagrams from the
    results of a finite-element analysis: [scripts/task1_2d.py] draws the 2D
    diagrams of the central girder and [scripts/task2_3d.py] the 3D diagrams
    of all five girders.

    Conventions of the embedding.
    - The two functions are embedded whole over exact arithmetic: a Python
      [float] (and a coordinate of the node table) is a rational number
      [Q], and equality of computed values is [==] ([Qeq]).  This embedding
      carries the properties of structure and order: which lookups are
      made and how they fail, what is appended where, how the loops
      compose, which raw value is compared with which.  What it says of a
      computed value holds in the source up to binary64 rounding.
    - Where a property depends on rounding, overflow or underflow (the sign
      test of the zero crossing, whether a hatch value is a number, the
      value at the two ends of an interpolation), it is stated over a
      second embedding of the two loop bodies, [Binary64], in which a
      Python [float] is a primitive binary64 float.
    - The module-level tables [members], [nodes] and the data set [ds] live
      outside [scripts/]; they are the parameters of every function, as
      finite maps.
    - A Python exception is a value of type [error]; the functions return a
      [result].  A division of numpy scalars by zero raises nothing and
      yields NaN: over [Q] such a value is an [option Q], [None] standing
      for NaN; in binary64 it is the float NaN.
    - The charting calls are recorded as data: a figure is the lists of
      shapes, annotations and traces handed to the sink, in call order. *)

From Stdlib Require Import ZArith QArith Qabs Lqa List String Bool Lia Floats.
From stdpp Require Import base option list gmap strings.

Open Scope Q_scope.

(** ** Exceptions *)

Inductive error : Type :=
| KeyError_members (eid : Z)            (* members[eid] *)
| KeyError_nodes (n : Z)                (* nodes[n] *)
| MissingData (eid : Z) (comp : string) (* ds.forces.sel(Element=, Component=) *)
| ZeroDivisionError                     (* float division by 0.0 *)
| ValueError                            (* max(), min(), argmax of nothing *)
| IndexError.                           (* list index out of range *)

Inductive result (A : Type) : Type :=
| Ok (a : A)
| Err (e : error).
Arguments Ok {A} a.
Arguments Err {A} e.

Definition bind {A B} (r : result A) (k : A -> result B) : result B :=
  match r with
  | Ok a => k a
  | Err e => Err e
  end.

Notation "'let*' x ':=' r 'in' k" := (bind r (fun x => k))
  (at level 10, x pattern, r at level 100, k at level 200, only parsing).

Definition of_option {A} (e : error) (o : option A) : result A :=
  match o with
  | Some a => Ok a
  | None => Err e
  end.

Definition is_ok {A} (r : result A) : bool :=
  match r with Ok _ => true | Err _ => false end.

(** A [for] loop that threads a state and stops at the first exception. *)
Fixpoint for_each {A S} (body : S -> A -> result S) (l : list A) (s : S)
  : result S :=
  match l with
  | [] => Ok s
  | a :: l' => let* s' := body s a in for_each body l' s'
  end.

(** A loop that only collects one result per item. *)
Fixpoint map_result {A B} (f : A -> result B) (l : list A) : result (list B) :=
  match l with
  | [] => Ok []
  | a :: l' =>
      let* b := f a in
      let* bs := map_result f l' in
      Ok (b :: bs)
  end.

(** ** Numbers *)

Definition Qltb (x y : Q) : bool := negb (Qle_bool y x).

(** [a / b] on Python floats. *)
Definition py_div (a b : Q) : result Q :=
  if Qeq_bool b 0 then Err ZeroDivisionError else Ok (a / b).

(** [a / b] where [a] is a numpy scalar: no exception, NaN for [b = 0]
    (the numerators that occur here are zero whenever [b] is). *)
Definition np_div (a b : Q) : option Q :=
  if Qeq_bool b 0 then None else Some (a / b).

(** [max(l)] and [min(l)] of Python: the first greatest (least) item. *)
Fixpoint max_from (best : Q) (l : list Q) : Q :=
  match l with
  | [] => best
  | y :: l' => max_from (if Qltb best y then y else best) l'
  end.

Fixpoint min_from (best : Q) (l : list Q) : Q :=
  match l with
  | [] => best
  | y :: l' => min_from (if Qltb y best then y else best) l'
  end.

Definition py_max (l : list Q) : result Q :=
  match l with
  | [] => Err ValueError
  | y :: l' => Ok (max_from y l')
  end.

Definition py_min (l : list Q) : result Q :=
  match l with
  | [] => Err ValueError
  | y :: l' => Ok (min_from y l')
  end.

(** [numpy.argmax], [numpy.argmin]: the index of the first occurrence of the
    greatest (least) entry; [ValueError] on an empty array. *)
Fixpoint argmax_from (best_i : nat) (best : Q) (i : nat) (l : list Q) : nat :=
  match l with
  | [] => best_i
  | y :: l' =>
      if Qltb best y then argmax_from i y (S i) l'
      else argmax_from best_i best (S i) l'
  end.

Fixpoint argmin_from (best_i : nat) (best : Q) (i : nat) (l : list Q) : nat :=
  match l with
  | [] => best_i
  | y :: l' =>
      if Qltb y best then argmin_from i y (S i) l'
      else argmin_from best_i best (S i) l'
  end.

Definition np_argmax (l : list Q) : result nat :=
  match l with
  | [] => Err ValueError
  | y :: l' => Ok (argmax_from 0 y 1 l')
  end.

Definition np_argmin (l : list Q) : result nat :=
  match l with
  | [] => Err ValueError
  | y :: l' => Ok (argmin_from 0 y 1 l')
  end.

(** [numpy.linspace(start, stop, num)]: [num] evenly spaced samples over the
    closed interval, [arange(num) * step + start] with the last one set to
    [stop]. *)
Definition linspace (start stop : Q) (num : nat) : list Q :=
  let div := (num - 1)%nat in
  let step := (stop - start) / inject_Z (Z.of_nat div) in
  let y := map (fun k : nat => inject_Z (Z.of_nat k) * step + start) (seq 0 num) in
  if (1 <? num)%nat then <[div := stop]> y else y.

(** ** The tables and the data set *)

Definition coord : Type := Q * Q * Q.

(** [l[i]] of a Python list. *)
Definition py_index {A} (l : list A) (i : nat) : result A :=
  of_option IndexError (l !! i).

Section Globals.

Variable members : gmap Z (Z * Z).
Variable nodes : gmap Z coord.
Variable ds : gmap (Z * string) Q.

Definition member_of (eid : Z) : result (Z * Z) :=
  of_option (KeyError_members eid) (members !! eid).

Definition node_of (n : Z) : result coord :=
  of_option (KeyError_nodes n) (nodes !! n).

(** [float(ds.forces.sel(Element=eid, Component=comp))] *)
Definition sel (eid : Z) (comp : string) : result Q :=
  of_option (MissingData eid comp) (ds !! (eid, comp)).

End Globals.

(** ** [scripts/task1_2d.py] *)

Module Task1.

Definition CENTRAL_GIRDER_IDS : list Z :=
  [15; 24; 33; 42; 51; 60; 69; 78; 83]%Z.

(** [fig.add_shape(type="line", x0=, y0=, x1=, y1=)]: one hatch line. *)
Record shape : Type := Line { x0 : Q; y0 : Q; x1 : Q; y1 : option Q }.

(** [fig.add_annotation]: the label of a zero crossing (at [y = 0]) or of
    an extreme value ([label] is "MAX" or "MIN"). *)
Inductive annotation : Type :=
| ZeroCrossing (x_zero : Q)
| Extreme (label : string) (x y : Q).

(** [go.Scatter(x=, y=, name=)] with its line colour. *)
Record scatter : Type :=
  Scatter { sc_x : list Q; sc_y : list Q; sc_name : string; sc_color : string }.

Record Figure : Type := MkFigure {
  shapes : list shape;
  annotations : list annotation;
  data : list scatter;
  layout_title : string;
  layout_unit : string
}.

(** The variables the loop over the elements updates. *)
Record loop_state : Type := MkState {
  fig_shapes : list shape;
  fig_annotations : list annotation;
  x_full_path : list Q;
  y_full_path : list Q
}.

Definition hatch_density : nat := 12.

(** Line 90: the height of the hatch line at [hx]. *)
Definition hatch_value (is_step : bool) (val_start val_end x_i x_j hx : Q)
  : option Q :=
  if is_step then Some val_start
  else
    match np_div ((val_end - val_start) * (hx - x_i)) (x_j - x_i) with
    | Some t => Some (val_start + t)
    | None => None
    end.

Definition hatch_lines (is_step : bool) (val_start val_end x_i x_j : Q)
  : list shape :=
  map (fun hx => Line hx 0 hx (hatch_value is_step val_start val_end x_i x_j hx))
      (linspace x_i x_j hatch_density).

(** Lines 98 to 104: the label of the zero crossing, if any. *)
Definition zero_crossing (is_step : bool) (x_i x_j val_i val_j : Q)
  : result (list annotation) :=
  if negb is_step && Qltb (val_i * val_j) 0 then
    let* q := py_div (val_i * (x_j - x_i)) (val_j - val_i) in
    Ok [ZeroCrossing (x_i - q)]
  else Ok [].

Section Plot.

Variable members : gmap Z (Z * Z).
Variable nodes : gmap Z coord.
Variable ds : gmap (Z * string) Q.

(** The body of the loop, lines 56 to 104. *)
Definition element (comp_i comp_j : string) (is_step : bool)
    (st : loop_state) (eid : Z) : result loop_state :=
  let* (start_node, end_node) := member_of members eid in
  let* (x_i, _, _) := node_of nodes start_node in
  let* (x_j, _, _) := node_of nodes end_node in
  let* val_i := sel ds eid comp_i in
  let* val_j := sel ds eid comp_j in
  let '(x_segment, y_segment, val_start, val_end) :=
    if is_step then ([x_i; x_j], [val_i; val_i], val_i, val_i)
    else ([x_i; x_j], [val_i; val_j], val_i, val_j) in
  let hatch := hatch_lines is_step val_start val_end x_i x_j in
  let* label := zero_crossing is_step x_i x_j val_i val_j in
  Ok {| fig_shapes := fig_shapes st ++ hatch;
        fig_annotations := fig_annotations st ++ label;
        x_full_path := x_full_path st ++ x_segment;
        y_full_path := y_full_path st ++ y_segment |}.

(** Lines 121 to 127: the label of the path point at [idx]. *)
Definition extreme_label (st : loop_state) (idx : nat) (label : string)
  : result annotation :=
  let* x := py_index (x_full_path st) idx in
  let* y := py_index (y_full_path st) idx in
  Ok (Extreme label x y).

(** [generate_midas_style_plot] for the girder [girder_ids]. *)
Definition plot_girder (girder_ids : list Z)
    (comp_i comp_j title color unit : string) (is_step : bool)
  : result Figure :=
  let* st := for_each (element comp_i comp_j is_step) girder_ids
               (MkState [] [] [] []) in
  let trace := Scatter (x_full_path st) (y_full_path st) title color in
  let* max_idx := np_argmax (y_full_path st) in
  let* min_idx := np_argmin (y_full_path st) in
  let* a_max := extreme_label st max_idx "MAX" in
  let* a_min := extreme_label st min_idx "MIN" in
  Ok {| shapes := fig_shapes st;
        annotations := fig_annotations st ++ [a_max; a_min];
        data := [trace];
        layout_title := title;
        layout_unit := unit |}.

Definition generate_midas_style_plot :=
  plot_girder CENTRAL_GIRDER_IDS.

End Plot.

End Task1.

(** ** [scripts/task2_3d.py] *)

Module Task2.

Record girder : Type := Girder { elements : list Z; girder_nodes : list Z }.

(** The dictionary [GIRDERS], in insertion order. *)
Definition GIRDERS : list (string * girder) :=
  [ ("Girder 1", Girder [13; 22; 31; 40; 49; 58; 67; 76; 81]%Z
                        [1; 11; 16; 21; 26; 31; 36; 41; 46; 6]%Z);
    ("Girder 2", Girder [14; 23; 32; 41; 50; 59; 68; 77; 82]%Z
                        [2; 12; 17; 22; 27; 32; 37; 42; 47; 7]%Z);
    ("Girder 3", Girder [15; 24; 33; 42; 51; 60; 69; 78; 83]%Z
                        [3; 13; 18; 23; 28; 33; 38; 43; 48; 8]%Z);
    ("Girder 4", Girder [16; 25; 34; 43; 52; 61; 70; 79; 84]%Z
                        [4; 14; 19; 24; 29; 34; 39; 44; 49; 9]%Z);
    ("Girder 5", Girder [17; 26; 35; 44; 53; 62; 71; 80; 85]%Z
                        [5; 15; 20; 25; 30; 35; 40; 45; 50; 10]%Z) ].

(** [sub in s] on Python strings. *)
Fixpoint contains (sub s : string) : bool :=
  String.prefix sub s
  || match s with
     | EmptyString => false
     | String _ s' => contains sub s'
     end.

(** The colour of a line: a fixed colour, or one value per point mapped
    on the 'Jet' scale between [cmin] and [cmax]. *)
Inductive line_color : Type :=
| Fixed (c : string)
| Jet (color : list Q) (cmin cmax : Q) (showscale : bool).

(** [go.Scatter3d(x=, y=, z=, line=)]; [None] breaks the line. *)
Record scatter3d : Type := Scatter3d {
  tr_x : list (option Q);
  tr_y : list (option Q);
  tr_z : list (option Q);
  tr_line : line_color
}.

Record Figure : Type := MkFigure { data : list scatter3d; layout_title : string }.

(** The lists filled by the loop over the elements of one girder. *)
Record geometry : Type := MkGeometry {
  outline_x : list (option Q);
  outline_y : list (option Q);
  outline_z : list (option Q);
  outline_c : list Q;
  hatch_x : list (option Q);
  hatch_y : list (option Q);
  hatch_z : list (option Q);
  hatch_c : list Q
}.

Definition TARGET_HEIGHT : Q := 5.
Definition num_lines : nat := 10.

(** Lines 111 to 120: heights and colour values at the two ends. *)
Definition diagram_logic (diagram_type : string) (HEIGHT_SCALE val1 val2 : Q)
  : Q * Q * Q * Q :=
  if String.eqb diagram_type "SFD" then
    (val1 * HEIGHT_SCALE, val1 * HEIGHT_SCALE, val1, val1)
  else
    (val1 * HEIGHT_SCALE, val2 * HEIGHT_SCALE, val1, val2).

(** Lines 131 to 146: one line of the fence. *)
Definition fence_line (x1 x2 z1 z2 h1 h2 c1 c2 : Q) (g : geometry) (k : nat)
  : geometry :=
  let frac := inject_Z (Z.of_nat k) / inject_Z (Z.of_nat num_lines) in
  let cx := x1 + (x2 - x1) * frac in
  let cz := z1 + (z2 - z1) * frac in
  let ch := h1 + (h2 - h1) * frac in
  let cc := c1 + (c2 - c1) * frac in
  {| outline_x := outline_x g; outline_y := outline_y g;
     outline_z := outline_z g; outline_c := outline_c g;
     hatch_x := hatch_x g ++ [Some cx; Some cx; None];
     hatch_y := hatch_y g ++ [Some 0; Some ch; None];
     hatch_z := hatch_z g ++ [Some cz; Some cz; None];
     hatch_c := hatch_c g ++ [cc; cc; cc] |}.

Section Plot.

Variable members : gmap Z (Z * Z).
Variable nodes : gmap Z coord.
Variable ds : gmap (Z * string) Q.

(** Lines 52 to 55: the two samples of an element join [all_forces]. *)
Definition scan_element (comp_i comp_j : string) (all_forces : list Q)
    (eid : Z) : result (list Q) :=
  let* v_i := sel ds eid comp_i in
  let* v_j := sel ds eid comp_j in
  Ok (all_forces ++ [v_i; v_j]).

Definition scan_girder (comp_i comp_j : string) (all_forces : list Q)
    (g : string * girder) : result (list Q) :=
  for_each (scan_element comp_i comp_j) (elements (snd g)) all_forces.

(** Lines 80 to 84: the axis of a girder. *)
Definition baseline_node (Z_EXPANSION : Q)
    (b : list (option Q) * list (option Q) * list (option Q)) (n : Z)
  : result (list (option Q) * list (option Q) * list (option Q)) :=
  let '(bx, by_, bz) := b in
  let* (x, _, z) := node_of nodes n in
  Ok (bx ++ [Some x], by_ ++ [Some 0], bz ++ [Some (z * Z_EXPANSION)]).

(** Lines 99 to 146: the body of the loop over the elements. *)
Definition element (Z_EXPANSION HEIGHT_SCALE : Q)
    (comp_i comp_j diagram_type : string) (g : geometry) (eid : Z)
  : result geometry :=
  let* (sn, en) := member_of members eid in
  let* (x1, _, z1) := node_of nodes sn in
  let* (x2, _, z2) := node_of nodes en in
  let z1 := z1 * Z_EXPANSION in
  let z2 := z2 * Z_EXPANSION in
  let* val1 := sel ds eid comp_i in
  let* val2 := sel ds eid comp_j in
  let '(h1, h2, c1, c2) := diagram_logic diagram_type HEIGHT_SCALE val1 val2 in
  let g1 :=
    {| outline_x := outline_x g ++ [Some x1; Some x2; None];
       outline_y := outline_y g ++ [Some h1; Some h2; None];
       outline_z := outline_z g ++ [Some z1; Some z2; None];
       outline_c := outline_c g ++ [c1; c2; c2];
       hatch_x := hatch_x g; hatch_y := hatch_y g;
       hatch_z := hatch_z g; hatch_c := hatch_c g |} in
  Ok (fold_left (fence_line x1 x2 z1 z2 h1 h2 c1 c2)
                (seq 0 (num_lines + 1)) g1).

(** Lines 76 to 174: the three traces of one girder join the figure. *)
Definition plot_one (Z_EXPANSION HEIGHT_SCALE C_MIN C_MAX : Q)
    (comp_i comp_j diagram_type : string) (traces : list scatter3d)
    (g : string * girder) : result (list scatter3d) :=
  let '(g_name, data) := g in
  let* (bx, by_, bz) :=
    for_each (baseline_node Z_EXPANSION) (girder_nodes data) ([], [], []) in
  let axis := Scatter3d bx by_ bz (Fixed "gray") in
  let* geo :=
    for_each (element Z_EXPANSION HEIGHT_SCALE comp_i comp_j diagram_type)
             (elements data) (MkGeometry [] [] [] [] [] [] [] []) in
  let top :=
    Scatter3d (outline_x geo) (outline_y geo) (outline_z geo)
              (Jet (outline_c geo) C_MIN C_MAX false) in
  let fence :=
    Scatter3d (hatch_x geo) (hatch_y geo) (hatch_z geo)
              (Jet (hatch_c geo) C_MIN C_MAX (String.eqb g_name "Girder 1")) in
  Ok (traces ++ [axis; top; fence]).

(** Lines 50 to 63: the height scale shared by all girders. *)
Definition height_scale (all_forces : list Q) : result Q :=
  let abs_forces := map Qabs all_forces in
  let* max_abs_val :=
    match abs_forces with [] => Ok 1 | _ => py_max abs_forces end in
  py_div TARGET_HEIGHT max_abs_val.

(** [create_midas_polished_plot] for the girders [girders] and the
    factor [Z_EXPANSION]. *)
Definition plot_girders (Z_EXPANSION : Q) (girders : list (string * girder))
    (comp_i comp_j title : string) : result Figure :=
  let diagram_type := if contains "Vy" comp_i then "SFD" else "BMD" in
  let* all_forces := for_each (scan_girder comp_i comp_j) girders [] in
  let* HEIGHT_SCALE := height_scale all_forces in
  let* C_MIN := py_min all_forces in
  let* C_MAX := py_max all_forces in
  let* traces :=
    for_each (plot_one Z_EXPANSION HEIGHT_SCALE C_MIN C_MAX
                       comp_i comp_j diagram_type) girders [] in
  Ok {| data := traces; layout_title := title |}.

Definition Z_EXPANSION : Q := 3 # 2.

Definition create_midas_polished_plot :=
  plot_girders Z_EXPANSION GIRDERS.

End Plot.

End Task2.

(** ** A small bridge deck to run the functions on

    Five girders of nine elements, three length units each, the girders
    2.5 units apart; the connectivity follows the node lists of [GIRDERS]. *)

Module Deck.

Definition chain (g : Task2.girder) : list (Z * (Z * Z)) :=
  zip (Task2.elements g)
      (zip (Task2.girder_nodes g) (tail (Task2.girder_nodes g))).

Definition members : gmap Z (Z * Z) :=
  list_to_map (flat_map (fun g => chain (snd g)) Task2.GIRDERS).

Definition girder_coords (i : nat) (g : Task2.girder) : list (Z * coord) :=
  imap (fun k n => (n, (inject_Z (3 * Z.of_nat k), 0, (5 # 2) * inject_Z (Z.of_nat i))))
       (Task2.girder_nodes g).

Definition nodes : gmap Z coord :=
  list_to_map (concat (imap (fun i g => girder_coords i (snd g)) Task2.GIRDERS)).

Definition all_elements : list Z :=
  flat_map (fun g => Task2.elements (snd g)) Task2.GIRDERS.

(** The four samples of an element, chosen so that the shear and the
    moment both change sign along a girder. *)
Definition samples (eid : Z) : list (Z * string * Q) :=
  [ (eid, "Vy_i", inject_Z (40 - eid));
    (eid, "Vy_j", inject_Z (eid - 40));
    (eid, "Mz_i", inject_Z (eid - 50) / 2);
    (eid, "Mz_j", inject_Z (eid - 41) / 2) ].

Definition ds : gmap (Z * string) Q :=
  list_to_map (flat_map samples all_elements).

(** The same data set with other shear values at the end nodes. *)
Definition ds_other_ends : gmap (Z * string) Q :=
  list_to_map (flat_map (fun eid => (eid, "Vy_j", 7) :: samples eid) all_elements).

(** The same data set without the moments. *)
Definition ds_shear_only : gmap (Z * string) Q :=
  list_to_map (flat_map (fun eid => take 2 (samples eid)) all_elements).

End Deck.

(** ** A girder of two elements

    Nodes at x = 0, 2 and 5; the shear is 10 on the first element and -4
    on the second. *)

Module Scenario.

Definition members : gmap Z (Z * Z) :=
  list_to_map [(1, (1, 2)); (2, (2, 3))]%Z.

Definition nodes : gmap Z coord :=
  list_to_map [(1%Z, (0, 0, 0)); (2%Z, (2, 0, 0)); (3%Z, (5, 0, 0))].

Definition ds : gmap (Z * string) Q :=
  list_to_map [ (1%Z, "Vy_i", 10); (1%Z, "Vy_j", 10);
                (2%Z, "Vy_i", -4); (2%Z, "Vy_j", -4) ].

(** The same data set with another shear value at the end of the second
    element. *)
Definition ds_other_end : gmap (Z * string) Q :=
  list_to_map [ (1%Z, "Vy_i", 10); (1%Z, "Vy_j", 10);
                (2%Z, "Vy_i", -4); (2%Z, "Vy_j", -40) ].

(** The two elements as the only girder of a 3D diagram. *)
Definition girders : list (string * Task2.girder) :=
  [ ("Girder 1", Task2.Girder [1; 2]%Z [1; 2; 3]%Z) ].

End Scenario.

(** * Definitions used to state the properties *)

Definition present {A} (o : option A) : bool :=
  match o with Some _ => true | None => false end.

(** The value drawn at the end of the segment. *)
Definition end_value (is_step : bool) (val_i val_j : Q) : Q :=
  if is_step then val_i else val_j.

(** Every table has what the loop reads for the elements in [ids]. *)
Definition complete (members : gmap Z (Z * Z)) (nodes : gmap Z coord)
    (ds : gmap (Z * string) Q) (comp_i comp_j : string) (ids : list Z) : bool :=
  forallb (fun eid =>
    match members !! eid with
    | Some (start_node, end_node) =>
        present (nodes !! start_node) && present (nodes !! end_node)
        && present (ds !! (eid, comp_i)) && present (ds !! (eid, comp_j))
    | None => false
    end) ids.

(** What a loop body reads for one element, in the order of the lookups
    (lines 57 to 64 of the 2D script, 99 to 108 of the 3D script): the x-
    and z-coordinates of the two end nodes, as the node table has them,
    and the two samples. *)
Record reading : Type := Reading {
  start_x : Q; start_z : Q; end_x : Q; end_z : Q; start_val : Q; end_val : Q
}.

Definition resolve (members : gmap Z (Z * Z)) (nodes : gmap Z coord)
    (ds : gmap (Z * string) Q) (comp_i comp_j : string) (eid : Z)
  : result reading :=
  let* (sn, en) := member_of members eid in
  let* (x1, _, z1) := node_of nodes sn in
  let* (x2, _, z2) := node_of nodes en in
  let* val1 := sel ds eid comp_i in
  let* val2 := sel ds eid comp_j in
  Ok (Reading x1 z1 x2 z2 val1 val2).

(** The exception names a key that the table it was looked up in lacks. *)
Definition error_is_missing (members : gmap Z (Z * Z)) (nodes : gmap Z coord)
    (ds : gmap (Z * string) Q) (e : error) : Prop :=
  match e with
  | KeyError_members eid => members !! eid = None
  | KeyError_nodes n => nodes !! n = None
  | MissingData eid comp => ds !! (eid, comp) = None
  | _ => False
  end.


(** [y] is the greatest entry of [l] and [i] the first index that holds
    it; likewise for the least entry. *)
Definition first_max (l : list Q) (i : nat) (y : Q) : Prop :=
  l !! i = Some y
  /\ (forall (j : nat) (y' : Q), l !! j = Some y' -> y' <= y)
  /\ (forall (j : nat) (y' : Q), (j < i)%nat -> l !! j = Some y' -> y' < y).

Definition first_min (l : list Q) (i : nat) (y : Q) : Prop :=
  l !! i = Some y
  /\ (forall (j : nat) (y' : Q), l !! j = Some y' -> y <= y')
  /\ (forall (j : nat) (y' : Q), (j < i)%nat -> l !! j = Some y' -> y < y').

(** ** The 2D diagram as a function of the looked-up elements *)

Module Profile2D.
Import Task1.

Definition crossing_label (is_step : bool) (x_i x_j val_i val_j : Q)
  : list annotation :=
  if negb is_step && Qltb (val_i * val_j) 0
  then [ZeroCrossing (x_i - val_i * (x_j - x_i) / (val_j - val_i))]
  else [].

Definition xs_of (r : reading) : list Q := [start_x r; end_x r].

Definition ys_of (is_step : bool) (r : reading) : list Q :=
  [start_val r; end_value is_step (start_val r) (end_val r)].

Definition hatch_of (is_step : bool) (r : reading) : list shape :=
  hatch_lines is_step (start_val r)
              (end_value is_step (start_val r) (end_val r))
              (start_x r) (end_x r).

Definition label_of (is_step : bool) (r : reading) : list annotation :=
  crossing_label is_step (start_x r) (end_x r) (start_val r) (end_val r).

Definition extend (is_step : bool) (st : loop_state) (r : reading)
  : loop_state :=
  {| fig_shapes := fig_shapes st ++ hatch_of is_step r;
     fig_annotations := fig_annotations st ++ label_of is_step r;
     x_full_path := x_full_path st ++ xs_of r;
     y_full_path := y_full_path st ++ ys_of is_step r |}.

(** The figure as a function of what the loop looked up. *)
Definition figure_of (is_step : bool) (title color unit : string)
    (rs : list reading) : result Figure :=
  let xs := flat_map xs_of rs in
  let ys := flat_map (ys_of is_step) rs in
  let* max_idx := np_argmax ys in
  let* min_idx := np_argmin ys in
  let* x_max := py_index xs max_idx in
  let* y_max := py_index ys max_idx in
  let* x_min := py_index xs min_idx in
  let* y_min := py_index ys min_idx in
  Ok {| shapes := flat_map (hatch_of is_step) rs;
        annotations := flat_map (label_of is_step) rs
                       ++ [Extreme "MAX" x_max y_max; Extreme "MIN" x_min y_min];
        data := [Scatter xs ys title color];
        layout_title := title;
        layout_unit := unit |}.

Definition is_extreme (a : annotation) : bool :=
  match a with Extreme _ _ _ => true | ZeroCrossing _ => false end.

End Profile2D.

(** ** The 3D diagram as a function of the looked-up elements *)

Module Profile3D.
Import Task2.

(** The two samples of an element, as the scan of lines 52 to 55 reads
    them. *)
Definition samples (ds : gmap (Z * string) Q) (comp_i comp_j : string)
    (eid : Z) : result (Q * Q) :=
  let* v_i := sel ds eid comp_i in
  let* v_j := sel ds eid comp_j in
  Ok (v_i, v_j).

Definition both (p : Q * Q) : list Q := [fst p; snd p].

Definition is_sfd (diagram_type : string) : bool := String.eqb diagram_type "SFD".

Definition frac (k : nat) : Q :=
  inject_Z (Z.of_nat k) / inject_Z (Z.of_nat num_lines).

(** The point at [frac k] between [a] and [b], as lines 135 to 140 write it. *)
Definition between (a b : Q) (k : nat) : Q := a + (b - a) * frac k.

Definition fence_indices : list nat := seq 0 (num_lines + 1).

Definition h1_of (HS : Q) (r : reading) : Q := start_val r * HS.
Definition h2_of (dt : string) (HS : Q) (r : reading) : Q :=
  end_value (is_sfd dt) (start_val r) (end_val r) * HS.
Definition c2_of (dt : string) (r : reading) : Q :=
  end_value (is_sfd dt) (start_val r) (end_val r).

Definition ox_of (r : reading) : list (option Q) :=
  [Some (start_x r); Some (end_x r); None].
Definition oy_of (dt : string) (HS : Q) (r : reading) : list (option Q) :=
  [Some (h1_of HS r); Some (h2_of dt HS r); None].
Definition oz_of (Zx : Q) (r : reading) : list (option Q) :=
  [Some (start_z r * Zx); Some (end_z r * Zx); None].
Definition oc_of (dt : string) (r : reading) : list Q :=
  [start_val r; c2_of dt r; c2_of dt r].

Definition hx_of (r : reading) : list (option Q) :=
  flat_map (fun k => let cx := between (start_x r) (end_x r) k in [Some cx; Some cx; None])
           fence_indices.
Definition hy_of (dt : string) (HS : Q) (r : reading) : list (option Q) :=
  flat_map (fun k => [Some 0; Some (between (h1_of HS r) (h2_of dt HS r) k); None])
           fence_indices.
Definition hz_of (Zx : Q) (r : reading) : list (option Q) :=
  flat_map (fun k => let cz := between (start_z r * Zx) (end_z r * Zx) k in
                     [Some cz; Some cz; None])
           fence_indices.
Definition hc_of (dt : string) (r : reading) : list Q :=
  flat_map (fun k => let cc := between (start_val r) (c2_of dt r) k in [cc; cc; cc])
           fence_indices.

Definition extend (Zx HS : Q) (dt : string) (g : geometry) (r : reading)
  : geometry :=
  {| outline_x := outline_x g ++ ox_of r;
     outline_y := outline_y g ++ oy_of dt HS r;
     outline_z := outline_z g ++ oz_of Zx r;
     outline_c := outline_c g ++ oc_of dt r;
     hatch_x := hatch_x g ++ hx_of r;
     hatch_y := hatch_y g ++ hy_of dt HS r;
     hatch_z := hatch_z g ++ hz_of Zx r;
     hatch_c := hatch_c g ++ hc_of dt r |}.

Definition axis_point (Zx : Q)
    (b : list (option Q) * list (option Q) * list (option Q)) (c : coord)
  : list (option Q) * list (option Q) * list (option Q) :=
  let '(bx, by_, bz) := b in
  let '(x, _, z) := c in
  (bx ++ [Some x], by_ ++ [Some 0], bz ++ [Some (z * Zx)]).

(** What the loops read for one girder: its name, the coordinates of its
    nodes and the readings of its elements. *)
Definition girder_readings (members : gmap Z (Z * Z)) (nodes : gmap Z coord)
    (ds : gmap (Z * string) Q) (comp_i comp_j : string) (g : string * girder)
  : result (string * list coord * list reading) :=
  let* cs := map_result (node_of nodes) (girder_nodes (snd g)) in
  let* rs := map_result (resolve members nodes ds comp_i comp_j)
                        (elements (snd g)) in
  Ok (fst g, cs, rs).

(** The three traces of a girder: axis, top profile and fence. *)
Definition traces_of (Zx HS C_MIN C_MAX : Q) (dt : string)
    (gr : string * list coord * list reading) : list scatter3d :=
  let '(g_name, cs, rs) := gr in
  [ Scatter3d (map (fun c : coord => Some (fst (fst c))) cs)
              (map (fun _ : coord => Some 0) cs)
              (map (fun c : coord => Some (snd c * Zx)) cs)
              (Fixed "gray");
    Scatter3d (flat_map ox_of rs) (flat_map (oy_of dt HS) rs)
              (flat_map (oz_of Zx) rs)
              (Jet (flat_map (oc_of dt) rs) C_MIN C_MAX false);
    Scatter3d (flat_map hx_of rs) (flat_map (hy_of dt HS) rs)
              (flat_map (hz_of Zx) rs)
              (Jet (flat_map (hc_of dt) rs) C_MIN C_MAX
                   (String.eqb g_name "Girder 1")) ].

Definition diagram_type_of (comp_i : string) : string :=
  if contains "Vy" comp_i then "SFD" else "BMD".

(** The figure as a function of what the loops looked up. *)
Definition figure_of (members : gmap Z (Z * Z)) (nodes : gmap Z coord)
    (ds : gmap (Z * string) Q) (Zx : Q) (girders : list (string * girder))
    (comp_i comp_j title : string) : result Figure :=
  let* pss := map_result (fun g => map_result (samples ds comp_i comp_j)
                                              (elements (snd g))) girders in
  let all_forces := flat_map (flat_map both) pss in
  let* HS := height_scale all_forces in
  let* C_MIN := py_min all_forces in
  let* C_MAX := py_max all_forces in
  let* grs := map_result (girder_readings members nodes ds comp_i comp_j)
                         girders in
  Ok {| data := flat_map (traces_of Zx HS C_MIN C_MAX (diagram_type_of comp_i)) grs;
        layout_title := title |}.

(** The tables have what both loops read. *)
Definition complete_all (members : gmap Z (Z * Z)) (nodes : gmap Z coord)
    (ds : gmap (Z * string) Q) (comp_i comp_j : string)
    (girders : list (string * girder)) : bool :=
  forallb (fun g : string * girder =>
             forallb (fun n => present (nodes !! n)) (girder_nodes (snd g))
             && complete members nodes ds comp_i comp_j (elements (snd g)))
          girders.

(** Every sample the diagram of [comp_i], [comp_j] asks for, girder by
    girder and element by element ([None] where the data set has none). *)
Definition requested (ds : gmap (Z * string) Q) (comp_i comp_j : string)
    (girders : list (string * girder)) : list (option Q) :=
  flat_map (fun g : string * girder =>
              flat_map (fun eid => [ds !! (eid, comp_i); ds !! (eid, comp_j)])
                       (elements (snd g)))
           girders.

Definition nonzero (o : option Q) : bool :=
  match o with Some v => negb (Qeq_bool v 0) | None => false end.

(** The greatest absolute value among the requested samples. *)
Definition max_abs_of (ds : gmap (Z * string) Q) (comp_i comp_j : string) (girders : list (string * girder))
    (M : Q) : Prop :=
  (forall v, Some v ∈ requested ds comp_i comp_j girders -> Qabs v <= M)
  /\ (exists v, Some v ∈ requested ds comp_i comp_j girders /\ M = Qabs v).


(** What is left of a figure once the z-coordinates are dropped. *)
Definition without_z (fig : Figure)
  : list (list (option Q) * list (option Q) * line_color) * string :=
  (map (fun t => (tr_x t, tr_y t, tr_line t)) (data fig), layout_title fig).

End Profile3D.

Definition result_map {A B} (f : A -> B) (r : result A) : result B :=
  match r with Ok a => Ok (f a) | Err e => Err e end.

(** ** The entry points of the two scripts

    Each script, run directly, builds the shear diagram, shows it, then
    builds the moment diagram and shows it.  A run is recorded as the
    figures shown so far and the exception that ended it, if any. *)

Fixpoint show_each {F} (plots : list (result F)) (shown : list F)
  : list F * option error :=
  match plots with
  | [] => (shown, None)
  | Ok fig :: rest => show_each rest (shown ++ [fig])
  | Err e :: _ => (shown, Some e)
  end.

Module Main2D.

(** Lines 142 to 151 of [task1_2d.py]. *)
Definition main (members : gmap Z (Z * Z)) (nodes : gmap Z coord)
    (ds : gmap (Z * string) Q) : list Task1.Figure * option error :=
  show_each
    [ Task1.generate_midas_style_plot members nodes ds
        "Vy_i" "Vy_j" "SFD - Central Girder" "blue" "kN" true;
      Task1.generate_midas_style_plot members nodes ds
        "Mz_i" "Mz_j" "BMD - Central Girder" "red" "kN-m" false ]
    [].

End Main2D.

Module Main3D.

(** Lines 204 to 213 of [task2_3d.py]. *)
Definition main (members : gmap Z (Z * Z)) (nodes : gmap Z coord)
    (ds : gmap (Z * string) Q) : list Task2.Figure * option error :=
  show_each
    [ Task2.create_midas_polished_plot members nodes ds
        "Vy_i" "Vy_j" "Shear Force (SFD)";
      Task2.create_midas_polished_plot members nodes ds
        "Mz_i" "Mz_j" "Bending Moment (BMD)" ]
    [].

End Main3D.

(** ** What a trace of the 3D figure carries *)

Module Trace.
Import Task2.

Definition shows_scale (t : scatter3d) : bool :=
  match tr_line t with
  | Jet _ _ _ showscale => showscale
  | Fixed _ => false
  end.

(** The colour values of a trace with their colour domain, if it has one. *)
Definition colours (t : scatter3d) : option (list Q * Q * Q) :=
  match tr_line t with
  | Jet color cmin cmax _ => Some (color, cmin, cmax)
  | Fixed _ => None
  end.

Definition named_girder_1 (g : string * girder) : bool :=
  String.eqb (fst g) "Girder 1".

End Trace.

(** The x-coordinate of a node, if the table has the node. *)
Definition x_of (nodes : gmap Z coord) (n : Z) : option Q :=
  match nodes !! n with
  | Some (x, _, _) => Some x
  | None => None
  end.



(** A data set in which every sample is zero, for the elements of the
    deck. *)
Module Flat.

Definition ds : gmap (Z * string) Q :=
  list_to_map (flat_map (fun eid => [ (eid, "Vy_i", 0); (eid, "Vy_j", 0) ])
                        Deck.all_elements).

End Flat.

(** * The arithmetic of the loop bodies in binary64

    Whether a product is negative, whether a quotient is a number and
    whether an interpolated value hits a sample exactly depend on how a
    float rounds, overflows and underflows; the embedding over [Q] cannot
    tell.  The two loop bodies are therefore embedded a second time, with a
    Python [float] as a binary64 number: Rocq's primitive [float], rounded
    to nearest even, with NaN, infinities and signed zeros.  The tables
    hold floats and the arithmetic is that of the source, operation by
    operation; [=?] and [<?] are the comparisons [==] and [<] of Python. *)

Module Binary64.

Definition coord : Type := float * float * float.

(** [float(k)] of a Python [int]: the nearest binary64 number. *)
Definition of_int (k : Z) : float :=
  SF2Prim (binary_normalize prec emax k 0 false).

(** [a / b] on Python floats. *)
Definition py_div (a b : float) : result float :=
  if (b =? 0)%float then Err ZeroDivisionError else Ok (a / b)%float.

(** [numpy.linspace(start, stop, num)], step by step: [arange(num)] is
    scaled by [step = delta / div], or divided by [div] and multiplied by
    [delta] when the step is zero, then shifted by [start]; the last
    sample is set to [stop]. *)
Definition linspace (start stop : float) (num : nat) : list float :=
  let div := (num - 1)%nat in
  let delta := (stop - start)%float in
  let y := map (fun k : nat => of_int (Z.of_nat k)) (seq 0 num) in
  let y :=
    if (0 <? div)%nat then
      let step := (delta / of_int (Z.of_nat div))%float in
      if (step =? 0)%float then
        map (fun a => (a / of_int (Z.of_nat div) * delta)%float) y
      else map (fun a => (a * step)%float) y
    else map (fun a => (a * delta)%float) y in
  let y := map (fun a => (a + start)%float) y in
  if (1 <? num)%nat then <[div := stop]> y else y.

Section Tables.

Variable nodes : gmap Z coord.
Variable ds : gmap (Z * string) float.

Definition node_of (n : Z) : result coord :=
  of_option (KeyError_nodes n) (nodes !! n).

Definition sel (eid : Z) (comp : string) : result float :=
  of_option (MissingData eid comp) (ds !! (eid, comp)).

End Tables.

(** *** The body of the loop of [scripts/task1_2d.py] *)

Module Task1.

Record shape : Type := Line { x0 : float; y0 : float; x1 : float; y1 : float }.

Inductive annotation : Type :=
| ZeroCrossing (x_zero : float).

Record loop_state : Type := MkState {
  fig_shapes : list shape;
  fig_annotations : list annotation;
  x_full_path : list float;
  y_full_path : list float
}.

Definition hatch_density : nat := 12.

(** Line 90. *)
Definition hatch_value (is_step : bool) (val_start val_end x_i x_j hx : float)
  : float :=
  if is_step then val_start
  else (val_start + (val_end - val_start) * (hx - x_i) / (x_j - x_i))%float.

Definition hatch_lines (is_step : bool) (val_start val_end x_i x_j : float)
  : list shape :=
  map (fun hx => Line hx 0 hx (hatch_value is_step val_start val_end x_i x_j hx))
      (linspace x_i x_j hatch_density).

(** Lines 98 to 104. *)
Definition zero_crossing (is_step : bool) (x_i x_j val_i val_j : float)
  : result (list annotation) :=
  if negb is_step && (val_i * val_j <? 0)%float then
    let* q := py_div (val_i * (x_j - x_i))%float (val_j - val_i)%float in
    Ok [ZeroCrossing (x_i - q)%float]
  else Ok [].

Section Plot.

Variable members : gmap Z (Z * Z).
Variable nodes : gmap Z coord.
Variable ds : gmap (Z * string) float.

(** Lines 56 to 104. *)
Definition element (comp_i comp_j : string) (is_step : bool)
    (st : loop_state) (eid : Z) : result loop_state :=
  let* (start_node, end_node) := member_of members eid in
  let* (x_i, _, _) := node_of nodes start_node in
  let* (x_j, _, _) := node_of nodes end_node in
  let* val_i := sel ds eid comp_i in
  let* val_j := sel ds eid comp_j in
  let '(x_segment, y_segment, val_start, val_end) :=
    if is_step then ([x_i; x_j], [val_i; val_i], val_i, val_i)
    else ([x_i; x_j], [val_i; val_j], val_i, val_j) in
  let hatch := hatch_lines is_step val_start val_end x_i x_j in
  let* label := zero_crossing is_step x_i x_j val_i val_j in
  Ok {| fig_shapes := fig_shapes st ++ hatch;
        fig_annotations := fig_annotations st ++ label;
        x_full_path := x_full_path st ++ x_segment;
        y_full_path := y_full_path st ++ y_segment |}.

End Plot.

End Task1.

(** *** The body of the loop of [scripts/task2_3d.py] *)

Module Task2.

Record geometry : Type := MkGeometry {
  outline_x : list (option float);
  outline_y : list (option float);
  outline_z : list (option float);
  outline_c : list float;
  hatch_x : list (option float);
  hatch_y : list (option float);
  hatch_z : list (option float);
  hatch_c : list float
}.

Definition num_lines : nat := 10.

(** Lines 111 to 120. *)
Definition diagram_logic (diagram_type : string) (HEIGHT_SCALE val1 val2 : float)
  : float * float * float * float :=
  if String.eqb diagram_type "SFD" then
    ((val1 * HEIGHT_SCALE)%float, (val1 * HEIGHT_SCALE)%float, val1, val1)
  else
    ((val1 * HEIGHT_SCALE)%float, (val2 * HEIGHT_SCALE)%float, val1, val2).

(** Lines 131 to 146. *)
Definition fence_line (x1 x2 z1 z2 h1 h2 c1 c2 : float) (g : geometry) (k : nat)
  : geometry :=
  let frac := (of_int (Z.of_nat k) / of_int (Z.of_nat num_lines))%float in
  let cx := (x1 + (x2 - x1) * frac)%float in
  let cz := (z1 + (z2 - z1) * frac)%float in
  let ch := (h1 + (h2 - h1) * frac)%float in
  let cc := (c1 + (c2 - c1) * frac)%float in
  {| outline_x := outline_x g; outline_y := outline_y g;
     outline_z := outline_z g; outline_c := outline_c g;
     hatch_x := hatch_x g ++ [Some cx; Some cx; None];
     hatch_y := hatch_y g ++ [Some 0%float; Some ch; None];
     hatch_z := hatch_z g ++ [Some cz; Some cz; None];
     hatch_c := hatch_c g ++ [cc; cc; cc] |}.

Section Plot.

Variable members : gmap Z (Z * Z).
Variable nodes : gmap Z coord.
Variable ds : gmap (Z * string) float.

(** Lines 99 to 146. *)
Definition element (Z_EXPANSION HEIGHT_SCALE : float)
    (comp_i comp_j diagram_type : string) (g : geometry) (eid : Z)
  : result geometry :=
  let* (sn, en) := member_of members eid in
  let* (x1, _, z1) := node_of nodes sn in
  let* (x2, _, z2) := node_of nodes en in
  let z1 := (z1 * Z_EXPANSION)%float in
  let z2 := (z2 * Z_EXPANSION)%float in
  let* val1 := sel ds eid comp_i in
  let* val2 := sel ds eid comp_j in
  let '(h1, h2, c1, c2) := diagram_logic diagram_type HEIGHT_SCALE val1 val2 in
  let g1 :=
    {| outline_x := outline_x g ++ [Some x1; Some x2; None];
       outline_y := outline_y g ++ [Some h1; Some h2; None];
       outline_z := outline_z g ++ [Some z1; Some z2; None];
       outline_c := outline_c g ++ [c1; c2; c2];
       hatch_x := hatch_x g; hatch_y := hatch_y g;
       hatch_z := hatch_z g; hatch_c := hatch_c g |} in
  Ok (fold_left (fence_line x1 x2 z1 z2 h1 h2 c1 c2)
                (seq 0 (num_lines + 1)) g1).

End Plot.

End Task2.

(** What a loop body reads for one element. *)
Record reading : Type := Reading {
  start_x : float; start_z : float; end_x : float; end_z : float;
  start_val : float; end_val : float
}.

Definition resolve (members : gmap Z (Z * Z)) (nodes : gmap Z coord)
    (ds : gmap (Z * string) float) (comp_i comp_j : string) (eid : Z)
  : result reading :=
  let* (sn, en) := member_of members eid in
  let* (x1, _, z1) := node_of nodes sn in
  let* (x2, _, z2) := node_of nodes en in
  let* val1 := sel ds eid comp_i in
  let* val2 := sel ds eid comp_j in
  Ok (Reading x1 z1 x2 z2 val1 val2).

(** Strictly opposite signs. *)
Definition opposite_signs (a b : float) : Prop :=
  ((a <? 0)%float = true /\ (0 <? b)%float = true)
  \/ ((0 <? a)%float = true /\ (b <? 0)%float = true).

(** The same sign (zero counting for both), a zero, or equal values. *)
Definition no_sign_change (a b : float) : Prop :=
  ((0 <=? a)%float = true /\ (0 <=? b)%float = true)
  \/ ((a <=? 0)%float = true /\ (b <=? 0)%float = true)
  \/ (a =? 0)%float = true \/ (b =? 0)%float = true
  \/ (a =? b)%float = true.

(** The loop bodies as functions of what they read. *)
Definition end_value (is_step : bool) (val_i val_j : float) : float :=
  if is_step then val_i else val_j.

Definition crossing_label (is_step : bool) (x_i x_j val_i val_j : float)
  : list Task1.annotation :=
  if negb is_step && (val_i * val_j <? 0)%float then
    [Task1.ZeroCrossing (x_i - val_i * (x_j - x_i) / (val_j - val_i))%float]
  else [].

Definition extend (is_step : bool) (st : Task1.loop_state) (r : reading)
  : Task1.loop_state :=
  {| Task1.fig_shapes :=
       Task1.fig_shapes st
       ++ Task1.hatch_lines is_step (start_val r)
            (end_value is_step (start_val r) (end_val r)) (start_x r) (end_x r);
     Task1.fig_annotations :=
       Task1.fig_annotations st
       ++ crossing_label is_step (start_x r) (end_x r) (start_val r) (end_val r);
     Task1.x_full_path := Task1.x_full_path st ++ [start_x r; end_x r];
     Task1.y_full_path :=
       Task1.y_full_path st
       ++ [start_val r; end_value is_step (start_val r) (end_val r)] |}.

Definition is_sfd (diagram_type : string) : bool := String.eqb diagram_type "SFD".

(** The fraction of the fence line [k] and the point at that fraction
    between two values, lines 132 to 140. *)
Definition frac (k : nat) : float :=
  (of_int (Z.of_nat k) / of_int (Z.of_nat Task2.num_lines))%float.

Definition between (a b : float) (k : nat) : float :=
  (a + (b - a) * frac k)%float.

Definition fence_indices : list nat := seq 0 (Task2.num_lines + 1).

Definition extend3 (Zx HS : float) (dt : string) (g : Task2.geometry)
    (r : reading) : Task2.geometry :=
  let h1 := (start_val r * HS)%float in
  let c2 := end_value (is_sfd dt) (start_val r) (end_val r) in
  let h2 := (c2 * HS)%float in
  let z1 := (start_z r * Zx)%float in
  let z2 := (end_z r * Zx)%float in
  {| Task2.outline_x :=
       Task2.outline_x g ++ [Some (start_x r); Some (end_x r); None];
     Task2.outline_y := Task2.outline_y g ++ [Some h1; Some h2; None];
     Task2.outline_z := Task2.outline_z g ++ [Some z1; Some z2; None];
     Task2.outline_c := Task2.outline_c g ++ [start_val r; c2; c2];
     Task2.hatch_x :=
       Task2.hatch_x g
       ++ flat_map (fun k => let cx := between (start_x r) (end_x r) k in
                             [Some cx; Some cx; None]) fence_indices;
     Task2.hatch_y :=
       Task2.hatch_y g
       ++ flat_map (fun k => [Some 0%float; Some (between h1 h2 k); None])
                   fence_indices;
     Task2.hatch_z :=
       Task2.hatch_z g
       ++ flat_map (fun k => let cz := between z1 z2 k in
                             [Some cz; Some cz; None]) fence_indices;
     Task2.hatch_c :=
       Task2.hatch_c g
       ++ flat_map (fun k => let cc := between (start_val r) c2 k in
                             [cc; cc; cc]) fence_indices |}.

(** One element between the nodes 1 and 2, at [x_i] and [x_j] on the
    axis, with the moments [val_i] and [val_j] at its ends. *)
Module Span.

Definition members : gmap Z (Z * Z) := list_to_map [(1, (1, 2))]%Z.

Definition nodes (x_i x_j : float) : gmap Z coord :=
  list_to_map [(1%Z, (x_i, 0%float, 0%float)); (2%Z, (x_j, 0%float, 0%float))].

Definition ds (val_i val_j : float) : gmap (Z * string) float :=
  list_to_map [ (1%Z, "Mz_i", val_i); (1%Z, "Mz_j", val_j) ].

Definition empty : Task1.loop_state := Task1.MkState [] [] [] [].

Definition empty3 : Task2.geometry := Task2.MkGeometry [] [] [] [] [] [] [] [].

End Span.

End Binary64.

(** ** Classes of binary64 numbers

    On the specification of the format ([spec_float], the image of a
    primitive float under [Prim2SF]): a number with the sign [s] (a zero, a
    finite number or an infinity), such a number other than zero, a finite
    number (zeros included), and a zero. *)

Inductive signed (s : bool) : spec_float -> Prop :=
| signed_zero : signed s (S754_zero s)
| signed_finite m e : signed s (S754_finite s m e)
| signed_infinity : signed s (S754_infinity s).

Inductive nonzero_signed (s : bool) : spec_float -> Prop :=
| nz_finite m e : nonzero_signed s (S754_finite s m e)
| nz_infinity : nonzero_signed s (S754_infinity s).

Inductive finite_sf : spec_float -> Prop :=
| finite_zero s : finite_sf (S754_zero s)
| finite_finite s m e : finite_sf (S754_finite s m e).

Inductive zero_sf : spec_float -> Prop :=
| is_zero_sf s : zero_sf (S754_zero s).

(** * Properties *)

(** ** Numbers and loops *)

Lemma Qltb_lt (x y : Q) : Qltb x y = true <-> x < y.
Proof.
  unfold Qltb. rewrite negb_true_iff. split.
  - intros H. apply Qnot_le_lt. intros Hle.
    apply Qle_bool_iff in Hle. congruence.
  - intros H. destruct (Qle_bool y x) eqn:E; [| reflexivity].
    apply Qle_bool_iff in E. lra.
Qed.

Lemma Qltb_ge (x y : Q) : Qltb x y = false <-> y <= x.
Proof.
  unfold Qltb. rewrite negb_false_iff. apply Qle_bool_iff.
Qed.

Lemma Qeq_bool_false (x y : Q) : ~ x == y -> Qeq_bool x y = false.
Proof.
  intros H. destruct (Qeq_bool x y) eqn:E; [| reflexivity].
  apply Qeq_bool_eq in E. contradiction.
Qed.

Lemma py_div_ok (a b : Q) : ~ b == 0 -> py_div a b = Ok (a / b).
Proof. intros H. unfold py_div. now rewrite Qeq_bool_false. Qed.

Lemma py_div_zero (a b : Q) : b == 0 -> py_div a b = Err ZeroDivisionError.
Proof.
  intros H. unfold py_div. apply Qeq_bool_iff in H. now rewrite H.
Qed.

Lemma Qmult_same_sign (a b : Q) :
  (0 <= a /\ 0 <= b) \/ (a <= 0 /\ b <= 0) -> 0 <= a * b.
Proof.
  intros [[Ha Hb] | [Ha Hb]].
  - now apply Qmult_le_0_compat.
  - assert (H : 0 <= (- a) * (- b)) by (apply Qmult_le_0_compat; lra).
    assert (E : (- a) * (- b) == a * b) by ring. lra.
Qed.

Section Loops.

Context {A B S : Type}.

(** A loop whose body looks its item up with [f] and then extends the
    state with [add] is the loop that collects, followed by a fold. *)
Lemma for_each_collect (body : S -> A -> result S) (f : A -> result B)
    (add : S -> B -> S) :
  (forall s a, body s a = let* b := f a in Ok (add s b)) ->
  forall l s,
    for_each body l s = let* bs := map_result f l in Ok (fold_left add bs s).
Proof.
  intros Hbody l. induction l as [| a l IH]; intros s; simpl.
  - reflexivity.
  - rewrite Hbody. destruct (f a) as [b | e]; simpl; [| reflexivity].
    rewrite IH. destruct (map_result f l); reflexivity.
Qed.

Lemma map_result_length (f : A -> result B) (l : list A) (bs : list B) :
  map_result f l = Ok bs -> length bs = length l.
Proof.
  revert bs. induction l as [| a l IH]; intros bs; simpl.
  - intros [= <-]. reflexivity.
  - destruct (f a) as [b | e]; simpl; [| discriminate].
    destruct (map_result f l) as [bs' | e]; simpl; [| discriminate].
    intros [= <-]. simpl. f_equal. now apply IH.
Qed.

Lemma map_result_lookup (f : A -> result B) (l : list A) (bs : list B)
    (i : nat) (a : A) :
  map_result f l = Ok bs -> l !! i = Some a ->
  exists b, f a = Ok b /\ bs !! i = Some b.
Proof.
  revert bs i. induction l as [| a' l IH]; intros bs i; simpl.
  - intros _ H. discriminate.
  - destruct (f a') as [b' | e] eqn:Ef; simpl; [| discriminate].
    destruct (map_result f l) as [bs' | e]; simpl; [| discriminate].
    intros [= <-]. destruct i as [| i]; simpl.
    + intros [= ->]. eauto.
    + intros H. eapply IH; eauto.
Qed.

Lemma map_result_all_ok (f : A -> result B) (l : list A) :
  Forall (fun a => is_ok (f a) = true) l ->
  exists bs, map_result f l = Ok bs.
Proof.
  induction 1 as [| a l Ha _ [bs IH]]; simpl.
  - eauto.
  - destruct (f a) as [b | e]; [| discriminate]. simpl.
    rewrite IH. simpl. eauto.
Qed.

(** The loop stops at the first item whose lookup fails. *)
Lemma map_result_first_error (f : A -> result B) (l : list A) :
  Exists (fun a => is_ok (f a) = false) l ->
  exists a e, a ∈ l /\ f a = Err e /\ map_result f l = Err e.
Proof.
  induction 1 as [a l Ha | a l _ (a' & e & Hin & Hf & IH)]; simpl.
  - destruct (f a) as [b | e] eqn:E; [discriminate |].
    exists a, e. split; [left | auto].
  - destruct (f a) as [b | e0] eqn:E; simpl.
    + rewrite IH. exists a', e. split; [now right | auto].
    + exists a, e0. split; [left | auto].
Qed.

End Loops.

(** ** The 2D loop, element by element *)

Section Plot2D.
Import Task1 Profile2D.

Variable members : gmap Z (Z * Z).
Variable nodes : gmap Z coord.
Variable ds : gmap (Z * string) Q.

Lemma square_nonneg (a : Q) : 0 <= a * a.
Proof.
  apply Qmult_same_sign.
  destruct (Qlt_le_dec a 0); [right | left]; split; lra.
Qed.

(** The division of line 99 never fails behind the test of line 98. *)
Lemma zero_crossing_label (is_step : bool) (x_i x_j val_i val_j : Q) :
  zero_crossing is_step x_i x_j val_i val_j
  = Ok (crossing_label is_step x_i x_j val_i val_j).
Proof.
  unfold zero_crossing, crossing_label.
  destruct (negb is_step && Qltb (val_i * val_j) 0) eqn:E; [| reflexivity].
  apply andb_true_iff in E as [_ E]. apply Qltb_lt in E.
  rewrite py_div_ok; [reflexivity |].
  intros H. assert (Hj : val_j == val_i) by lra.
  rewrite Hj in E. pose proof (square_nonneg val_i). lra.
Qed.

Lemma element_resolve (comp_i comp_j : string) (is_step : bool)
    (st : loop_state) (eid : Z) :
  element members nodes ds comp_i comp_j is_step st eid
  = let* r := resolve members nodes ds comp_i comp_j eid in
    Ok (extend is_step st r).
Proof.
  unfold element, resolve.
  destruct (member_of members eid) as [[sn en] | e]; cbn [bind]; [| reflexivity].
  destruct (node_of nodes sn) as [[[x_i yi] zi] | e]; cbn [bind]; [| reflexivity].
  destruct (node_of nodes en) as [[[x_j yj] zj] | e]; cbn [bind]; [| reflexivity].
  destruct (sel ds eid comp_i) as [val_i | e]; cbn [bind]; [| reflexivity].
  destruct (sel ds eid comp_j) as [val_j | e]; cbn [bind]; [| reflexivity].
  destruct is_step; cbn iota; rewrite zero_crossing_label; reflexivity.
Qed.

Lemma fold_extend (is_step : bool) (rs : list reading) (st : loop_state) :
  fold_left (extend is_step) rs st
  = {| fig_shapes := fig_shapes st ++ flat_map (hatch_of is_step) rs;
       fig_annotations := fig_annotations st ++ flat_map (label_of is_step) rs;
       x_full_path := x_full_path st ++ flat_map xs_of rs;
       y_full_path := y_full_path st ++ flat_map (ys_of is_step) rs |}.
Proof.
  revert st. induction rs as [| r rs IH]; intros st.
  - simpl. rewrite !app_nil_r. now destruct st.
  - cbn [fold_left flat_map]. rewrite IH. unfold extend at 1 2 3 4.
    cbn [fig_shapes fig_annotations x_full_path y_full_path].
    now rewrite <- !app_assoc.
Qed.

Lemma plot_girder_figure_of (ids : list Z)
    (comp_i comp_j title color unit : string) (is_step : bool) :
  plot_girder members nodes ds ids comp_i comp_j title color unit is_step
  = let* rs := map_result (resolve members nodes ds comp_i comp_j) ids in
    figure_of is_step title color unit rs.
Proof.
  unfold plot_girder.
  rewrite (for_each_collect _ _ (extend is_step) (element_resolve comp_i comp_j is_step)).
  destruct (map_result _ ids) as [rs | e]; simpl; [| reflexivity].
  rewrite fold_extend. simpl. unfold figure_of, extreme_label. simpl.
  destruct (np_argmax _) as [max_idx | e]; simpl; [| reflexivity].
  destruct (np_argmin _) as [min_idx | e]; simpl; [| reflexivity].
  destruct (py_index (flat_map xs_of rs) max_idx); simpl; [| reflexivity].
  destruct (py_index (flat_map (ys_of is_step) rs) max_idx); simpl; [| reflexivity].
  destruct (py_index (flat_map xs_of rs) min_idx); simpl; [| reflexivity].
  destruct (py_index (flat_map (ys_of is_step) rs) min_idx); simpl; reflexivity.
Qed.

End Plot2D.

(** ** [argmax] and [argmin] *)

Lemma lookup_snoc_inv {A} (pre : list A) (y : A) (j : nat) (y' : A) :
  (pre ++ [y]) !! j = Some y' ->
  pre !! j = Some y' \/ (j = length pre /\ y' = y).
Proof.
  intros H. destruct (Nat.lt_ge_cases j (length pre)) as [Hlt | Hge].
  - left. now rewrite lookup_app_l in H.
  - right. rewrite lookup_app_r in H by assumption.
    destruct (j - length pre)%nat as [| n] eqn:E; simpl in H; [| discriminate].
    split; [lia | congruence].
Qed.

Lemma argmax_from_spec (l pre : list Q) (best_i : nat) (best : Q) :
  first_max pre best_i best ->
  exists y, first_max (pre ++ l) (argmax_from best_i best (length pre) l) y.
Proof.
  revert pre best_i best.
  induction l as [| y l IH]; intros pre best_i best (Hat & Hall & Hbefore).
  - exists best. rewrite app_nil_r. repeat split; assumption.
  - assert (Hi : (best_i < length pre)%nat) by (eapply lookup_lt_Some; eauto).
    replace (pre ++ y :: l) with ((pre ++ [y]) ++ l)
      by (rewrite <- app_assoc; reflexivity).
    cbn [argmax_from].
    replace (S (length pre)) with (length (pre ++ [y]))
      by (rewrite length_app; simpl; lia).
    destruct (Qltb best y) eqn:E; apply IH; repeat split.
    + rewrite lookup_app_r by lia. now rewrite Nat.sub_diag.
    + apply Qltb_lt in E. intros j y' Hj.
      apply lookup_snoc_inv in Hj as [Hj | [_ ->]]; [| lra].
      specialize (Hall j y' Hj). lra.
    + apply Qltb_lt in E. intros j y' Hlt Hj.
      rewrite lookup_app_l in Hj by assumption.
      specialize (Hall j y' Hj). lra.
    + now rewrite lookup_app_l.
    + apply Qltb_ge in E. intros j y' Hj.
      apply lookup_snoc_inv in Hj as [Hj | [_ ->]]; [eauto | assumption].
    + intros j y' Hlt Hj. rewrite lookup_app_l in Hj by lia. eauto.
Qed.

Lemma argmin_from_spec (l pre : list Q) (best_i : nat) (best : Q) :
  first_min pre best_i best ->
  exists y, first_min (pre ++ l) (argmin_from best_i best (length pre) l) y.
Proof.
  revert pre best_i best.
  induction l as [| y l IH]; intros pre best_i best (Hat & Hall & Hbefore).
  - exists best. rewrite app_nil_r. repeat split; assumption.
  - assert (Hi : (best_i < length pre)%nat) by (eapply lookup_lt_Some; eauto).
    replace (pre ++ y :: l) with ((pre ++ [y]) ++ l)
      by (rewrite <- app_assoc; reflexivity).
    cbn [argmin_from].
    replace (S (length pre)) with (length (pre ++ [y]))
      by (rewrite length_app; simpl; lia).
    destruct (Qltb y best) eqn:E; apply IH; repeat split.
    + rewrite lookup_app_r by lia. now rewrite Nat.sub_diag.
    + apply Qltb_lt in E. intros j y' Hj.
      apply lookup_snoc_inv in Hj as [Hj | [_ ->]]; [| lra].
      specialize (Hall j y' Hj). lra.
    + apply Qltb_lt in E. intros j y' Hlt Hj.
      rewrite lookup_app_l in Hj by assumption.
      specialize (Hall j y' Hj). lra.
    + now rewrite lookup_app_l.
    + apply Qltb_ge in E. intros j y' Hj.
      apply lookup_snoc_inv in Hj as [Hj | [_ ->]]; [eauto | assumption].
    + intros j y' Hlt Hj. rewrite lookup_app_l in Hj by lia. eauto.
Qed.

Lemma np_argmax_spec (l : list Q) :
  l <> [] -> exists i y, np_argmax l = Ok i /\ first_max l i y.
Proof.
  destruct l as [| y0 l]; [congruence | intros _].
  destruct (argmax_from_spec l [y0] 0 y0) as [y Hy].
  - repeat split.
    + intros [| j] y' [=]. subst. lra.
    + intros j y' Hlt. lia.
  - exists (argmax_from 0 y0 1 l), y. split; [reflexivity | exact Hy].
Qed.

Lemma np_argmin_spec (l : list Q) :
  l <> [] -> exists i y, np_argmin l = Ok i /\ first_min l i y.
Proof.
  destruct l as [| y0 l]; [congruence | intros _].
  destruct (argmin_from_spec l [y0] 0 y0) as [y Hy].
  - repeat split.
    + intros [| j] y' [=]. subst. lra.
    + intros j y' Hlt. lia.
  - exists (argmin_from 0 y0 1 l), y. split; [reflexivity | exact Hy].
Qed.

(** ** Lists built chunk by chunk *)

Lemma lookup_flat_map_chunk {A B} (f : A -> list B) (n : nat) (l : list A)
    (k j : nat) (a : A) :
  (forall a', length (f a') = n) -> (j < n)%nat -> l !! k = Some a ->
  flat_map f l !! (n * k + j)%nat = f a !! j.
Proof.
  intros Hlen Hj. revert k. induction l as [| a' l IH]; intros k Hk.
  - discriminate.
  - cbn [flat_map]. destruct k as [| k]; simpl in Hk.
    + injection Hk as ->. rewrite Nat.mul_0_r. simpl.
      apply lookup_app_l. rewrite Hlen. exact Hj.
    + rewrite lookup_app_r by (rewrite Hlen; lia).
      rewrite Hlen. replace (n * S k + j - n)%nat with (n * k + j)%nat by lia.
      now apply IH.
Qed.

Lemma lookup_flat_map_chunk_0 {A B} (f : A -> list B) (n : nat) (l : list A)
    (k : nat) (a : A) :
  (forall a', length (f a') = n) -> (0 < n)%nat -> l !! k = Some a ->
  flat_map f l !! (n * k)%nat = f a !! 0%nat.
Proof.
  intros Hlen Hn Hk. rewrite <- (Nat.add_0_r (n * k)).
  now apply lookup_flat_map_chunk.
Qed.

Lemma length_flat_map_chunk {A B} (f : A -> list B) (n : nat) (l : list A) :
  (forall a, length (f a) = n) -> length (flat_map f l) = (n * length l)%nat.
Proof.
  intros Hlen. induction l as [| a l IH]; simpl.
  - lia.
  - rewrite length_app, Hlen, IH. lia.
Qed.

(** ** The whole 2D figure *)

Section Figure2D.
Import Task1 Profile2D.

Variable members : gmap Z (Z * Z).
Variable nodes : gmap Z coord.
Variable ds : gmap (Z * string) Q.

Lemma present_Some {A} (o : option A) : present o = true -> exists a, o = Some a.
Proof. destruct o; [eauto | discriminate]. Qed.

Lemma complete_resolve (comp_i comp_j : string) (ids : list Z) :
  complete members nodes ds comp_i comp_j ids = true ->
  exists rs, map_result (resolve members nodes ds comp_i comp_j) ids = Ok rs.
Proof.
  induction ids as [| eid ids IH]; simpl.
  - eauto.
  - intros H. apply andb_true_iff in H as [He Hrest].
    destruct (IH Hrest) as [rs Hrs]. rewrite Hrs.
    unfold resolve, member_of, node_of, sel.
    destruct (members !! eid) as [[sn en] |]; [| discriminate].
    cbn [bind of_option].
    repeat (apply andb_true_iff in He as [He ?]).
    repeat match goal with
           | H : present _ = true |- _ =>
               apply present_Some in H; destruct H as [? ->]
           end.
    simpl. repeat match goal with |- context [let '(_, _) := ?c in _] =>
                                    destruct c as [[? ?] ?] end.
    simpl. eauto.
Qed.

Lemma length_xs (rs : list reading) :
  length (flat_map xs_of rs) = (2 * length rs)%nat.
Proof. now apply length_flat_map_chunk. Qed.

Lemma length_ys (is_step : bool) (rs : list reading) :
  length (flat_map (ys_of is_step) rs) = (2 * length rs)%nat.
Proof. now apply length_flat_map_chunk. Qed.

Lemma labels_not_extreme (is_step : bool) (rs : list reading) :
  List.filter is_extreme (flat_map (label_of is_step) rs) = [].
Proof.
  induction rs as [| r rs IH]; [reflexivity |].
  cbn [flat_map]. rewrite List.filter_app, IH, app_nil_r.
  unfold label_of, crossing_label.
  destruct (negb is_step && Qltb (start_val r * end_val r) 0); reflexivity.
Qed.

(** With complete tables and at least one element the figure is produced,
    and it is [figure_of] what the loop looked up. *)
Lemma plot_girder_total (ids : list Z)
    (comp_i comp_j title color unit : string) (is_step : bool) :
  ids <> [] ->
  complete members nodes ds comp_i comp_j ids = true ->
  exists rs fig,
    map_result (resolve members nodes ds comp_i comp_j) ids = Ok rs
    /\ plot_girder members nodes ds ids comp_i comp_j title color unit is_step
       = Ok fig
    /\ figure_of is_step title color unit rs = Ok fig
    /\ exists i_max y_max x_max i_min y_min x_min,
        first_max (flat_map (ys_of is_step) rs) i_max y_max
        /\ flat_map xs_of rs !! i_max = Some x_max
        /\ first_min (flat_map (ys_of is_step) rs) i_min y_min
        /\ flat_map xs_of rs !! i_min = Some x_min
        /\ annotations fig
           = flat_map (label_of is_step) rs
             ++ [Extreme "MAX" x_max y_max; Extreme "MIN" x_min y_min].
Proof.
  intros Hne Hc. destruct (complete_resolve _ _ _ Hc) as [rs Hrs].
  rewrite plot_girder_figure_of, Hrs. cbn [bind].
  assert (Hys : flat_map (ys_of is_step) rs <> []).
  { intros E. apply (f_equal length) in E. rewrite length_ys in E.
    apply map_result_length in Hrs. destruct ids; [congruence |].
    simpl in *. lia. }
  destruct (np_argmax_spec _ Hys) as (i_max & y_max & Eimax & Hmax).
  destruct (np_argmin_spec _ Hys) as (i_min & y_min & Eimin & Hmin).
  assert (Hx : forall i y, flat_map (ys_of is_step) rs !! i = Some y ->
                           exists x, flat_map xs_of rs !! i = Some x).
  { intros i y Hi. apply lookup_lt_Some in Hi. rewrite length_ys in Hi.
    apply lookup_lt_is_Some_2. now rewrite length_xs. }
  destruct (Hx _ _ (proj1 Hmax)) as [x_max Exmax].
  destruct (Hx _ _ (proj1 Hmin)) as [x_min Exmin].
  exists rs. unfold figure_of. rewrite Eimax, Eimin. cbn [bind].
  unfold py_index. rewrite Exmax, Exmin, (proj1 Hmax), (proj1 Hmin).
  cbn [of_option bind]. eexists. split; [reflexivity |].
  split; [reflexivity |]. split; [reflexivity |].
  exists i_max, y_max, x_max, i_min, y_min, x_min. auto 10.
Qed.


End Figure2D.

(** ** The 3D loops, element by element *)

Section Plot3D.
Import Task2 Profile3D.

Variable members : gmap Z (Z * Z).
Variable nodes : gmap Z coord.
Variable ds : gmap (Z * string) Q.

Lemma diagram_logic_eq (dt : string) (HS v1 v2 : Q) :
  diagram_logic dt HS v1 v2
  = (v1 * HS, end_value (is_sfd dt) v1 v2 * HS, v1, end_value (is_sfd dt) v1 v2).
Proof.
  unfold diagram_logic, is_sfd. now destruct (String.eqb dt "SFD").
Qed.

Lemma fold_fence_line (a1 a2 b1 b2 h1 h2 c1 c2 : Q) (ks : list nat) (g : geometry) :
  fold_left (fence_line a1 a2 b1 b2 h1 h2 c1 c2) ks g
  = {| outline_x := outline_x g; outline_y := outline_y g;
       outline_z := outline_z g; outline_c := outline_c g;
       hatch_x := hatch_x g
         ++ flat_map (fun k => let cx := between a1 a2 k in [Some cx; Some cx; None]) ks;
       hatch_y := hatch_y g
         ++ flat_map (fun k => [Some 0; Some (between h1 h2 k); None]) ks;
       hatch_z := hatch_z g
         ++ flat_map (fun k => let cz := between b1 b2 k in [Some cz; Some cz; None]) ks;
       hatch_c := hatch_c g
         ++ flat_map (fun k => let cc := between c1 c2 k in [cc; cc; cc]) ks |}.
Proof.
  revert g. induction ks as [| k ks IH]; intros g.
  - simpl. rewrite !app_nil_r. now destruct g.
  - cbn [fold_left flat_map]. rewrite IH. unfold fence_line at 1 2 3 4 5 6 7 8.
    cbn [outline_x outline_y outline_z outline_c hatch_x hatch_y hatch_z hatch_c].
    rewrite <- !app_assoc. reflexivity.
Qed.

Lemma element_resolve3 (Zx HS : Q) (comp_i comp_j dt : string)
    (g : geometry) (eid : Z) :
  element members nodes ds Zx HS comp_i comp_j dt g eid
  = let* r := resolve members nodes ds comp_i comp_j eid in
    Ok (extend Zx HS dt g r).
Proof.
  unfold element, resolve.
  destruct (member_of members eid) as [[sn en] | e]; cbn [bind]; [| reflexivity].
  destruct (node_of nodes sn) as [[[a1 y1] b1] | e]; cbn [bind]; [| reflexivity].
  destruct (node_of nodes en) as [[[a2 y2] b2] | e]; cbn [bind]; [| reflexivity].
  destruct (sel ds eid comp_i) as [v1 | e]; cbn [bind]; [| reflexivity].
  destruct (sel ds eid comp_j) as [v2 | e]; cbn [bind]; [| reflexivity].
  rewrite diagram_logic_eq. cbn iota. rewrite fold_fence_line. reflexivity.
Qed.

Lemma fold_extend3 (Zx HS : Q) (dt : string) (rs : list reading) (g : geometry) :
  fold_left (extend Zx HS dt) rs g
  = {| outline_x := outline_x g ++ flat_map ox_of rs;
       outline_y := outline_y g ++ flat_map (oy_of dt HS) rs;
       outline_z := outline_z g ++ flat_map (oz_of Zx) rs;
       outline_c := outline_c g ++ flat_map (oc_of dt) rs;
       hatch_x := hatch_x g ++ flat_map hx_of rs;
       hatch_y := hatch_y g ++ flat_map (hy_of dt HS) rs;
       hatch_z := hatch_z g ++ flat_map (hz_of Zx) rs;
       hatch_c := hatch_c g ++ flat_map (hc_of dt) rs |}.
Proof.
  revert g. induction rs as [| r rs IH]; intros g.
  - simpl. rewrite !app_nil_r. now destruct g.
  - cbn [fold_left flat_map]. rewrite IH. unfold extend at 1 2 3 4 5 6 7 8.
    cbn [outline_x outline_y outline_z outline_c hatch_x hatch_y hatch_z hatch_c].
    rewrite <- !app_assoc. reflexivity.
Qed.

Lemma baseline_node_resolve (Zx : Q)
    (b : list (option Q) * list (option Q) * list (option Q)) (n : Z) :
  baseline_node nodes Zx b n
  = let* c := node_of nodes n in Ok (axis_point Zx b c).
Proof.
  unfold baseline_node, axis_point. destruct b as [[bx by_] bz].
  destruct (node_of nodes n) as [[[x y] z] | e]; reflexivity.
Qed.

Lemma fold_axis_point (Zx : Q) (cs : list coord)
    (bx by_ bz : list (option Q)) :
  fold_left (axis_point Zx) cs (bx, by_, bz)
  = (bx ++ map (fun c : coord => Some (fst (fst c))) cs,
     by_ ++ map (fun _ : coord => Some 0) cs,
     bz ++ map (fun c : coord => Some (snd c * Zx)) cs).
Proof.
  revert bx by_ bz. induction cs as [| [[x y] z] cs IH]; intros bx by_ bz.
  - simpl. now rewrite !app_nil_r.
  - cbn [fold_left axis_point]. rewrite IH. simpl. now rewrite <- !app_assoc.
Qed.

Lemma plot_one_traces (Zx HS C_MIN C_MAX : Q) (comp_i comp_j dt : string)
    (traces : list scatter3d) (g : string * girder) :
  plot_one members nodes ds Zx HS C_MIN C_MAX comp_i comp_j dt traces g
  = let* gr := girder_readings members nodes ds comp_i comp_j g in
    Ok (traces ++ traces_of Zx HS C_MIN C_MAX dt gr).
Proof.
  unfold plot_one, girder_readings. destruct g as [g_name g]. cbn [fst snd].
  rewrite (for_each_collect _ _ (axis_point Zx) (baseline_node_resolve Zx)).
  destruct (map_result (node_of nodes) (girder_nodes g)) as [cs | e];
    cbn [bind]; [| reflexivity].
  rewrite fold_axis_point. cbn [app].
  rewrite (for_each_collect _ _ (extend Zx HS dt)
             (element_resolve3 Zx HS comp_i comp_j dt)).
  destruct (map_result _ (elements g)) as [rs | e]; cbn [bind]; [| reflexivity].
  rewrite fold_extend3. reflexivity.
Qed.

Lemma scan_element_samples (comp_i comp_j : string) (all_forces : list Q) (eid : Z) :
  scan_element ds comp_i comp_j all_forces eid
  = let* p := samples ds comp_i comp_j eid in Ok (all_forces ++ both p).
Proof.
  unfold scan_element, samples.
  destruct (sel ds eid comp_i); cbn [bind]; [| reflexivity].
  destruct (sel ds eid comp_j); reflexivity.
Qed.

Lemma fold_app {A B} (f : B -> list A) (bs : list B) (acc : list A) :
  fold_left (fun acc b => acc ++ f b) bs acc = acc ++ flat_map f bs.
Proof.
  revert acc. induction bs as [| b bs IH]; intros acc; simpl.
  - now rewrite app_nil_r.
  - rewrite IH. now rewrite <- app_assoc.
Qed.

Lemma scan_girder_samples (comp_i comp_j : string) (all_forces : list Q)
    (g : string * girder) :
  scan_girder ds comp_i comp_j all_forces g
  = let* ps := map_result (samples ds comp_i comp_j) (elements (snd g)) in
    Ok (all_forces ++ flat_map both ps).
Proof.
  unfold scan_girder.
  rewrite (for_each_collect _ _ (fun acc p => acc ++ both p)
             (scan_element_samples comp_i comp_j)).
  destruct (map_result _ _); cbn [bind]; [| reflexivity].
  now rewrite fold_app.
Qed.

Lemma plot_girders_figure_of (Zx : Q) (girders : list (string * girder))
    (comp_i comp_j title : string) :
  plot_girders members nodes ds Zx girders comp_i comp_j title
  = figure_of members nodes ds Zx girders comp_i comp_j title.
Proof.
  unfold plot_girders, figure_of.
  rewrite (for_each_collect _ _ (fun acc ps => acc ++ flat_map both ps)
             (scan_girder_samples comp_i comp_j)).
  destruct (map_result _ girders) as [pss | e]; cbn [bind]; [| reflexivity].
  rewrite fold_app. cbn [app].
  destruct (height_scale _) as [HS | e]; cbn [bind]; [| reflexivity].
  destruct (py_min _) as [C_MIN | e]; cbn [bind]; [| reflexivity].
  destruct (py_max _) as [C_MAX | e]; cbn [bind]; [| reflexivity].
  fold (diagram_type_of comp_i).
  rewrite (for_each_collect _ _
             (fun acc gr => acc ++ traces_of Zx HS C_MIN C_MAX (diagram_type_of comp_i) gr)
             (plot_one_traces Zx HS C_MIN C_MAX comp_i comp_j (diagram_type_of comp_i))).
  destruct (map_result _ girders) as [grs | e]; cbn [bind]; [| reflexivity].
  now rewrite fold_app.
Qed.

End Plot3D.

(** ** The expansion of the depth axis *)

Section Expansion.
Import Task2 Profile3D.

Variable members : gmap Z (Z * Z).
Variable nodes : gmap Z coord.
Variable ds : gmap (Z * string) Q.

Lemma traces_without_z (Zx Zx' HS C_MIN C_MAX : Q) (dt : string)
    (grs : list (string * list coord * list reading)) :
  map (fun t => (tr_x t, tr_y t, tr_line t))
      (flat_map (traces_of Zx HS C_MIN C_MAX dt) grs)
  = map (fun t => (tr_x t, tr_y t, tr_line t))
        (flat_map (traces_of Zx' HS C_MIN C_MAX dt) grs).
Proof.
  induction grs as [| [[g_name cs] rs] grs IH]; [reflexivity |].
  cbn [flat_map]. rewrite !map_app, IH. reflexivity.
Qed.

(** C9. Two runs that differ only in the expansion factor of the depth
    axis end alike (both with the same exception, or both with a figure),
    and the two figures agree on everything but the z-coordinates: the x-
    coordinates, the scaled heights, the colour values and the bounds of
    the colour domain of every trace, hence also the samples and the height
    scale they are computed from. *)
Theorem z_expansion_changes_only_z (Zx Zx' : Q)
    (girders : list (string * girder)) (comp_i comp_j title : string) :
  result_map without_z
    (plot_girders members nodes ds Zx girders comp_i comp_j title)
  = result_map without_z
      (plot_girders members nodes ds Zx' girders comp_i comp_j title).
Proof.
  rewrite !plot_girders_figure_of. unfold figure_of.
  destruct (map_result _ girders) as [pss | e]; cbn [bind]; [| reflexivity].
  destruct (height_scale _) as [HS | e]; cbn [bind]; [| reflexivity].
  destruct (py_min _) as [C_MIN | e]; cbn [bind]; [| reflexivity].
  destruct (py_max _) as [C_MAX | e]; cbn [bind]; [| reflexivity].
  destruct (map_result _ girders) as [grs | e]; cbn [bind]; [| reflexivity].
  unfold result_map, without_z. cbn [data layout_title].
  now rewrite (traces_without_z Zx Zx').
Qed.

End Expansion.

(** ** Hatch values *)

Section Hatch.
Import Task1 Task2.

Lemma hatch_value_linear (val_start val_end x_i x_j hx : Q) :
  ~ x_i == x_j ->
  hatch_value false val_start val_end x_i x_j hx
  = Some (val_start + (val_end - val_start) * (hx - x_i) / (x_j - x_i)).
Proof.
  intros H. unfold hatch_value, np_div.
  rewrite Qeq_bool_false; [reflexivity | lra].
Qed.

Lemma hatch_value_nan (val_start val_end x_i x_j hx : Q) :
  x_i == x_j -> hatch_value false val_start val_end x_i x_j hx = None.
Proof.
  intros H. unfold hatch_value, np_div.
  assert (E : Qeq_bool (x_j - x_i) 0 = true) by (apply Qeq_bool_iff; lra).
  now rewrite E.
Qed.

Lemma length_linspace (a b : Q) (num : nat) : length (linspace a b num) = num.
Proof.
  unfold linspace. destruct (1 <? num)%nat.
  - now rewrite length_insert, length_map, length_seq.
  - now rewrite length_map, length_seq.
Qed.

End Hatch.

(** ** What the lookups of an element tell *)

Section Lookups.

Variable members : gmap Z (Z * Z).
Variable nodes : gmap Z coord.
Variable ds : gmap (Z * string) Q.

Lemma of_option_ok {A} (e : error) (o : option A) (a : A) :
  of_option e o = Ok a -> o = Some a.
Proof. destruct o; simpl; congruence. Qed.

Lemma of_option_err {A} (e e' : error) (o : option A) :
  of_option e o = Err e' -> o = None /\ e' = e.
Proof. destruct o; simpl; [discriminate | intros [= <-]; auto]. Qed.

Lemma resolve_inv (comp_i comp_j : string) (eid : Z) (r : reading) :
  resolve members nodes ds comp_i comp_j eid = Ok r ->
  exists sn en ys ye,
    members !! eid = Some (sn, en)
    /\ nodes !! sn = Some (start_x r, ys, start_z r)
    /\ nodes !! en = Some (end_x r, ye, end_z r)
    /\ ds !! (eid, comp_i) = Some (start_val r)
    /\ ds !! (eid, comp_j) = Some (end_val r).
Proof.
  unfold resolve, member_of, node_of, sel. intros H.
  destruct (members !! eid) as [[sn en] |] eqn:Em; [| discriminate].
  cbn [of_option bind] in H.
  destruct (nodes !! sn) as [[[a1 ys] b1] |] eqn:Es; [| discriminate].
  cbn [of_option bind] in H.
  destruct (nodes !! en) as [[[a2 ye] b2] |] eqn:Ee; [| discriminate].
  cbn [of_option bind] in H.
  destruct (ds !! (eid, comp_i)) as [v1 |] eqn:Ei; [| discriminate].
  cbn [of_option bind] in H.
  destruct (ds !! (eid, comp_j)) as [v2 |] eqn:Ej; [| discriminate].
  cbn [of_option bind] in H. injection H as <-.
  exists sn, en, ys, ye. cbn. auto.
Qed.

Lemma resolve_error (comp_i comp_j : string) (eid : Z) (e : error) :
  resolve members nodes ds comp_i comp_j eid = Err e ->
  error_is_missing members nodes ds e.
Proof.
  unfold resolve, member_of, node_of, sel.
  destruct (members !! eid) as [[sn en] |] eqn:Em; cbn [of_option bind];
    [| intros [= <-]; exact Em].
  destruct (nodes !! sn) as [[[a1 ys] b1] |] eqn:Es; cbn [of_option bind];
    [| intros [= <-]; exact Es].
  destruct (nodes !! en) as [[[a2 ye] b2] |] eqn:Ee; cbn [of_option bind];
    [| intros [= <-]; exact Ee].
  destruct (ds !! (eid, comp_i)) as [v1 |] eqn:Ei; cbn [of_option bind];
    [| intros [= <-]; exact Ei].
  destruct (ds !! (eid, comp_j)) as [v2 |] eqn:Ej; cbn [of_option bind];
    [discriminate | intros [= <-]; exact Ej].
Qed.

Lemma resolve_needs_samples (comp_i comp_j c : string) (eid : Z) :
  c = comp_i \/ c = comp_j -> ds !! (eid, c) = None ->
  is_ok (resolve members nodes ds comp_i comp_j eid) = false.
Proof.
  intros Hc Hnone.
  destruct (resolve members nodes ds comp_i comp_j eid) as [r | e] eqn:E;
    [| reflexivity].
  apply resolve_inv in E as (sn & en & ys & ye & _ & _ & _ & Hi & Hj).
  destruct Hc as [-> | ->]; congruence.
Qed.

Lemma samples_error (comp_i comp_j : string) (eid : Z) (e : error) :
  Profile3D.samples ds comp_i comp_j eid = Err e ->
  exists c, e = MissingData eid c /\ ds !! (eid, c) = None.
Proof.
  unfold Profile3D.samples, sel.
  destruct (ds !! (eid, comp_i)) as [v1 |] eqn:Ei; cbn [of_option bind];
    [| intros [= <-]; eauto].
  destruct (ds !! (eid, comp_j)) as [v2 |] eqn:Ej; cbn [of_option bind];
    [discriminate | intros [= <-]; eauto].
Qed.

Lemma samples_need_samples (comp_i comp_j c : string) (eid : Z) :
  c = comp_i \/ c = comp_j -> ds !! (eid, c) = None ->
  is_ok (Profile3D.samples ds comp_i comp_j eid) = false.
Proof.
  intros Hc Hnone. unfold Profile3D.samples, sel.
  destruct (ds !! (eid, comp_i)) as [v1 |] eqn:Ei; [| reflexivity].
  destruct (ds !! (eid, comp_j)) as [v2 |] eqn:Ej; [| reflexivity].
  destruct Hc as [-> | ->]; congruence.
Qed.

Lemma map_result_error_from {A B} (f : A -> result B) (l : list A) (e : error) :
  map_result f l = Err e -> exists a, a ∈ l /\ f a = Err e.
Proof.
  induction l as [| a l IH]; simpl; [discriminate |].
  destruct (f a) as [b | e0] eqn:E; cbn [bind].
  - destruct (map_result f l) as [bs | e1]; cbn [bind]; [discriminate |].
    intros [= <-]. destruct IH as [a' [Hin Ha']]; [reflexivity |].
    exists a'. split; [now right | exact Ha'].
  - intros [= <-]. exists a. split; [left | exact E].
Qed.



End Lookups.

(** ** Missing data *)

Section Missing.
Import Task1 Task2.

Variable members : gmap Z (Z * Z).
Variable nodes : gmap Z coord.
Variable ds : gmap (Z * string) Q.

(** C5. When the data set lacks a sample the diagram asks for (the
    component [c] of an element [eid] of the girder), neither function
    returns a figure: both end with an exception.  In the 3D function it
    is the missing-data exception of a sample the data set lacks; in the 2D
    function it is the exception of the first failed lookup, which names a
    key that its table really lacks.  No value stands in for the missing
    one. *)
Theorem missing_data_aborts (comp_i comp_j c : string) (eid : Z) :
  c = comp_i \/ c = comp_j ->
  ds !! (eid, c) = None ->
  (forall (ids : list Z) (k : nat) (title color unit : string) (is_step : bool),
      ids !! k = Some eid ->
      exists e,
        plot_girder members nodes ds ids comp_i comp_j title color unit is_step
        = Err e
        /\ error_is_missing members nodes ds e)
  /\ (forall (Zx : Q) (girders : list (string * girder)) (k j : nat)
             (g_name title : string) (g : girder),
         girders !! k = Some (g_name, g) ->
         elements g !! j = Some eid ->
         exists eid' c',
           plot_girders members nodes ds Zx girders comp_i comp_j title
           = Err (MissingData eid' c')
           /\ ds !! (eid', c') = None).
Proof.
  intros Hc Hnone. split.
  - intros ids k title color unit is_step Hk.
    rewrite plot_girder_figure_of.
    destruct (map_result_first_error (resolve members nodes ds comp_i comp_j) ids)
      as (a & e & _ & Ha & Hall).
    { apply Exists_exists. exists eid. split.
      - eapply list_elem_of_lookup_2; eauto.
      - eapply resolve_needs_samples; eauto. }
    rewrite Hall. cbn [bind]. exists e. split; [reflexivity |].
    eapply resolve_error; eauto.
  - intros Zx girders k j g_name title g Hk Hj.
    rewrite plot_girders_figure_of. unfold Profile3D.figure_of.
    destruct (map_result_first_error
                (fun g : string * girder =>
                   map_result (Profile3D.samples ds comp_i comp_j) (elements (snd g)))
                girders) as (g' & e & _ & Hg' & Hall).
    { apply Exists_exists. exists (g_name, g). split.
      - eapply list_elem_of_lookup_2; eauto.
      - cbn [snd].
        destruct (map_result_first_error (Profile3D.samples ds comp_i comp_j)
                    (elements g)) as (a & e & _ & _ & ->); [| reflexivity].
        apply Exists_exists. exists eid. split.
        + eapply list_elem_of_lookup_2; eauto.
        + eapply samples_need_samples; eauto. }
    rewrite Hall. cbn [bind].
    apply map_result_error_from in Hg' as (a & _ & Ha).
    apply samples_error in Ha as (c' & -> & Hc').
    exists a, c'. auto.
Qed.

End Missing.

Lemma missing_data_aborts_witness :
  ("Mz_i" = "Mz_i" \/ "Mz_i" = "Mz_j")
  /\ Deck.ds_shear_only !! (15%Z, "Mz_i") = None
  /\ (exists e,
         Task1.generate_midas_style_plot Deck.members Deck.nodes
           Deck.ds_shear_only "Mz_i" "Mz_j" "BMD - Central Girder" "red" "kN-m" false
         = Err e)
  /\ (exists eid' c',
         Task2.create_midas_polished_plot Deck.members Deck.nodes
           Deck.ds_shear_only "Mz_i" "Mz_j" "Bending Moment (BMD)"
         = Err (MissingData eid' c')).
Proof.
  assert (Hc : "Mz_i" = "Mz_i" \/ "Mz_i" = "Mz_j") by (left; reflexivity).
  assert (Hnone : Deck.ds_shear_only !! (15%Z, "Mz_i") = None)
    by (vm_compute; reflexivity).
  destruct (missing_data_aborts Deck.members Deck.nodes Deck.ds_shear_only
              "Mz_i" "Mz_j" "Mz_i" 15 Hc Hnone) as [H2 H3].
  split; [exact Hc |]. split; [exact Hnone |]. split.
  - destruct (H2 Task1.CENTRAL_GIRDER_IDS 0%nat "BMD - Central Girder" "red"
                "kN-m" false) as (e & He & _); [reflexivity |].
    exists e. exact He.
  - destruct (H3 Task2.Z_EXPANSION Task2.GIRDERS 2%nat 0%nat "Girder 3"
                "Bending Moment (BMD)"
                (Task2.Girder [15; 24; 33; 42; 51; 60; 69; 78; 83]%Z
                              [3; 13; 18; 23; 28; 33; 38; 43; 48; 8]%Z))
      as (eid' & c' & He & _); [reflexivity | reflexivity |].
    exists eid', c'. exact He.
Defined.

(** ** The whole 3D figure *)

Section Figure3D.
Import Task2 Profile3D.

Variable members : gmap Z (Z * Z).
Variable nodes : gmap Z coord.
Variable ds : gmap (Z * string) Q.

Lemma max_from_spec (l : list Q) (best : Q) :
  (max_from best l = best \/ max_from best l ∈ l)
  /\ best <= max_from best l
  /\ (forall y, y ∈ l -> y <= max_from best l).
Proof.
  revert best. induction l as [| y l IH]; intros best; simpl.
  - split; [now left |]. split; [lra |]. intros y Hy. inversion Hy.
  - destruct (IH (if Qltb best y then y else best)) as (Hin & Hge & Hall).
    destruct (Qltb best y) eqn:E.
    + apply Qltb_lt in E. split; [| split].
      * right. destruct Hin as [-> | Hin]; [left | now right].
      * lra.
      * intros y' Hy'. inversion Hy'; subst; [exact Hge | now apply Hall].
    + apply Qltb_ge in E. split; [| split].
      * destruct Hin as [-> | Hin]; [now left | right; now right].
      * exact Hge.
      * intros y' Hy'. inversion Hy'; subst; [lra | now apply Hall].
Qed.

Lemma py_max_spec (l : list Q) :
  l <> [] ->
  exists m, py_max l = Ok m /\ m ∈ l /\ (forall y, y ∈ l -> y <= m).
Proof.
  destruct l as [| y0 l]; [congruence | intros _].
  destruct (max_from_spec l y0) as (Hin & Hge & Hall).
  exists (max_from y0 l). split; [reflexivity |]. split.
  - destruct Hin as [-> | Hin]; [left | now right].
  - intros y Hy. inversion Hy; subst; [exact Hge | now apply Hall].
Qed.

Lemma Qabs_pos (v : Q) : ~ v == 0 -> 0 < Qabs v.
Proof. intros H. apply Qabs_case; intros; lra. Qed.

Lemma samples_requested (comp_i comp_j : string) (ids : list Z) (ps : list (Q * Q)) :
  map_result (samples ds comp_i comp_j) ids = Ok ps ->
  flat_map (fun eid => [ds !! (eid, comp_i); ds !! (eid, comp_j)]) ids
  = map Some (flat_map both ps).
Proof.
  revert ps. induction ids as [| eid ids IH]; intros ps; cbn [map_result].
  - now intros [= <-].
  - unfold samples at 1, sel.
    destruct (ds !! (eid, comp_i)) as [v1 |] eqn:Ei; cbn [of_option bind];
      [| discriminate].
    destruct (ds !! (eid, comp_j)) as [v2 |] eqn:Ej; cbn [of_option bind];
      [| discriminate].
    destruct (map_result _ ids) as [ps' |]; cbn [bind]; [| discriminate].
    intros [= <-]. cbn [flat_map both fst snd app map].
    rewrite Ei, Ej. f_equal. f_equal. now apply IH.
Qed.

Lemma scan_requested (comp_i comp_j : string) (girders : list (string * girder))
    (pss : list (list (Q * Q))) :
  map_result (fun g : string * girder =>
                map_result (samples ds comp_i comp_j) (elements (snd g))) girders
  = Ok pss ->
  requested ds comp_i comp_j girders = map Some (flat_map (flat_map both) pss).
Proof.
  revert pss. induction girders as [| g girders IH]; intros pss; cbn [map_result].
  - now intros [= <-].
  - destruct (map_result _ (elements (snd g))) as [ps |] eqn:E; cbn [bind];
      [| discriminate].
    destruct (map_result _ girders) as [pss' |]; cbn [bind]; [| discriminate].
    intros [= <-]. unfold requested. cbn [flat_map].
    rewrite map_app. f_equal; [now apply samples_requested | now apply IH].
Qed.

Lemma complete_samples (comp_i comp_j : string) (ids : list Z) :
  complete members nodes ds comp_i comp_j ids = true ->
  exists ps, map_result (samples ds comp_i comp_j) ids = Ok ps.
Proof.
  induction ids as [| eid ids IH]; simpl; [eauto |].
  intros H. apply andb_true_iff in H as [He Hrest].
  destruct (IH Hrest) as [ps ->].
  destruct (members !! eid) as [[sn en] |]; [| discriminate].
  repeat (apply andb_true_iff in He as [He ?]).
  unfold samples, sel.
  repeat match goal with
         | H : present (ds !! _) = true |- _ =>
             apply present_Some in H; destruct H as [? ->]
         end.
  simpl. eauto.
Qed.

Lemma complete_scan (comp_i comp_j : string) (girders : list (string * girder)) :
  complete_all members nodes ds comp_i comp_j girders = true ->
  exists pss,
    map_result (fun g : string * girder =>
                  map_result (samples ds comp_i comp_j) (elements (snd g))) girders
    = Ok pss.
Proof.
  induction girders as [| g girders IH]; simpl; [eauto |].
  intros H. apply andb_true_iff in H as [Hg Hrest].
  apply andb_true_iff in Hg as [_ Hg].
  destruct (complete_samples _ _ _ Hg) as [ps ->].
  destruct (IH Hrest) as [pss ->]. simpl. eauto.
Qed.

Lemma present_nodes (ns : list Z) :
  forallb (fun n => present (nodes !! n)) ns = true ->
  exists cs, map_result (node_of nodes) ns = Ok cs.
Proof.
  induction ns as [| n ns IH]; simpl; [eauto |].
  intros H. apply andb_true_iff in H as [Hn Hrest].
  destruct (IH Hrest) as [cs ->]. unfold node_of.
  apply present_Some in Hn as [c ->]. simpl. eauto.
Qed.

Lemma complete_readings (comp_i comp_j : string) (girders : list (string * girder)) :
  complete_all members nodes ds comp_i comp_j girders = true ->
  exists grs,
    map_result (girder_readings members nodes ds comp_i comp_j) girders = Ok grs.
Proof.
  induction girders as [| g girders IH]; simpl; [eauto |].
  intros H. apply andb_true_iff in H as [Hg Hrest].
  apply andb_true_iff in Hg as [Hn Hg].
  destruct (IH Hrest) as [grs ->]. unfold girder_readings.
  destruct (present_nodes _ Hn) as [cs ->].
  destruct (complete_resolve members nodes ds _ _ _ Hg) as [rs ->].
  simpl. eauto.
Qed.

(** With complete tables and one sample that is not zero the figure is
    produced, with one height scale for all of it. *)
Lemma plot_girders_total (Zx : Q) (girders : list (string * girder))
    (comp_i comp_j title : string) :
  complete_all members nodes ds comp_i comp_j girders = true ->
  existsb nonzero (requested ds comp_i comp_j girders) = true ->
  exists M C_MIN C_MAX grs,
    max_abs_of ds comp_i comp_j girders M
    /\ ~ M == 0
    /\ map_result (girder_readings members nodes ds comp_i comp_j) girders = Ok grs
    /\ plot_girders members nodes ds Zx girders comp_i comp_j title
       = Ok {| data := flat_map (traces_of Zx (TARGET_HEIGHT / M) C_MIN C_MAX
                                           (diagram_type_of comp_i)) grs;
               layout_title := title |}.
Proof.
  intros Hc Hnz.
  destruct (complete_scan _ _ _ Hc) as [pss Hpss].
  destruct (complete_readings _ _ _ Hc) as [grs Hgrs].
  pose proof (scan_requested _ _ _ _ Hpss) as Hreq.
  set (all := flat_map (flat_map both) pss) in *.
  apply existsb_exists in Hnz as (o & Ho & Hv).
  destruct o as [v |]; [| discriminate]. cbn in Hv.
  apply negb_true_iff in Hv.
  assert (Hv0 : ~ v == 0) by (intros E; apply Qeq_bool_iff in E; congruence).
  rewrite Hreq in Ho. apply in_map_iff in Ho as (v' & [= ->] & Hin).
  assert (Hall : all <> []) by (intros E; rewrite E in Hin; inversion Hin).
  assert (Habs : map Qabs all <> []).
  { intros E. apply Hall. now apply map_eq_nil in E. }
  destruct (py_max_spec _ Habs) as (M & EM & HMin & HMall).
  assert (HM : ~ M == 0).
  { pose proof (Qabs_pos v Hv0).
    assert (Qabs v <= M) by (apply HMall, list_elem_of_In, in_map, Hin). lra. }
  destruct (py_max_spec _ Hall) as (C_MAX & EC & _).
  assert (exists C_MIN, py_min all = Ok C_MIN) as [C_MIN EMIN]
      by (destruct all; [congruence | eexists; reflexivity]).
  exists M, C_MIN, C_MAX, grs. split; [| split; [exact HM | split; [exact Hgrs |]]].
  - split.
    + intros w Hw. rewrite Hreq in Hw.
      apply list_elem_of_In, in_map_iff in Hw as (w' & [= ->] & Hw).
      apply HMall, list_elem_of_In, in_map, Hw.
    + apply list_elem_of_In, in_map_iff in HMin as (w & <- & Hw).
      exists w. split; [| reflexivity].
      rewrite Hreq. apply list_elem_of_In, in_map, Hw.
  - rewrite plot_girders_figure_of. unfold figure_of.
    rewrite Hpss. cbn [bind]. fold all. unfold height_scale.
    assert (Ema : (match map Qabs all with [] => Ok 1 | _ :: _ => py_max (map Qabs all) end)
                  = Ok M).
    { destruct (map Qabs all); [congruence | exact EM]. }
    rewrite Ema. cbn [bind]. rewrite (py_div_ok _ _ HM). cbn [bind].
    rewrite EMIN, EC. cbn [bind]. rewrite Hgrs. reflexivity.
Qed.

End Figure3D.

(** ** Where the traces of a girder and the points of an element sit *)

Section Positions.
Import Task2 Profile3D.

Variable members : gmap Z (Z * Z).
Variable nodes : gmap Z coord.
Variable ds : gmap (Z * string) Q.

Lemma readings_lookup (comp_i comp_j : string) (girders : list (string * girder))
    (grs : list (string * list coord * list reading)) (k : nat)
    (g_name : string) (g : girder) :
  map_result (girder_readings members nodes ds comp_i comp_j) girders = Ok grs ->
  girders !! k = Some (g_name, g) ->
  exists cs rs,
    grs !! k = Some (g_name, cs, rs)
    /\ map_result (resolve members nodes ds comp_i comp_j) (elements g) = Ok rs.
Proof.
  intros Hgrs Hk.
  destruct (map_result_lookup _ _ _ _ _ Hgrs Hk) as (gr & Hgr & Hlk).
  unfold girder_readings in Hgr. cbn [fst snd] in Hgr.
  destruct (map_result (node_of nodes) _) as [cs |]; cbn [bind] in Hgr;
    [| discriminate].
  destruct (map_result (resolve _ _ _ _ _) _) as [rs |]; cbn [bind] in Hgr;
    [| discriminate].
  injection Hgr as <-. eauto.
Qed.

Lemma traces_lookup (Zx HS C_MIN C_MAX : Q) (dt : string)
    (grs : list (string * list coord * list reading)) (k p : nat)
    (gr : string * list coord * list reading) :
  grs !! k = Some gr -> (p < 3)%nat ->
  flat_map (traces_of Zx HS C_MIN C_MAX dt) grs !! (3 * k + p)%nat
  = traces_of Zx HS C_MIN C_MAX dt gr !! p.
Proof.
  intros Hk Hp. apply lookup_flat_map_chunk; [| exact Hp | exact Hk].
  now intros [[? ?] ?].
Qed.

Lemma is_sfd_diagram_type (comp_i : string) :
  is_sfd (diagram_type_of comp_i) = contains "Vy" comp_i.
Proof. unfold diagram_type_of. now destruct (contains "Vy" comp_i). Qed.

Lemma fence_lookup {B} (f : nat -> list B) (i p : nat) :
  (forall k, length (f k) = 3%nat) -> (i <= num_lines)%nat -> (p < 3)%nat ->
  flat_map f fence_indices !! (3 * i + p)%nat = f i !! p.
Proof.
  intros Hlen Hi Hp. apply lookup_flat_map_chunk; [exact Hlen | exact Hp |].
  unfold fence_indices. rewrite lookup_seq_lt by lia. reflexivity.
Qed.

(** C2. For the 3D diagram of a quantity, one factor, [TARGET_HEIGHT = 5]
    divided by the greatest absolute value [M] among the start and end
    samples of all elements of all girders, scales the heights: both ends
    of the top profile of every element of every girder are the value drawn
    there times this one factor. *)
Theorem one_height_scale_for_all_girders (Zx : Q)
    (girders : list (string * girder)) (comp_i comp_j title : string) :
  complete_all members nodes ds comp_i comp_j girders = true ->
  existsb nonzero (requested ds comp_i comp_j girders) = true ->
  exists fig M,
    plot_girders members nodes ds Zx girders comp_i comp_j title = Ok fig
    /\ max_abs_of ds comp_i comp_j girders M
    /\ TARGET_HEIGHT == 5
    /\ forall (k j : nat) (g_name : string) (g : girder) (eid : Z) (v1 v2 : Q),
        girders !! k = Some (g_name, g) ->
        elements g !! j = Some eid ->
        ds !! (eid, comp_i) = Some v1 ->
        ds !! (eid, comp_j) = Some v2 ->
        exists top,
          data fig !! (3 * k + 1)%nat = Some top
          /\ tr_y top !! (3 * j)%nat = Some (Some (v1 * (TARGET_HEIGHT / M)))
          /\ tr_y top !! (3 * j + 1)%nat
             = Some (Some ((if contains "Vy" comp_i then v1 else v2)
                           * (TARGET_HEIGHT / M))).
Proof.
  intros Hc Hnz.
  destruct (plot_girders_total members nodes ds Zx girders comp_i comp_j title Hc Hnz)
    as (M & C_MIN & C_MAX & grs & HM & _ & Hgrs & Hplot).
  eexists. exists M. split; [exact Hplot |]. split; [exact HM |].
  split; [reflexivity |].
  intros k j g_name g eid v1 v2 Hk Hj Hv1 Hv2. cbn [data].
  destruct (readings_lookup _ _ _ _ _ _ _ Hgrs Hk) as (cs & rs & Hgr & Hrs).
  destruct (map_result_lookup _ _ _ _ _ Hrs Hj) as (r & Hr & Hlk).
  apply resolve_inv in Hr as (sn & en & ys & ye & _ & _ & _ & Hi & Hj').
  rewrite Hv1 in Hi. rewrite Hv2 in Hj'. injection Hi as Hi. injection Hj' as Hj'.
  rewrite (traces_lookup _ _ _ _ _ _ _ 1 _ Hgr) by lia.
  cbn [traces_of lookup list_lookup]. eexists. split; [reflexivity |].
  cbn [tr_y]. split.
  - rewrite (lookup_flat_map_chunk_0 (oy_of _ _) 3 rs j r) by (auto; lia).
    cbn. unfold h1_of. now rewrite <- Hi.
  - rewrite (lookup_flat_map_chunk (oy_of _ _) 3 rs j 1 r) by (auto; lia).
    cbn. unfold h2_of, end_value. rewrite is_sfd_diagram_type, <- Hi, <- Hj'.
    reflexivity.
Qed.

End Positions.

Lemma one_height_scale_for_all_girders_witness :
  Profile3D.complete_all Deck.members Deck.nodes Deck.ds "Vy_i" "Vy_j" Task2.GIRDERS = true
  /\ existsb Profile3D.nonzero
             (Profile3D.requested Deck.ds "Vy_i" "Vy_j" Task2.GIRDERS) = true
  /\ exists fig M,
      Task2.create_midas_polished_plot Deck.members Deck.nodes Deck.ds
        "Vy_i" "Vy_j" "Shear Force (SFD)" = Ok fig
      /\ Profile3D.max_abs_of Deck.ds "Vy_i" "Vy_j" Task2.GIRDERS M.
Proof.
  assert (Hc : Profile3D.complete_all Deck.members Deck.nodes Deck.ds "Vy_i" "Vy_j"
                 Task2.GIRDERS = true) by (vm_compute; reflexivity).
  assert (Hnz : existsb Profile3D.nonzero
                  (Profile3D.requested Deck.ds "Vy_i" "Vy_j" Task2.GIRDERS) = true)
    by (vm_compute; reflexivity).
  split; [exact Hc |]. split; [exact Hnz |].
  destruct (one_height_scale_for_all_girders Deck.members Deck.nodes Deck.ds
              Task2.Z_EXPANSION Task2.GIRDERS "Vy_i" "Vy_j" "Shear Force (SFD)"
              Hc Hnz) as (fig & M & Hplot & HM & _).
  exists fig, M. split; [exact Hplot | exact HM].
Defined.

(** ** Continuity of the profile of a chain *)

Section Continuity.
Import Profile2D Profile3D.

Variable members : gmap Z (Z * Z).
Variable nodes : gmap Z coord.
Variable ds : gmap (Z * string) Q.

Lemma figure_of_data (is_step : bool) (title color unit : string)
    (rs : list reading) (fig : Task1.Figure) :
  Profile2D.figure_of is_step title color unit rs = Ok fig ->
  Task1.data fig
  = [Task1.Scatter (flat_map xs_of rs) (flat_map (ys_of is_step) rs) title color]
  /\ Task1.shapes fig = flat_map (hatch_of is_step) rs.
Proof.
  unfold Profile2D.figure_of. intros Hfig.
  repeat match type of Hfig with
         | bind ?r _ = _ => destruct r; cbn [bind] in Hfig; [| discriminate]
         end.
  injection Hfig as <-. auto.
Qed.

Lemma segment_lookup (is_step : bool) (rs : list reading) (k : nat) (r : reading) :
  rs !! k = Some r ->
  flat_map xs_of rs !! (2 * k)%nat = Some (start_x r)
  /\ flat_map xs_of rs !! (2 * k + 1)%nat = Some (end_x r)
  /\ flat_map (ys_of is_step) rs !! (2 * k)%nat = Some (start_val r)
  /\ flat_map (ys_of is_step) rs !! (2 * k + 1)%nat
     = Some (end_value is_step (start_val r) (end_val r)).
Proof.
  intros Hk.
  rewrite (lookup_flat_map_chunk_0 xs_of 2 rs k r) by (auto; lia).
  rewrite (lookup_flat_map_chunk xs_of 2 rs k 1 r) by (auto; lia).
  rewrite (lookup_flat_map_chunk_0 (ys_of is_step) 2 rs k r) by (auto; lia).
  rewrite (lookup_flat_map_chunk (ys_of is_step) 2 rs k 1 r) by (auto; lia).
  auto.
Qed.




End Continuity.


(** ** Stepped mode *)

Lemma for_each_ext_in {A S} (body body' : S -> A -> result S) (l : list A) :
  Forall (fun a => forall s, body s a = body' s a) l ->
  forall s, for_each body l s = for_each body' l s.
Proof.
  induction 1 as [| a l Ha _ IH]; intros s; simpl; [reflexivity |].
  rewrite Ha. destruct (body' s a); simpl; [apply IH | reflexivity].
Qed.

Lemma sel_same (ds ds' : gmap (Z * string) Q) (eid : Z) (comp : string) :
  ds !! (eid, comp) = ds' !! (eid, comp) -> sel ds eid comp = sel ds' eid comp.
Proof. unfold sel. now intros ->. Qed.

Lemma sel_same_presence (ds ds' : gmap (Z * string) Q) (eid : Z) (comp : string) :
  present (ds !! (eid, comp)) = present (ds' !! (eid, comp)) ->
  (exists v v', sel ds eid comp = Ok v /\ sel ds' eid comp = Ok v')
  \/ (sel ds eid comp = Err (MissingData eid comp)
      /\ sel ds' eid comp = Err (MissingData eid comp)).
Proof.
  unfold sel.
  destruct (ds !! (eid, comp)), (ds' !! (eid, comp)); simpl;
    intros H; try discriminate; eauto.
Qed.

(** In stepped mode the body of the 2D loop does the same whatever the
    end sample is, as long as there is one. *)
Lemma element_ignores_end_sample (members : gmap Z (Z * Z)) (nodes : gmap Z coord)
    (ds ds' : gmap (Z * string) Q) (comp_i comp_j : string)
    (st : Task1.loop_state) (eid : Z) :
  ds !! (eid, comp_i) = ds' !! (eid, comp_i) ->
  present (ds !! (eid, comp_j)) = present (ds' !! (eid, comp_j)) ->
  Task1.element members nodes ds comp_i comp_j true st eid
  = Task1.element members nodes ds' comp_i comp_j true st eid.
Proof.
  intros Hi Hj. unfold Task1.element.
  destruct (member_of members eid) as [[sn en] |]; cbn [bind]; [| reflexivity].
  destruct (node_of nodes sn) as [[[a1 y1] b1] |]; cbn [bind]; [| reflexivity].
  destruct (node_of nodes en) as [[[a2 y2] b2] |]; cbn [bind]; [| reflexivity].
  rewrite (sel_same _ _ _ _ Hi).
  destruct (sel ds' eid comp_i) as [v1 |]; cbn [bind]; [| reflexivity].
  destruct (sel_same_presence _ _ _ _ Hj) as [(v & v' & -> & ->) | [-> ->]];
    reflexivity.
Qed.

Lemma element3_ignores_end_sample (members : gmap Z (Z * Z)) (nodes : gmap Z coord)
    (ds ds' : gmap (Z * string) Q) (Zx HS : Q) (comp_i comp_j : string)
    (g : Task2.geometry) (eid : Z) :
  ds !! (eid, comp_i) = ds' !! (eid, comp_i) ->
  present (ds !! (eid, comp_j)) = present (ds' !! (eid, comp_j)) ->
  Task2.element members nodes ds Zx HS comp_i comp_j "SFD" g eid
  = Task2.element members nodes ds' Zx HS comp_i comp_j "SFD" g eid.
Proof.
  intros Hi Hj. unfold Task2.element.
  destruct (member_of members eid) as [[sn en] |]; cbn [bind]; [| reflexivity].
  destruct (node_of nodes sn) as [[[a1 y1] b1] |]; cbn [bind]; [| reflexivity].
  destruct (node_of nodes en) as [[[a2 y2] b2] |]; cbn [bind]; [| reflexivity].
  rewrite (sel_same _ _ _ _ Hi).
  destruct (sel ds' eid comp_i) as [v1 |]; cbn [bind]; [| reflexivity].
  destruct (sel_same_presence _ _ _ _ Hj) as [(v & v' & -> & ->) | [-> ->]];
    reflexivity.
Qed.

(** ** Hatch lines *)

Section HatchLines.
Import Profile2D Profile3D.

Variable members : gmap Z (Z * Z).
Variable nodes : gmap Z coord.
Variable ds : gmap (Z * string) Q.

Lemma lookup_map {A B} (f : A -> B) (l : list A) (k : nat) :
  map f l !! k = option_map f (l !! k).
Proof.
  revert k. induction l as [| a l IH]; intros [| k]; simpl; auto.
Qed.

Lemma linspace_lookup (a b : Q) (k : nat) :
  (k < 12)%nat ->
  exists hx,
    linspace a b 12 !! k = Some hx
    /\ hx == a + inject_Z (Z.of_nat k) / 11 * (b - a).
Proof.
  intros Hk. unfold linspace. cbn [Nat.ltb Nat.leb Nat.sub].
  destruct (Nat.eq_dec k 11%nat) as [-> | Hne].
  - exists b. split.
    + apply list_lookup_insert_eq. rewrite length_map, length_seq. lia.
    + change (inject_Z (Z.of_nat 11)) with 11. field.
  - rewrite list_lookup_insert_ne by lia.
    rewrite lookup_map, lookup_seq_lt by exact Hk. cbn [option_map Nat.add].
    eexists. split; [reflexivity |].
    change (inject_Z (Z.of_nat 11)) with 11. field.
Qed.

Lemma hatch_lines_lookup (is_step : bool) (val_start val_end x_i x_j : Q) (k : nat) :
  (k < 12)%nat ->
  exists hx,
    Task1.hatch_lines is_step val_start val_end x_i x_j !! k
    = Some (Task1.Line hx 0 hx (Task1.hatch_value is_step val_start val_end x_i x_j hx))
    /\ hx == x_i + inject_Z (Z.of_nat k) / 11 * (x_j - x_i).
Proof.
  intros Hk. destruct (linspace_lookup x_i x_j k Hk) as (hx & Hlk & Hhx).
  exists hx. split; [| exact Hhx].
  unfold Task1.hatch_lines. unfold Task1.hatch_density.
  now rewrite lookup_map, Hlk.
Qed.



End HatchLines.




(** ** The functions at work *)

Example two_element_shear_profile :
  exists fig,
    Task1.plot_girder Scenario.members Scenario.nodes Scenario.ds [1; 2]%Z
      "Vy_i" "Vy_j" "SFD" "blue" "kN" true = Ok fig
    /\ Task1.data fig = [Task1.Scatter [0; 2; 2; 5] [10; 10; -4; -4] "SFD" "blue"]
    /\ Task1.annotations fig
       = [Task1.Extreme "MAX" 0 10; Task1.Extreme "MIN" 2 (-4)]
    /\ length (Task1.shapes fig) = 24%nat.
Proof.
  eexists. split; [vm_compute; reflexivity |]. repeat split.
Qed.

Example crossing_between_10_and_minus_5 :
  exists x_zero,
    Task1.zero_crossing false 0 4 10 (-5) = Ok [Task1.ZeroCrossing x_zero]
    /\ x_zero == 8 # 3.
Proof. eexists. split; reflexivity. Qed.

Example no_crossing_between_zeros :
  Task1.zero_crossing false 0 4 0 0 = Ok [].
Proof. reflexivity. Qed.

Example scale_of_three_girders :
  exists HEIGHT_SCALE,
    Task2.height_scale [3; -1; -7; 2; 3 # 2; 1] = Ok HEIGHT_SCALE
    /\ HEIGHT_SCALE == 5 / 7.
Proof. eexists. split; reflexivity. Qed.

Example scale_of_all_zero_samples :
  Task2.height_scale [0; 0] = Err ZeroDivisionError.
Proof. reflexivity. Qed.

(** * Further properties of the two scripts *)

(** ** When the 2D function returns a figure, and how it fails *)

Section Outcome2D.
Import Profile2D.

Variable members : gmap Z (Z * Z).
Variable nodes : gmap Z coord.
Variable ds : gmap (Z * string) Q.

Lemma resolve_complete (comp_i comp_j : string) (ids : list Z) (rs : list reading) :
  map_result (resolve members nodes ds comp_i comp_j) ids = Ok rs ->
  complete members nodes ds comp_i comp_j ids = true.
Proof.
  revert rs. induction ids as [| eid ids IH]; intros rs; [reflexivity |].
  cbn [map_result].
  destruct (resolve members nodes ds comp_i comp_j eid) as [r | e] eqn:Er;
    cbn [bind]; [| discriminate].
  destruct (map_result _ ids) as [rs' | e]; cbn [bind]; [| discriminate].
  intros _.
  apply resolve_inv in Er as (sn & en & ys & ye & Hm & Hs & He & Hi & Hj).
  unfold complete. cbn [forallb]. unfold coord in *.
  rewrite Hm, Hs, He, Hi, Hj. cbn [present andb]. now apply (IH rs').
Qed.

Lemma figure_of_nil (is_step : bool) (title color unit : string) :
  figure_of is_step title color unit [] = Err ValueError.
Proof. reflexivity. Qed.

(** X1. The 2D function returns a figure exactly when the girder has at
    least one element and the three tables hold every key the loop looks
    up for its elements. *)
Theorem plot_girder_succeeds_iff (ids : list Z)
    (comp_i comp_j title color unit : string) (is_step : bool) :
  (exists fig,
      Task1.plot_girder members nodes ds ids comp_i comp_j title color unit is_step
      = Ok fig)
  <-> ids <> [] /\ complete members nodes ds comp_i comp_j ids = true.
Proof.
  split.
  - intros [fig Hfig]. rewrite plot_girder_figure_of in Hfig.
    destruct (map_result _ ids) as [rs | e] eqn:Hrs; cbn [bind] in Hfig;
      [| discriminate].
    split; [| now apply (resolve_complete _ _ _ rs)].
    intros ->. injection Hrs as <-. discriminate.
  - intros [Hne Hc].
    destruct (plot_girder_total members nodes ds ids comp_i comp_j title color
                unit is_step Hne Hc) as (rs & fig & _ & Hplot & _).
    eauto.
Qed.

(** X2. When the 2D function fails, the exception is either that of a
    lookup whose key is really absent from its table, or the [ValueError]
    of an empty girder.  It never is a division by zero or an index out of
    range. *)
Theorem plot_girder_failures (ids : list Z)
    (comp_i comp_j title color unit : string) (is_step : bool) (e : error) :
  Task1.plot_girder members nodes ds ids comp_i comp_j title color unit is_step
  = Err e ->
  (error_is_missing members nodes ds e \/ (e = ValueError /\ ids = []))
  /\ e <> ZeroDivisionError /\ e <> IndexError.
Proof.
  intros Hplot.
  assert (H : error_is_missing members nodes ds e \/ (e = ValueError /\ ids = [])).
  { rewrite plot_girder_figure_of in Hplot.
    destruct (map_result _ ids) as [rs | e'] eqn:Hrs; cbn [bind] in Hplot.
    - right. destruct ids as [| eid ids].
      + injection Hrs as <-. rewrite figure_of_nil in Hplot.
        injection Hplot as <-. auto.
      + exfalso.
        assert (Hne : eid :: ids <> []) by discriminate.
        pose proof (resolve_complete _ _ _ _ Hrs) as Hc.
        destruct (plot_girder_total members nodes ds (eid :: ids) comp_i comp_j
                    title color unit is_step Hne Hc)
          as (rs' & fig & Hrs' & _ & Hfig & _).
        rewrite Hrs in Hrs'. injection Hrs' as <-. congruence.
    - left. injection Hplot as <-.
      apply map_result_error_from in Hrs as (a & _ & Ha).
      eapply resolve_error; eauto. }
  split; [exact H |].
  split; intros ->; destruct H as [H | [H _]]; solve [inversion H | exact H].
Qed.

End Outcome2D.

Lemma plot_girder_failures_witness :
  Task1.plot_girder Deck.members Deck.nodes Deck.ds_shear_only
    Task1.CENTRAL_GIRDER_IDS "Mz_i" "Mz_j" "BMD" "red" "kN-m" false
  = Err (MissingData 15 "Mz_i")
  /\ error_is_missing Deck.members Deck.nodes Deck.ds_shear_only
       (MissingData 15 "Mz_i").
Proof.
  assert (H : Task1.plot_girder Deck.members Deck.nodes Deck.ds_shear_only
                Task1.CENTRAL_GIRDER_IDS "Mz_i" "Mz_j" "BMD" "red" "kN-m" false
              = Err (MissingData 15 "Mz_i")) by (vm_compute; reflexivity).
  split; [exact H |].
  destruct (plot_girder_failures _ _ _ _ _ _ _ _ _ _ _ H) as [[Hm | [Hv _]] _];
    [exact Hm | discriminate].
Defined.

(** ** Lists built by [flat_map] *)

Lemma Forall_flat_map_intro {A B} (P : B -> Prop) (f : A -> list B) (l : list A) :
  (forall a, Forall P (f a)) -> Forall P (flat_map f l).
Proof.
  intros H. induction l as [| a l IH]; simpl; [constructor |].
  apply Forall_app. split; [apply H | exact IH].
Qed.

Lemma flat_map_lookup_inv {A B} (f : A -> list B) (l : list A) (b : B) :
  b ∈ flat_map f l -> exists (k : nat) (a : A), l !! k = Some a /\ b ∈ f a.
Proof.
  induction l as [| a l IH]; simpl; intros H.
  - inversion H.
  - apply elem_of_app in H as [H | H].
    + exists 0%nat, a. auto.
    + destruct (IH H) as (k & a' & Hk & Hb). exists (S k), a'. auto.
Qed.

(** ** The size of the 2D figure *)

Section Size2D.
Import Profile2D.

Variable members : gmap Z (Z * Z).
Variable nodes : gmap Z coord.
Variable ds : gmap (Z * string) Q.

Lemma length_hatch_of (is_step : bool) (r : reading) :
  length (hatch_of is_step r) = 12%nat.
Proof.
  unfold hatch_of, Task1.hatch_lines. now rewrite length_map, length_linspace.
Qed.

Lemma length_labels (is_step : bool) (rs : list reading) :
  (length (flat_map (label_of is_step) rs) <= length rs)%nat
  /\ (is_step = true -> flat_map (label_of is_step) rs = []).
Proof.
  induction rs as [| r rs [IH1 IH2]]; [split; auto |].
  cbn [flat_map]. rewrite length_app. unfold label_of at 1 3, crossing_label.
  split.
  - destruct (negb is_step && _); simpl; lia.
  - intros ->. simpl. now apply IH2.
Qed.

(** X3. A figure of the 2D function for a girder of [n] elements has one
    trace of [2 n] points (as many x as y), [12 n] hatch lines, each
    vertical and rising from the axis [y = 0], and between two and [n + 2]
    labels: one per zero crossing and the two extremes; in stepped mode
    the two extremes only. *)
Theorem figure_size (ids : list Z)
    (comp_i comp_j title color unit : string) (is_step : bool) :
  ids <> [] ->
  complete members nodes ds comp_i comp_j ids = true ->
  exists fig xs ys,
    Task1.plot_girder members nodes ds ids comp_i comp_j title color unit is_step
    = Ok fig
    /\ Task1.data fig = [Task1.Scatter xs ys title color]
    /\ length xs = (2 * length ids)%nat
    /\ length ys = (2 * length ids)%nat
    /\ length (Task1.shapes fig) = (12 * length ids)%nat
    /\ Forall (fun s => Task1.x0 s = Task1.x1 s /\ Task1.y0 s = 0)
              (Task1.shapes fig)
    /\ (2 <= length (Task1.annotations fig) <= length ids + 2)%nat
    /\ (is_step = true -> length (Task1.annotations fig) = 2%nat).
Proof.
  intros Hne Hc.
  destruct (plot_girder_total members nodes ds ids comp_i comp_j title color
              unit is_step Hne Hc)
    as (rs & fig & Hrs & Hplot & Hfig & i_max & y_max & x_max & i_min & y_min
        & x_min & _ & _ & _ & _ & Hann).
  apply figure_of_data in Hfig as [Hdata Hshapes].
  pose proof (map_result_length _ _ _ Hrs) as Hlen.
  destruct (length_labels is_step rs) as [Hl1 Hl2].
  exists fig, (flat_map xs_of rs), (flat_map (ys_of is_step) rs).
  split; [exact Hplot |]. split; [exact Hdata |].
  split; [now rewrite length_xs, Hlen |].
  split; [now rewrite length_ys, Hlen |].
  split; [| split; [| split]].
  - rewrite Hshapes, (length_flat_map_chunk _ 12), Hlen; [reflexivity |].
    apply length_hatch_of.
  - rewrite Hshapes. apply Forall_flat_map_intro. intros r.
    unfold hatch_of, Task1.hatch_lines. apply List.Forall_map, Forall_true.
    intros hx. split; reflexivity.
  - rewrite Hann, length_app. cbn [length]. lia.
  - intros Hs. rewrite Hann, (Hl2 Hs). reflexivity.
Qed.

End Size2D.

Lemma figure_size_witness :
  Task1.CENTRAL_GIRDER_IDS <> []
  /\ complete Deck.members Deck.nodes Deck.ds "Mz_i" "Mz_j"
              Task1.CENTRAL_GIRDER_IDS = true
  /\ exists fig,
      Task1.generate_midas_style_plot Deck.members Deck.nodes Deck.ds
        "Mz_i" "Mz_j" "BMD - Central Girder" "red" "kN-m" false = Ok fig
      /\ length (Task1.shapes fig) = 108%nat.
Proof.
  assert (Hne : Task1.CENTRAL_GIRDER_IDS <> []) by discriminate.
  assert (Hc : complete Deck.members Deck.nodes Deck.ds "Mz_i" "Mz_j"
                 Task1.CENTRAL_GIRDER_IDS = true) by (vm_compute; reflexivity).
  split; [exact Hne |]. split; [exact Hc |].
  destruct (figure_size Deck.members Deck.nodes Deck.ds Task1.CENTRAL_GIRDER_IDS
              "Mz_i" "Mz_j" "BMD - Central Girder" "red" "kN-m" false Hne Hc)
    as (fig & xs & ys & Hplot & _ & _ & _ & Hshapes & _).
  exists fig. split; [exact Hplot | exact Hshapes].
Defined.

(** ** Stepped hatch lines stay within the extremes *)

Section HatchBounds.
Import Profile2D.

Variable members : gmap Z (Z * Z).
Variable nodes : gmap Z coord.
Variable ds : gmap (Z * string) Q.

(** X5. In stepped mode no hatch line of a 2D figure reaches beyond the
    labelled extremes: the height of every hatch line is the start sample
    of its element, and it lies between the value of the "MIN" label and
    the value of the "MAX" label. *)
Theorem stepped_hatch_within_extremes (ids : list Z)
    (comp_i comp_j title color unit : string) :
  ids <> [] ->
  complete members nodes ds comp_i comp_j ids = true ->
  exists fig x_max y_max x_min y_min,
    Task1.plot_girder members nodes ds ids comp_i comp_j title color unit true
    = Ok fig
    /\ List.filter is_extreme (Task1.annotations fig)
       = [Task1.Extreme "MAX" x_max y_max; Task1.Extreme "MIN" x_min y_min]
    /\ forall s : Task1.shape,
        s ∈ Task1.shapes fig ->
        exists hy, Task1.y1 s = Some hy /\ y_min <= hy /\ hy <= y_max.
Proof.
  intros Hne Hc.
  destruct (plot_girder_total members nodes ds ids comp_i comp_j title color
              unit true Hne Hc)
    as (rs & fig & Hrs & Hplot & Hfig & i_max & y_max & x_max & i_min & y_min
        & x_min & Hmax & _ & Hmin & _ & Hann).
  apply figure_of_data in Hfig as [_ Hshapes].
  exists fig, x_max, y_max, x_min, y_min.
  split; [exact Hplot |]. split.
  { rewrite Hann, List.filter_app, labels_not_extreme. reflexivity. }
  intros s Hs. rewrite Hshapes in Hs.
  apply flat_map_lookup_inv in Hs as (j & r & Hj & Hs).
  destruct (segment_lookup true rs j r Hj) as (_ & _ & Hy0 & _).
  destruct Hmax as (_ & Hle & _). destruct Hmin as (_ & Hge & _).
  unfold hatch_of, Task1.hatch_lines in Hs.
  apply list_elem_of_In, in_map_iff in Hs as (hx & <- & _).
  cbn [Task1.y1 Task1.hatch_value]. exists (start_val r).
  split; [reflexivity |]. split; [eapply Hge | eapply Hle]; exact Hy0.
Qed.

End HatchBounds.

Lemma stepped_hatch_within_extremes_witness :
  Task1.CENTRAL_GIRDER_IDS <> []
  /\ complete Deck.members Deck.nodes Deck.ds "Vy_i" "Vy_j"
              Task1.CENTRAL_GIRDER_IDS = true
  /\ exists fig y_max y_min,
      Task1.generate_midas_style_plot Deck.members Deck.nodes Deck.ds
        "Vy_i" "Vy_j" "SFD - Central Girder" "blue" "kN" true = Ok fig
      /\ forall s : Task1.shape,
          s ∈ Task1.shapes fig ->
          exists hy, Task1.y1 s = Some hy /\ y_min <= hy /\ hy <= y_max.
Proof.
  assert (Hne : Task1.CENTRAL_GIRDER_IDS <> []) by discriminate.
  assert (Hc : complete Deck.members Deck.nodes Deck.ds "Vy_i" "Vy_j"
                 Task1.CENTRAL_GIRDER_IDS = true) by (vm_compute; reflexivity).
  split; [exact Hne |]. split; [exact Hc |].
  destruct (stepped_hatch_within_extremes Deck.members Deck.nodes Deck.ds
              Task1.CENTRAL_GIRDER_IDS "Vy_i" "Vy_j" "SFD - Central Girder"
              "blue" "kN" Hne Hc)
    as (fig & x_max & y_max & x_min & y_min & Hplot & _ & Hb).
  exists fig, y_max, y_min. split; [exact Hplot | exact Hb].
Defined.

(** ** The 2D figure reads only the x-coordinates of the nodes *)

Section OnlyX.

Variable members : gmap Z (Z * Z).
Variable ds : gmap (Z * string) Q.

Lemma node_x_same {A} (nodes nodes' : gmap Z coord) (n : Z) (k : Q -> result A) :
  x_of nodes n = x_of nodes' n ->
  bind (node_of nodes n) (fun c => let '(x, _, _) := c in k x)
  = bind (node_of nodes' n) (fun c => let '(x, _, _) := c in k x).
Proof.
  unfold x_of, node_of.
  destruct (nodes !! n) as [[[x y] z] |], (nodes' !! n) as [[[x' y'] z'] |];
    cbn; intros H; try discriminate; [| reflexivity].
  now injection H as ->.
Qed.

Lemma element_reads_only_x (nodes nodes' : gmap Z coord)
    (comp_i comp_j : string) (is_step : bool) (st : Task1.loop_state) (eid : Z) :
  (forall n, x_of nodes n = x_of nodes' n) ->
  Task1.element members nodes ds comp_i comp_j is_step st eid
  = Task1.element members nodes' ds comp_i comp_j is_step st eid.
Proof.
  intros H. unfold Task1.element.
  destruct (member_of members eid) as [[sn en] |]; cbn [bind]; [| reflexivity].
  rewrite (node_x_same nodes nodes' sn _ (H sn)).
  destruct (node_of nodes' sn) as [[[x_i ?] ?] |]; cbn [bind]; [| reflexivity].
  now rewrite (node_x_same nodes nodes' en _ (H en)).
Qed.

(** X6. The 2D function reads nothing of a node but its x-coordinate: two
    node tables with the same nodes and the same x-coordinates give the
    same result, whatever their y- and z-coordinates. *)
Theorem plot_girder_reads_only_x (nodes nodes' : gmap Z coord) (ids : list Z)
    (comp_i comp_j title color unit : string) (is_step : bool) :
  (forall n, x_of nodes n = x_of nodes' n) ->
  Task1.plot_girder members nodes ds ids comp_i comp_j title color unit is_step
  = Task1.plot_girder members nodes' ds ids comp_i comp_j title color unit is_step.
Proof.
  intros H. unfold Task1.plot_girder.
  rewrite (for_each_ext_in _ (Task1.element members nodes' ds comp_i comp_j is_step));
    [reflexivity |].
  apply Forall_true. intros eid st. now apply element_reads_only_x.
Qed.

End OnlyX.

Lemma plot_girder_reads_only_x_witness :
  (forall n, x_of Deck.nodes n
             = x_of ((fun c : coord => (fst (fst c), 7, 0)) <$> Deck.nodes) n)
  /\ Task1.generate_midas_style_plot Deck.members Deck.nodes Deck.ds
       "Mz_i" "Mz_j" "BMD - Central Girder" "red" "kN-m" false
     = Task1.generate_midas_style_plot Deck.members
         ((fun c : coord => (fst (fst c), 7, 0)) <$> Deck.nodes) Deck.ds
         "Mz_i" "Mz_j" "BMD - Central Girder" "red" "kN-m" false.
Proof.
  assert (H : forall n, x_of Deck.nodes n
                        = x_of ((fun c : coord => (fst (fst c), 7, 0)) <$> Deck.nodes) n).
  { intros n. unfold x_of. rewrite lookup_fmap.
    destruct (Deck.nodes !! n) as [[[x y] z] |]; reflexivity. }
  split; [exact H |].
  apply (plot_girder_reads_only_x Deck.members Deck.ds Deck.nodes _
           Task1.CENTRAL_GIRDER_IDS). exact H.
Defined.

(** ** The stages of the 3D function *)

Section Stages3D.
Import Task2 Profile3D.

Variable members : gmap Z (Z * Z).
Variable nodes : gmap Z coord.
Variable ds : gmap (Z * string) Q.

Lemma min_from_spec (l : list Q) (best : Q) :
  (min_from best l = best \/ min_from best l ∈ l)
  /\ min_from best l <= best
  /\ (forall y, y ∈ l -> min_from best l <= y).
Proof.
  revert best. induction l as [| y l IH]; intros best; simpl.
  - split; [now left |]. split; [lra |]. intros y Hy. inversion Hy.
  - destruct (IH (if Qltb y best then y else best)) as (Hin & Hle & Hall).
    destruct (Qltb y best) eqn:E.
    + apply Qltb_lt in E. split; [| split].
      * right. destruct Hin as [-> | Hin]; [left | now right].
      * lra.
      * intros y' Hy'. inversion Hy'; subst; [exact Hle | now apply Hall].
    + apply Qltb_ge in E. split; [| split].
      * destruct Hin as [-> | Hin]; [now left | right; now right].
      * exact Hle.
      * intros y' Hy'. inversion Hy'; subst; [lra | now apply Hall].
Qed.

Lemma py_min_spec (l : list Q) (m : Q) :
  py_min l = Ok m -> m ∈ l /\ (forall y, y ∈ l -> m <= y).
Proof.
  destruct l as [| y0 l]; [discriminate | intros [= <-]].
  destruct (min_from_spec l y0) as (Hin & Hle & Hall). split.
  - destruct Hin as [-> | Hin]; [left | now right].
  - intros y Hy. inversion Hy; subst; [exact Hle | now apply Hall].
Qed.

Lemma py_max_ok_spec (l : list Q) (m : Q) :
  py_max l = Ok m -> m ∈ l /\ (forall y, y ∈ l -> y <= m).
Proof.
  intros H. destruct l as [| y0 l]; [discriminate |].
  destruct (py_max_spec (y0 :: l)) as (m' & E & Hin & Hall); [discriminate |].
  rewrite H in E. injection E as <-. auto.
Qed.

(** The height scale is defined exactly when some sample is not zero; it
    is then positive. *)
Lemma height_scale_ok (all_forces : list Q) (HS : Q) :
  height_scale all_forces = Ok HS ->
  exists M,
    HS = TARGET_HEIGHT / M /\ 0 < M
    /\ (forall v, v ∈ all_forces -> Qabs v <= M)
    /\ (all_forces <> [] -> exists v, v ∈ all_forces /\ ~ v == 0).
Proof.
  unfold height_scale. intros H.
  destruct (map Qabs all_forces) as [| a abs] eqn:Eabs.
  - apply map_eq_nil in Eabs. subst. cbn in H. injection H as <-.
    exists 1. split; [reflexivity |]. split; [reflexivity |].
    split; [intros v Hv; inversion Hv | congruence].
  - destruct (py_max (a :: abs)) as [M |] eqn:EM; cbn [bind] in H; [| discriminate].
    unfold py_div in H. destruct (Qeq_bool M 0) eqn:E0; [discriminate |].
    injection H as <-.
    assert (HM0 : ~ M == 0) by (intros E; apply Qeq_bool_iff in E; congruence).
    apply py_max_ok_spec in EM as [Hin Hall]. rewrite <- Eabs in Hin, Hall.
    apply list_elem_of_In, in_map_iff in Hin as (w & Hw & Hwin).
    assert (HMpos : 0 < M).
    { pose proof (Qabs_nonneg w). rewrite Hw in *.
      destruct (Qeq_dec M 0); [contradiction | lra]. }
    exists M. split; [reflexivity |]. split; [exact HMpos |]. split.
    + intros v Hv. apply Hall, list_elem_of_In, in_map, list_elem_of_In, Hv.
    + intros _. exists w. split; [now apply list_elem_of_In |].
      intros E. assert (E0' : Qabs w == 0) by (rewrite E; reflexivity).
      rewrite Hw in E0'. contradiction.
Qed.

Lemma height_scale_err (all_forces : list Q) (e : error) :
  height_scale all_forces = Err e ->
  e = ZeroDivisionError /\ all_forces <> []
  /\ (forall v, v ∈ all_forces -> v == 0).
Proof.
  unfold height_scale. intros H.
  destruct (map Qabs all_forces) as [| a abs] eqn:Eabs; [discriminate |].
  assert (Hne : all_forces <> []) by (intros ->; discriminate).
  destruct (py_max (a :: abs)) as [M |] eqn:EM; cbn [bind] in H;
    [| discriminate].
  unfold py_div in H. destruct (Qeq_bool M 0) eqn:E0; [| discriminate].
  injection H as <-. apply Qeq_bool_eq in E0.
  apply py_max_ok_spec in EM as [_ Hall]. rewrite <- Eabs in Hall.
  split; [reflexivity |]. split; [exact Hne |].
  intros v Hv.
  assert (Qabs v <= M) by (apply Hall, list_elem_of_In, in_map, list_elem_of_In, Hv).
  destruct (Qeq_dec v 0) as [E | E]; [exact E |].
  pose proof (Qabs_pos v E). lra.
Qed.

Lemma nonzero_in (all_forces : list Q) :
  existsb nonzero (map Some all_forces) = true
  <-> exists v, v ∈ all_forces /\ ~ v == 0.
Proof.
  rewrite existsb_exists. split.
  - intros (o & Ho & Hv). apply in_map_iff in Ho as (v & <- & Hin).
    exists v. split; [now apply list_elem_of_In |].
    cbn in Hv. apply negb_true_iff in Hv.
    intros E. apply Qeq_bool_iff in E. congruence.
  - intros (v & Hin & Hv). exists (Some v). split.
    + apply in_map. now apply list_elem_of_In.
    + cbn. apply negb_true_iff. now apply Qeq_bool_false.
Qed.

Lemma readings_complete (comp_i comp_j : string) (girders : list (string * girder))
    (grs : list (string * list coord * list reading)) :
  map_result (girder_readings members nodes ds comp_i comp_j) girders = Ok grs ->
  complete_all members nodes ds comp_i comp_j girders = true.
Proof.
  revert grs. induction girders as [| g girders IH]; intros grs; [reflexivity |].
  cbn [map_result]. unfold girder_readings at 1.
  destruct (map_result (node_of nodes) _) as [cs |] eqn:Ecs; cbn [bind];
    [| discriminate].
  destruct (map_result (resolve _ _ _ _ _) _) as [rs |] eqn:Ers; cbn [bind];
    [| discriminate].
  destruct (map_result _ girders) as [grs' |]; cbn [bind]; [| discriminate].
  intros _. unfold complete_all. cbn [forallb].
  fold (complete_all members nodes ds comp_i comp_j girders).
  rewrite (IH grs') by reflexivity.
  rewrite (resolve_complete _ _ _ _ _ _ _ Ers).
  assert (Hn : forallb (fun n => present (nodes !! n)) (girder_nodes (snd g)) = true).
  { clear -Ecs. revert cs Ecs.
    induction (girder_nodes (snd g)) as [| n ns IHn]; intros cs; [reflexivity |].
    cbn [map_result forallb]. unfold node_of at 1.
    destruct (nodes !! n); cbn; [| discriminate].
    destruct (map_result (node_of nodes) ns) as [cs' |] eqn:E; cbn;
      [| discriminate].
    intros _. now apply (IHn cs'). }
  now rewrite Hn.
Qed.

(** What a successful run went through. *)
Lemma plot_girders_ok (Zx : Q) (girders : list (string * girder))
    (comp_i comp_j title : string) (fig : Figure) :
  plot_girders members nodes ds Zx girders comp_i comp_j title = Ok fig ->
  exists all_forces M C_MIN C_MAX grs,
    requested ds comp_i comp_j girders = map Some all_forces
    /\ 0 < M
    /\ (forall v, v ∈ all_forces -> Qabs v <= M)
    /\ (exists v, v ∈ all_forces /\ ~ v == 0)
    /\ py_min all_forces = Ok C_MIN
    /\ py_max all_forces = Ok C_MAX
    /\ map_result (girder_readings members nodes ds comp_i comp_j) girders = Ok grs
    /\ fig = {| data := flat_map (traces_of Zx (TARGET_HEIGHT / M) C_MIN C_MAX
                                            (diagram_type_of comp_i)) grs;
                layout_title := title |}.
Proof.
  rewrite plot_girders_figure_of. unfold figure_of. intros H.
  destruct (map_result _ girders) as [pss |] eqn:Hpss; cbn [bind] in H;
    [| discriminate].
  destruct (height_scale _) as [HS |] eqn:EHS; cbn [bind] in H; [| discriminate].
  destruct (py_min _) as [C_MIN |] eqn:Emin; cbn [bind] in H; [| discriminate].
  destruct (py_max _) as [C_MAX |] eqn:Emax; cbn [bind] in H; [| discriminate].
  destruct (map_result (girder_readings members nodes ds comp_i comp_j) girders)
    as [grs |] eqn:Hgrs; cbn [bind] in H; [| discriminate].
  injection H as <-.
  apply height_scale_ok in EHS as (M & -> & HM & Hall & Hnz).
  exists (flat_map (flat_map both) pss), M, C_MIN, C_MAX, grs.
  split; [now apply scan_requested |]. split; [exact HM |].
  split; [exact Hall |]. split.
  { apply Hnz. intros E. rewrite E in Emin. discriminate. }
  auto.
Qed.

End Stages3D.

(** ** When the 3D function returns a figure, and how it fails *)

Section Outcome3D.
Import Task2 Profile3D.

Variable members : gmap Z (Z * Z).
Variable nodes : gmap Z coord.
Variable ds : gmap (Z * string) Q.

Lemma plot_girders_ok_complete (Zx : Q) (girders : list (string * girder))
    (comp_i comp_j title : string) (fig : Figure) :
  plot_girders members nodes ds Zx girders comp_i comp_j title = Ok fig ->
  complete_all members nodes ds comp_i comp_j girders = true
  /\ existsb nonzero (requested ds comp_i comp_j girders) = true.
Proof.
  intros H.
  apply plot_girders_ok in H
    as (all & M & C_MIN & C_MAX & grs & Hreq & _ & _ & Hnz & _ & _ & Hgrs & _).
  split; [now apply (readings_complete _ _ _ _ _ _ grs) |].
  rewrite Hreq. now apply nonzero_in.
Qed.

(** X7. The 3D function returns a figure exactly when the tables hold
    every key the two loops look up and at least one of the requested
    samples is not zero. *)
Theorem plot_girders_succeeds_iff (Zx : Q) (girders : list (string * girder))
    (comp_i comp_j title : string) :
  (exists fig,
      plot_girders members nodes ds Zx girders comp_i comp_j title = Ok fig)
  <-> complete_all members nodes ds comp_i comp_j girders = true
      /\ existsb nonzero (requested ds comp_i comp_j girders) = true.
Proof.
  split.
  - intros [fig H]. eapply plot_girders_ok_complete; eauto.
  - intros [Hc Hnz].
    destruct (plot_girders_total members nodes ds Zx girders comp_i comp_j title
                Hc Hnz) as (M & C_MIN & C_MAX & grs & _ & _ & _ & H).
    eauto.
Qed.

Lemma girder_readings_error (comp_i comp_j : string) (g : string * girder) (e : error) :
  girder_readings members nodes ds comp_i comp_j g = Err e ->
  error_is_missing members nodes ds e.
Proof.
  unfold girder_readings.
  destruct (map_result (node_of nodes) _) as [cs | e'] eqn:Ecs; cbn [bind].
  - destruct (map_result (resolve _ _ _ _ _) _) as [rs | e'] eqn:Ers; cbn [bind];
      [discriminate |].
    intros [= <-]. apply map_result_error_from in Ers as (a & _ & Ha).
    eapply resolve_error; eauto.
  - intros [= <-]. apply map_result_error_from in Ecs as (n & _ & Hn).
    unfold node_of in Hn. apply of_option_err in Hn as [Hn ->]. exact Hn.
Qed.

(** X8. When the 3D function fails, the exception is that of a lookup
    whose key is really absent from its table, or the division by zero of
    a diagram all of whose samples are zero, or the [ValueError] of a
    diagram without any element.  It never is an index out of range. *)
Theorem plot_girders_failures (Zx : Q) (girders : list (string * girder))
    (comp_i comp_j title : string) (e : error) :
  plot_girders members nodes ds Zx girders comp_i comp_j title = Err e ->
  (error_is_missing members nodes ds e
   \/ (e = ZeroDivisionError
       /\ requested ds comp_i comp_j girders <> []
       /\ forall o, o ∈ requested ds comp_i comp_j girders ->
                    exists v, o = Some v /\ v == 0)
   \/ (e = ValueError /\ requested ds comp_i comp_j girders = []))
  /\ e <> IndexError.
Proof.
  intros H.
  assert (Hcases :
    error_is_missing members nodes ds e
    \/ (e = ZeroDivisionError
        /\ requested ds comp_i comp_j girders <> []
        /\ forall o, o ∈ requested ds comp_i comp_j girders ->
                     exists v, o = Some v /\ v == 0)
    \/ (e = ValueError /\ requested ds comp_i comp_j girders = [])).
  { rewrite plot_girders_figure_of in H. unfold figure_of in H.
    destruct (map_result _ girders) as [pss | e'] eqn:Hpss; cbn [bind] in H.
    - pose proof (scan_requested ds _ _ _ _ Hpss) as Hreq.
      destruct (height_scale _) as [HS | e'] eqn:EHS; cbn [bind] in H.
      + destruct (py_min _) as [C_MIN | e'] eqn:Emin; cbn [bind] in H.
        * destruct (py_max _) as [C_MAX | e'] eqn:Emax; cbn [bind] in H.
          -- destruct (map_result (girder_readings members nodes ds comp_i comp_j)
                        girders) as [grs | e'] eqn:Hgrs; cbn [bind] in H;
               [discriminate |].
             injection H as <-. left.
             apply map_result_error_from in Hgrs as (g & _ & Hg).
             eapply girder_readings_error; eauto.
          -- destruct (flat_map (flat_map both) pss); discriminate.
        * injection H as <-. right. right.
          destruct (flat_map (flat_map both) pss) as [| y l] eqn:E;
            [| discriminate].
          injection Emin as <-. rewrite Hreq. auto.
      + injection H as <-. right. left.
        apply height_scale_err in EHS as (-> & Hne & Hzero).
        split; [reflexivity |]. rewrite Hreq. split.
        * intros E. apply map_eq_nil in E. contradiction.
        * intros o Ho. apply list_elem_of_In, in_map_iff in Ho as (v & <- & Hv).
          exists v. split; [reflexivity |]. now apply Hzero, list_elem_of_In.
    - injection H as <-. left.
      apply map_result_error_from in Hpss as (g & _ & Hg).
      apply map_result_error_from in Hg as (eid & _ & Heid).
      apply samples_error in Heid as (c & -> & Hc). exact Hc. }
  split; [exact Hcases |].
  intros ->. destruct Hcases as [Hm | [[Hz _] | [Hv _]]];
    [inversion Hm | discriminate | discriminate].
Qed.

End Outcome3D.

Lemma plot_girders_failures_witness :
  Task2.create_midas_polished_plot Deck.members Deck.nodes Flat.ds
    "Vy_i" "Vy_j" "Shear Force (SFD)" = Err ZeroDivisionError
  /\ Profile3D.requested Flat.ds "Vy_i" "Vy_j" Task2.GIRDERS <> [].
Proof.
  assert (H : Task2.create_midas_polished_plot Deck.members Deck.nodes Flat.ds
                "Vy_i" "Vy_j" "Shear Force (SFD)" = Err ZeroDivisionError)
    by (vm_compute; reflexivity).
  split; [exact H |].
  destruct (plot_girders_failures _ _ _ _ _ _ _ _ _ H) as [[Hm | [Hz | Hv]] _].
  - inversion Hm.
  - apply Hz.
  - destruct Hv as [Hv _]. discriminate.
Defined.

(** ** The colour domain *)

Section Ranges3D.
Import Task2 Profile3D.

Variable members : gmap Z (Z * Z).
Variable nodes : gmap Z coord.
Variable ds : gmap (Z * string) Q.

Lemma map_result_lookup_inv {A B} (f : A -> result B) (l : list A) (bs : list B)
    (i : nat) (b : B) :
  map_result f l = Ok bs -> bs !! i = Some b ->
  exists a, l !! i = Some a /\ f a = Ok b.
Proof.
  revert bs i. induction l as [| a l IH]; intros bs i; cbn [map_result].
  - intros [= <-] H. discriminate.
  - destruct (f a) as [b' |] eqn:Ef; cbn [bind]; [| discriminate].
    destruct (map_result f l) as [bs' |]; cbn [bind]; [| discriminate].
    intros [= <-]. destruct i as [| i]; cbn.
    + intros [= <-]. eauto.
    + intros H. destruct (IH bs' i eq_refl H) as (a' & Ha & Hf). eauto.
Qed.

Lemma requested_intro (comp_i comp_j : string) (girders : list (string * girder))
    (k j : nat) (g : string * girder) (eid : Z) :
  girders !! k = Some g -> elements (snd g) !! j = Some eid ->
  ds !! (eid, comp_i) ∈ requested ds comp_i comp_j girders
  /\ ds !! (eid, comp_j) ∈ requested ds comp_i comp_j girders.
Proof.
  intros Hk Hj. unfold requested.
  split; apply list_elem_of_In, in_flat_map; exists g;
    (split; [eapply list_elem_of_In, list_elem_of_lookup_2; eauto |]);
    apply in_flat_map; exists eid;
    (split; [eapply list_elem_of_In, list_elem_of_lookup_2; eauto |]);
    simpl; auto.
Qed.

(** Every reading of a successful run carries two requested samples. *)
Lemma reading_requested (comp_i comp_j : string) (girders : list (string * girder))
    (grs : list (string * list coord * list reading)) (all_forces : list Q)
    (gr : string * list coord * list reading) (r : reading) :
  map_result (girder_readings members nodes ds comp_i comp_j) girders = Ok grs ->
  requested ds comp_i comp_j girders = map Some all_forces ->
  gr ∈ grs -> r ∈ snd gr ->
  start_val r ∈ all_forces /\ end_val r ∈ all_forces.
Proof.
  intros Hgrs Hreq Hgr Hr.
  apply list_elem_of_lookup in Hgr as [k Hk].
  destruct (map_result_lookup_inv _ _ _ _ _ Hgrs Hk) as (g & Hg & Hread).
  unfold girder_readings in Hread.
  destruct (map_result (node_of nodes) _) as [cs |]; cbn [bind] in Hread;
    [| discriminate].
  destruct (map_result (resolve _ _ _ _ _) _) as [rs |] eqn:Hrs;
    cbn [bind] in Hread; [| discriminate].
  injection Hread as <-. cbn [snd] in Hr.
  apply list_elem_of_lookup in Hr as [j Hj].
  destruct (map_result_lookup_inv _ _ _ _ _ Hrs Hj) as (eid & Heid & Hres).
  apply resolve_inv in Hres as (sn & en & ys & ye & _ & _ & _ & Hi & Hj').
  destruct (requested_intro comp_i comp_j girders k j g eid Hg Heid) as [H1 H2].
  rewrite Hreq, Hi in H1. rewrite Hreq, Hj' in H2.
  split.
  - apply list_elem_of_In, in_map_iff in H1 as (v & [= ->] & Hv).
    now apply list_elem_of_In.
  - apply list_elem_of_In, in_map_iff in H2 as (v & [= ->] & Hv).
    now apply list_elem_of_In.
Qed.

Lemma in_three {A} (x a b c : A) : x ∈ [a; b; c] -> x = a \/ x = b \/ x = c.
Proof.
  intros H. apply list_elem_of_In in H. simpl in H.
  destruct H as [H | [H | [H | []]]]; auto.
Qed.

Lemma end_value_cases (b : bool) (v1 v2 : Q) :
  end_value b v1 v2 = v1 \/ end_value b v1 v2 = v2.
Proof. destruct b; auto. Qed.

(** X10. All coloured traces of a figure of the 3D function share one
    colour domain, from the least to the greatest of the requested
    samples, and every colour value of the top profile of every girder
    lies within it. *)
Theorem top_colours_within_shared_domain (Zx : Q)
    (girders : list (string * girder)) (comp_i comp_j title : string) :
  complete_all members nodes ds comp_i comp_j girders = true ->
  existsb nonzero (requested ds comp_i comp_j girders) = true ->
  exists fig C_MIN C_MAX,
    plot_girders members nodes ds Zx girders comp_i comp_j title = Ok fig
    /\ Some C_MIN ∈ requested ds comp_i comp_j girders
    /\ Some C_MAX ∈ requested ds comp_i comp_j girders
    /\ (forall v, Some v ∈ requested ds comp_i comp_j girders ->
                  C_MIN <= v /\ v <= C_MAX)
    /\ (forall (t : scatter3d) (color : list Q) (cmin cmax : Q),
           t ∈ data fig -> Trace.colours t = Some (color, cmin, cmax) ->
           cmin = C_MIN /\ cmax = C_MAX)
    /\ forall (k : nat) (g : string * girder),
        girders !! k = Some g ->
        exists top color,
          data fig !! (3 * k + 1)%nat = Some top
          /\ Trace.colours top = Some (color, C_MIN, C_MAX)
          /\ forall c, c ∈ color -> C_MIN <= c /\ c <= C_MAX.
Proof.
  intros Hc Hnz.
  destruct (plot_girders_total members nodes ds Zx girders comp_i comp_j title
              Hc Hnz) as (M0 & C0 & C1 & grs0 & _ & _ & _ & Hplot).
  apply plot_girders_ok in Hplot as Hok.
  destruct Hok
    as (all & M & C_MIN & C_MAX & grs & Hreq & _ & _ & _ & Emin & Emax & Hgrs & Efig).
  apply py_min_spec in Emin as [Hmin_in Hmin]. apply py_max_ok_spec in Emax as [Hmax_in Hmax].
  exists {| data := flat_map (traces_of Zx (TARGET_HEIGHT / M) C_MIN C_MAX
                                        (diagram_type_of comp_i)) grs;
            layout_title := title |}, C_MIN, C_MAX.
  split; [rewrite <- Efig; exact Hplot |]. clear Efig Hplot.
  assert (Hin : forall v, Some v ∈ map Some all -> v ∈ all).
  { intros v Hv. apply list_elem_of_In, in_map_iff in Hv as (w & [= ->] & Hw).
    now apply list_elem_of_In. }
  split; [rewrite Hreq; apply list_elem_of_In, in_map, list_elem_of_In, Hmin_in |].
  split; [rewrite Hreq; apply list_elem_of_In, in_map, list_elem_of_In, Hmax_in |].
  split.
  { intros v Hv. rewrite Hreq in Hv. apply Hin in Hv. split; auto. }
  set (dt := diagram_type_of comp_i).
  assert (Hval : forall gr r, gr ∈ grs -> r ∈ snd gr ->
            (C_MIN <= start_val r /\ start_val r <= C_MAX)
            /\ (C_MIN <= c2_of dt r /\ c2_of dt r <= C_MAX)).
  { intros gr r Hgr Hr.
    destruct (reading_requested _ _ _ _ _ _ _ Hgrs Hreq Hgr Hr) as [H1 H2].
    unfold c2_of. split; [split; auto |].
    destruct (end_value_cases (is_sfd dt) (start_val r) (end_val r)) as [-> | ->];
      split; auto. }
  split.
  - intros t color cmin cmax Ht Hcol. cbn [data] in Ht.
    apply flat_map_lookup_inv in Ht as (k & [[g_name cs] rs] & Hk & Ht).
    cbn [traces_of] in Ht.
    apply in_three in Ht as [-> | [-> | ->]]; cbn in Hcol; [discriminate | |];
      injection Hcol as <- <- <-; split; reflexivity.
  - intros k [g_name g] Hk. cbn [data].
    destruct (readings_lookup members nodes ds _ _ _ _ _ _ _ Hgrs Hk)
      as (cs & rs & Hgr & Hrs).
    assert (Hgr' : (g_name, cs, rs) ∈ grs) by (eapply list_elem_of_lookup_2; eauto).
    rewrite (traces_lookup _ _ _ _ _ _ _ 1 _ Hgr) by lia.
    cbn [traces_of lookup list_lookup]. do 2 eexists.
    split; [reflexivity |]. split; [reflexivity |].
    intros c Hcin.
    apply flat_map_lookup_inv in Hcin as (j & r & Hj & Hcin).
    assert (Hr : r ∈ rs) by (eapply list_elem_of_lookup_2; eauto).
    destruct (Hval _ r Hgr' Hr) as [H1 H2].
    apply in_three in Hcin as [-> | [-> | ->]]; assumption.
Qed.

End Ranges3D.

(** ** The traces of the 3D figure *)

Section Traces3D.
Import Task2 Profile3D.

Variable members : gmap Z (Z * Z).
Variable nodes : gmap Z coord.
Variable ds : gmap (Z * string) Q.

Lemma readings_lookup_nodes (comp_i comp_j : string)
    (girders : list (string * girder))
    (grs : list (string * list coord * list reading)) (k : nat)
    (g_name : string) (g : girder) :
  map_result (girder_readings members nodes ds comp_i comp_j) girders = Ok grs ->
  girders !! k = Some (g_name, g) ->
  exists cs rs,
    grs !! k = Some (g_name, cs, rs)
    /\ map_result (node_of nodes) (girder_nodes g) = Ok cs
    /\ map_result (resolve members nodes ds comp_i comp_j) (elements g) = Ok rs.
Proof.
  intros Hgrs Hk.
  destruct (map_result_lookup _ _ _ _ _ Hgrs Hk) as (gr & Hgr & Hlk).
  unfold girder_readings in Hgr. cbn [fst snd] in Hgr.
  destruct (map_result (node_of nodes) _) as [cs |]; cbn [bind] in Hgr;
    [| discriminate].
  destruct (map_result (resolve _ _ _ _ _) _) as [rs |]; cbn [bind] in Hgr;
    [| discriminate].
  injection Hgr as <-. eauto.
Qed.

Lemma length_traces (Zx HS C_MIN C_MAX : Q) (dt : string)
    (grs : list (string * list coord * list reading)) :
  length (flat_map (traces_of Zx HS C_MIN C_MAX dt) grs) = (3 * length grs)%nat.
Proof. apply length_flat_map_chunk. now intros [[? ?] ?]. Qed.

Lemma length_fence_list {B} (f : reading -> nat -> list B) (rs : list reading) :
  (forall r k, length (f r k) = 3%nat) ->
  length (flat_map (fun r => flat_map (f r) fence_indices) rs)
  = (33 * length rs)%nat.
Proof.
  intros H. apply length_flat_map_chunk. intros r.
  now rewrite (length_flat_map_chunk (f r) 3).
Qed.

(** X11. A figure of the 3D function has three traces per girder, in the
    order of the girders: the gray axis, the top profile and the fence.
    Within each trace the coordinate lists are equally long (and as long
    as the colour list): one entry per node for the axis, three per
    element for the top profile, thirty-three per element for the
    fence. *)
Theorem traces_are_aligned (Zx : Q) (girders : list (string * girder))
    (comp_i comp_j title : string) :
  complete_all members nodes ds comp_i comp_j girders = true ->
  existsb nonzero (requested ds comp_i comp_j girders) = true ->
  exists fig,
    plot_girders members nodes ds Zx girders comp_i comp_j title = Ok fig
    /\ length (data fig) = (3 * length girders)%nat
    /\ forall (k : nat) (g_name : string) (g : girder),
        girders !! k = Some (g_name, g) ->
        exists axis top fence c_top c_fence cmin cmax b_top b_fence,
          data fig !! (3 * k)%nat = Some axis
          /\ data fig !! (3 * k + 1)%nat = Some top
          /\ data fig !! (3 * k + 2)%nat = Some fence
          /\ tr_line axis = Fixed "gray"
          /\ tr_line top = Jet c_top cmin cmax b_top
          /\ tr_line fence = Jet c_fence cmin cmax b_fence
          /\ length (tr_x axis) = length (girder_nodes g)
          /\ length (tr_y axis) = length (girder_nodes g)
          /\ length (tr_z axis) = length (girder_nodes g)
          /\ length (tr_x top) = (3 * length (elements g))%nat
          /\ length (tr_y top) = (3 * length (elements g))%nat
          /\ length (tr_z top) = (3 * length (elements g))%nat
          /\ length c_top = (3 * length (elements g))%nat
          /\ length (tr_x fence) = (33 * length (elements g))%nat
          /\ length (tr_y fence) = (33 * length (elements g))%nat
          /\ length (tr_z fence) = (33 * length (elements g))%nat
          /\ length c_fence = (33 * length (elements g))%nat.
Proof.
  intros Hc Hnz.
  destruct (plot_girders_total members nodes ds Zx girders comp_i comp_j title
              Hc Hnz) as (M & C_MIN & C_MAX & grs & _ & _ & Hgrs & Hplot).
  eexists. split; [exact Hplot |]. cbn [data]. split.
  { now rewrite length_traces, (map_result_length _ _ _ Hgrs). }
  intros k g_name g Hk.
  destruct (readings_lookup_nodes _ _ _ _ _ _ _ Hgrs Hk) as (cs & rs & Hgr & Hcs & Hrs).
  apply map_result_length in Hcs. apply map_result_length in Hrs.
  rewrite (lookup_flat_map_chunk_0 _ 3 grs k _) by (eauto; try lia; now intros [[? ?] ?]).
  rewrite (traces_lookup _ _ _ _ _ _ _ 1 _ Hgr) by lia.
  rewrite (traces_lookup _ _ _ _ _ _ _ 2 _ Hgr) by lia.
  cbn [traces_of lookup list_lookup].
  do 9 eexists.
  split; [reflexivity |]. split; [reflexivity |]. split; [reflexivity |].
  cbn [tr_x tr_y tr_z tr_line].
  split; [reflexivity |]. split; [reflexivity |]. split; [reflexivity |].
  rewrite !length_map, Hcs.
  rewrite (length_flat_map_chunk ox_of 3), (length_flat_map_chunk (oy_of _ _) 3),
    (length_flat_map_chunk (oz_of _) 3), (length_flat_map_chunk (oc_of _) 3), Hrs
    by reflexivity.
  unfold hx_of, hy_of, hz_of, hc_of.
  rewrite !length_fence_list, Hrs by reflexivity.
  repeat split; reflexivity.
Qed.

(** X12. The axis of a girder runs through its nodes at height zero, and
    the depth of every point of axis and top profile is the z-coordinate
    of its node times the expansion factor; after the two ends of each
    element the top profile has a gap. *)
Theorem depth_is_expanded_node_depth (Zx : Q) (girders : list (string * girder))
    (comp_i comp_j title : string) :
  complete_all members nodes ds comp_i comp_j girders = true ->
  existsb nonzero (requested ds comp_i comp_j girders) = true ->
  exists fig,
    plot_girders members nodes ds Zx girders comp_i comp_j title = Ok fig
    /\ forall (k : nat) (g_name : string) (g : girder),
        girders !! k = Some (g_name, g) ->
        exists axis top,
          data fig !! (3 * k)%nat = Some axis
          /\ data fig !! (3 * k + 1)%nat = Some top
          /\ (forall (i : nat) (n : Z),
                 girder_nodes g !! i = Some n ->
                 exists x y z,
                   nodes !! n = Some (x, y, z)
                   /\ tr_x axis !! i = Some (Some x)
                   /\ tr_y axis !! i = Some (Some 0)
                   /\ tr_z axis !! i = Some (Some (z * Zx)))
          /\ (forall (j : nat) (eid : Z),
                 elements g !! j = Some eid ->
                 exists sn en x1 y1 z1 x2 y2 z2,
                   members !! eid = Some (sn, en)
                   /\ nodes !! sn = Some (x1, y1, z1)
                   /\ nodes !! en = Some (x2, y2, z2)
                   /\ tr_z top !! (3 * j)%nat = Some (Some (z1 * Zx))
                   /\ tr_z top !! (3 * j + 1)%nat = Some (Some (z2 * Zx))
                   /\ tr_x top !! (3 * j + 2)%nat = Some None
                   /\ tr_y top !! (3 * j + 2)%nat = Some None
                   /\ tr_z top !! (3 * j + 2)%nat = Some None).
Proof.
  intros Hc Hnz.
  destruct (plot_girders_total members nodes ds Zx girders comp_i comp_j title
              Hc Hnz) as (M & C_MIN & C_MAX & grs & _ & _ & Hgrs & Hplot).
  eexists. split; [exact Hplot |]. cbn [data].
  intros k g_name g Hk.
  destruct (readings_lookup_nodes _ _ _ _ _ _ _ Hgrs Hk) as (cs & rs & Hgr & Hcs & Hrs).
  rewrite (lookup_flat_map_chunk_0 _ 3 grs k _) by (eauto; try lia; now intros [[? ?] ?]).
  rewrite (traces_lookup _ _ _ _ _ _ _ 1 _ Hgr) by lia.
  cbn [traces_of lookup list_lookup].
  do 2 eexists. split; [reflexivity |]. split; [reflexivity |].
  cbn [tr_x tr_y tr_z]. split.
  - intros i n Hi.
    destruct (map_result_lookup _ _ _ _ _ Hcs Hi) as (c & Hc' & Hlk).
    unfold node_of in Hc'. apply of_option_ok in Hc'.
    destruct c as [[x y] z]. exists x, y, z. split; [exact Hc' |].
    rewrite !lookup_map, Hlk. auto.
  - intros j eid Hj.
    destruct (map_result_lookup _ _ _ _ _ Hrs Hj) as (r & Hr & Hlk).
    apply resolve_inv in Hr as (sn & en & ys & ye & Hm & Hs & He & _).
    exists sn, en, (start_x r), ys, (start_z r), (end_x r), ye, (end_z r).
    split; [exact Hm |]. split; [exact Hs |]. split; [exact He |].
    rewrite (lookup_flat_map_chunk_0 (oz_of Zx) 3 rs j r) by (auto; lia).
    rewrite (lookup_flat_map_chunk (oz_of Zx) 3 rs j 1 r) by (auto; lia).
    rewrite (lookup_flat_map_chunk (oz_of Zx) 3 rs j 2 r) by (auto; lia).
    rewrite (lookup_flat_map_chunk ox_of 3 rs j 2 r) by (auto; lia).
    rewrite (lookup_flat_map_chunk (oy_of _ _) 3 rs j 2 r) by (auto; lia).
    repeat split; reflexivity.
Qed.

Lemma shows_scale_count (Zx HS C_MIN C_MAX : Q) (comp_i comp_j dt : string)
    (girders : list (string * girder))
    (grs : list (string * list coord * list reading)) :
  map_result (girder_readings members nodes ds comp_i comp_j) girders = Ok grs ->
  length (List.filter Trace.shows_scale
            (flat_map (traces_of Zx HS C_MIN C_MAX dt) grs))
  = length (List.filter Trace.named_girder_1 girders).
Proof.
  revert grs. induction girders as [| g girders IH]; intros grs; cbn [map_result].
  - intros [= <-]. reflexivity.
  - unfold girder_readings at 1.
    destruct (map_result (node_of nodes) _) as [cs |]; cbn [bind]; [| discriminate].
    destruct (map_result (resolve _ _ _ _ _) _) as [rs |]; cbn [bind];
      [| discriminate].
    destruct (map_result _ girders) as [grs' |]; cbn [bind]; [| discriminate].
    intros [= <-]. cbn [flat_map]. rewrite List.filter_app, length_app.
    rewrite (IH grs') by reflexivity.
    cbn [traces_of List.filter Trace.shows_scale tr_line].
    unfold Trace.named_girder_1.
    destruct (String.eqb (fst g) "Girder 1"); reflexivity.
Qed.

(** X13. A figure of the 3D function shows the colour bar on as many
    traces as there are girders named "Girder 1": once for the girders of
    the script. *)
Theorem colour_bar_once_per_girder_1 (Zx : Q) (girders : list (string * girder))
    (comp_i comp_j title : string) :
  complete_all members nodes ds comp_i comp_j girders = true ->
  existsb nonzero (requested ds comp_i comp_j girders) = true ->
  exists fig,
    plot_girders members nodes ds Zx girders comp_i comp_j title = Ok fig
    /\ length (List.filter Trace.shows_scale (data fig))
       = length (List.filter Trace.named_girder_1 girders).
Proof.
  intros Hc Hnz.
  destruct (plot_girders_total members nodes ds Zx girders comp_i comp_j title
              Hc Hnz) as (M & C_MIN & C_MAX & grs & _ & _ & Hgrs & Hplot).
  eexists. split; [exact Hplot |]. cbn [data].
  eapply shows_scale_count; eauto.
Qed.

End Traces3D.

Lemma top_colours_within_shared_domain_witness :
  Profile3D.complete_all Deck.members Deck.nodes Deck.ds "Mz_i" "Mz_j"
    Task2.GIRDERS = true
  /\ existsb Profile3D.nonzero
             (Profile3D.requested Deck.ds "Mz_i" "Mz_j" Task2.GIRDERS) = true
  /\ exists fig C_MIN C_MAX,
      Task2.create_midas_polished_plot Deck.members Deck.nodes Deck.ds
        "Mz_i" "Mz_j" "Bending Moment (BMD)" = Ok fig
      /\ Some C_MIN ∈ Profile3D.requested Deck.ds "Mz_i" "Mz_j" Task2.GIRDERS
      /\ Some C_MAX ∈ Profile3D.requested Deck.ds "Mz_i" "Mz_j" Task2.GIRDERS.
Proof.
  assert (Hc : Profile3D.complete_all Deck.members Deck.nodes Deck.ds "Mz_i" "Mz_j"
                 Task2.GIRDERS = true) by (vm_compute; reflexivity).
  assert (Hnz : existsb Profile3D.nonzero
                  (Profile3D.requested Deck.ds "Mz_i" "Mz_j" Task2.GIRDERS) = true)
    by (vm_compute; reflexivity).
  split; [exact Hc |]. split; [exact Hnz |].
  destruct (top_colours_within_shared_domain Deck.members Deck.nodes Deck.ds
              Task2.Z_EXPANSION Task2.GIRDERS "Mz_i" "Mz_j" "Bending Moment (BMD)"
              Hc Hnz) as (fig & C_MIN & C_MAX & Hplot & H1 & H2 & _).
  exists fig, C_MIN, C_MAX. auto.
Defined.

Lemma traces_are_aligned_witness :
  Profile3D.complete_all Deck.members Deck.nodes Deck.ds "Vy_i" "Vy_j"
    Task2.GIRDERS = true
  /\ existsb Profile3D.nonzero
             (Profile3D.requested Deck.ds "Vy_i" "Vy_j" Task2.GIRDERS) = true
  /\ exists fig,
      Task2.create_midas_polished_plot Deck.members Deck.nodes Deck.ds
        "Vy_i" "Vy_j" "Shear Force (SFD)" = Ok fig
      /\ length (Task2.data fig) = 15%nat.
Proof.
  assert (Hc : Profile3D.complete_all Deck.members Deck.nodes Deck.ds "Vy_i" "Vy_j"
                 Task2.GIRDERS = true) by (vm_compute; reflexivity).
  assert (Hnz : existsb Profile3D.nonzero
                  (Profile3D.requested Deck.ds "Vy_i" "Vy_j" Task2.GIRDERS) = true)
    by (vm_compute; reflexivity).
  split; [exact Hc |]. split; [exact Hnz |].
  destruct (traces_are_aligned Deck.members Deck.nodes Deck.ds
              Task2.Z_EXPANSION Task2.GIRDERS "Vy_i" "Vy_j" "Shear Force (SFD)"
              Hc Hnz) as (fig & Hplot & Hlen & _).
  exists fig. split; [exact Hplot | exact Hlen].
Defined.

Lemma depth_is_expanded_node_depth_witness :
  Profile3D.complete_all Deck.members Deck.nodes Deck.ds "Vy_i" "Vy_j"
    Task2.GIRDERS = true
  /\ existsb Profile3D.nonzero
             (Profile3D.requested Deck.ds "Vy_i" "Vy_j" Task2.GIRDERS) = true
  /\ exists fig axis,
      Task2.create_midas_polished_plot Deck.members Deck.nodes Deck.ds
        "Vy_i" "Vy_j" "Shear Force (SFD)" = Ok fig
      /\ Task2.data fig !! 3%nat = Some axis
      /\ exists x y z,
          Deck.nodes !! 2%Z = Some (x, y, z)
          /\ Task2.tr_z axis !! 0%nat = Some (Some (z * (3 # 2))).
Proof.
  assert (Hc : Profile3D.complete_all Deck.members Deck.nodes Deck.ds "Vy_i" "Vy_j"
                 Task2.GIRDERS = true) by (vm_compute; reflexivity).
  assert (Hnz : existsb Profile3D.nonzero
                  (Profile3D.requested Deck.ds "Vy_i" "Vy_j" Task2.GIRDERS) = true)
    by (vm_compute; reflexivity).
  split; [exact Hc |]. split; [exact Hnz |].
  destruct (depth_is_expanded_node_depth Deck.members Deck.nodes Deck.ds
              Task2.Z_EXPANSION Task2.GIRDERS "Vy_i" "Vy_j" "Shear Force (SFD)"
              Hc Hnz) as (fig & Hplot & Hall).
  destruct (Hall 1%nat "Girder 2"
              (Task2.Girder [14; 23; 32; 41; 50; 59; 68; 77; 82]%Z
                            [2; 12; 17; 22; 27; 32; 37; 42; 47; 7]%Z) eq_refl)
    as (axis & top & Haxis & _ & Hnodes & _).
  destruct (Hnodes 0%nat 2%Z eq_refl) as (x & y & z & Hn & _ & _ & Hz).
  exists fig, axis. split; [exact Hplot |]. split; [exact Haxis |].
  exists x, y, z. split; [exact Hn | exact Hz].
Defined.

Lemma colour_bar_once_per_girder_1_witness :
  Profile3D.complete_all Deck.members Deck.nodes Deck.ds "Vy_i" "Vy_j"
    Task2.GIRDERS = true
  /\ existsb Profile3D.nonzero
             (Profile3D.requested Deck.ds "Vy_i" "Vy_j" Task2.GIRDERS) = true
  /\ exists fig,
      Task2.create_midas_polished_plot Deck.members Deck.nodes Deck.ds
        "Vy_i" "Vy_j" "Shear Force (SFD)" = Ok fig
      /\ length (List.filter Trace.shows_scale (Task2.data fig)) = 1%nat.
Proof.
  assert (Hc : Profile3D.complete_all Deck.members Deck.nodes Deck.ds "Vy_i" "Vy_j"
                 Task2.GIRDERS = true) by (vm_compute; reflexivity).
  assert (Hnz : existsb Profile3D.nonzero
                  (Profile3D.requested Deck.ds "Vy_i" "Vy_j" Task2.GIRDERS) = true)
    by (vm_compute; reflexivity).
  split; [exact Hc |]. split; [exact Hnz |].
  destruct (colour_bar_once_per_girder_1 Deck.members Deck.nodes Deck.ds
              Task2.Z_EXPANSION Task2.GIRDERS "Vy_i" "Vy_j" "Shear Force (SFD)"
              Hc Hnz) as (fig & Hplot & Hcount).
  exists fig. split; [exact Hplot | exact Hcount].
Defined.

(** ** The choice of the 3D diagram type *)





(** ** The runs of the two scripts *)

Section Runs.

Variable members : gmap Z (Z * Z).
Variable nodes : gmap Z coord.
Variable ds : gmap (Z * string) Q.

Lemma plot_girder_incomplete (ids : list Z)
    (comp_i comp_j title color unit : string) (is_step : bool) :
  complete members nodes ds comp_i comp_j ids = false ->
  exists e,
    Task1.plot_girder members nodes ds ids comp_i comp_j title color unit is_step
    = Err e.
Proof.
  intros Hc. rewrite plot_girder_figure_of.
  destruct (map_result _ ids) as [rs | e] eqn:Hrs; cbn [bind]; [| eauto].
  apply resolve_complete in Hrs. congruence.
Qed.

(** X15. The 2D script shows the shear diagram before it builds the
    moment diagram.  If the tables lack a key for the shear diagram the
    run ends with nothing shown; if they only lack one for the moment
    diagram it ends with the shear diagram shown; otherwise both are
    shown, shear first, and the run ends without an exception. *)
Theorem main_2d_outcomes :
  let shear := complete members nodes ds "Vy_i" "Vy_j" Task1.CENTRAL_GIRDER_IDS in
  let moment := complete members nodes ds "Mz_i" "Mz_j" Task1.CENTRAL_GIRDER_IDS in
  (shear = false -> exists e, Main2D.main members nodes ds = ([], Some e))
  /\ (shear = true -> moment = false ->
      exists sfd e,
        Task1.generate_midas_style_plot members nodes ds
          "Vy_i" "Vy_j" "SFD - Central Girder" "blue" "kN" true = Ok sfd
        /\ Main2D.main members nodes ds = ([sfd], Some e))
  /\ (shear = true -> moment = true ->
      exists sfd bmd,
        Task1.generate_midas_style_plot members nodes ds
          "Vy_i" "Vy_j" "SFD - Central Girder" "blue" "kN" true = Ok sfd
        /\ Task1.generate_midas_style_plot members nodes ds
             "Mz_i" "Mz_j" "BMD - Central Girder" "red" "kN-m" false = Ok bmd
        /\ Main2D.main members nodes ds = ([sfd; bmd], None)).
Proof.
  intros shear moment.
  assert (Hne : Task1.CENTRAL_GIRDER_IDS <> []) by discriminate.
  unfold Main2D.main, Task1.generate_midas_style_plot.
  split; [| split].
  - intros Hs.
    destruct (plot_girder_incomplete Task1.CENTRAL_GIRDER_IDS "Vy_i" "Vy_j"
                "SFD - Central Girder" "blue" "kN" true Hs) as [e ->].
    exists e. reflexivity.
  - intros Hs Hm.
    destruct (plot_girder_total members nodes ds Task1.CENTRAL_GIRDER_IDS
                "Vy_i" "Vy_j" "SFD - Central Girder" "blue" "kN" true Hne Hs)
      as (rs & sfd & _ & -> & _).
    destruct (plot_girder_incomplete Task1.CENTRAL_GIRDER_IDS "Mz_i" "Mz_j"
                "BMD - Central Girder" "red" "kN-m" false Hm) as [e ->].
    exists sfd, e. split; reflexivity.
  - intros Hs Hm.
    destruct (plot_girder_total members nodes ds Task1.CENTRAL_GIRDER_IDS
                "Vy_i" "Vy_j" "SFD - Central Girder" "blue" "kN" true Hne Hs)
      as (rs & sfd & _ & -> & _).
    destruct (plot_girder_total members nodes ds Task1.CENTRAL_GIRDER_IDS
                "Mz_i" "Mz_j" "BMD - Central Girder" "red" "kN-m" false Hne Hm)
      as (rs' & bmd & _ & -> & _).
    exists sfd, bmd. repeat split; reflexivity.
Qed.

Lemma plot_girders_not_ready (Zx : Q) (girders : list (string * Task2.girder))
    (comp_i comp_j title : string) :
  Profile3D.complete_all members nodes ds comp_i comp_j girders
  && existsb Profile3D.nonzero (Profile3D.requested ds comp_i comp_j girders)
  = false ->
  exists e,
    Task2.plot_girders members nodes ds Zx girders comp_i comp_j title = Err e.
Proof.
  intros H.
  destruct (Task2.plot_girders members nodes ds Zx girders comp_i comp_j title)
    as [fig | e] eqn:E; [| eauto].
  apply plot_girders_ok_complete in E as [Hc Hn]. rewrite Hc, Hn in H.
  discriminate.
Qed.

(** X16. The 3D script likewise shows the shear diagram before it builds
    the moment diagram: nothing is shown if the shear diagram fails, the
    shear diagram alone if only the moment diagram fails, and both, shear
    first, otherwise.  A diagram is built when the tables hold all its
    keys and one of its samples is not zero. *)
Theorem main_3d_outcomes :
  let ready comp_i comp_j :=
    Profile3D.complete_all members nodes ds comp_i comp_j Task2.GIRDERS
    && existsb Profile3D.nonzero
               (Profile3D.requested ds comp_i comp_j Task2.GIRDERS) in
  (ready "Vy_i" "Vy_j" = false ->
   exists e, Main3D.main members nodes ds = ([], Some e))
  /\ (ready "Vy_i" "Vy_j" = true -> ready "Mz_i" "Mz_j" = false ->
      exists sfd e,
        Task2.create_midas_polished_plot members nodes ds
          "Vy_i" "Vy_j" "Shear Force (SFD)" = Ok sfd
        /\ Main3D.main members nodes ds = ([sfd], Some e))
  /\ (ready "Vy_i" "Vy_j" = true -> ready "Mz_i" "Mz_j" = true ->
      exists sfd bmd,
        Task2.create_midas_polished_plot members nodes ds
          "Vy_i" "Vy_j" "Shear Force (SFD)" = Ok sfd
        /\ Task2.create_midas_polished_plot members nodes ds
             "Mz_i" "Mz_j" "Bending Moment (BMD)" = Ok bmd
        /\ Main3D.main members nodes ds = ([sfd; bmd], None)).
Proof.
  intros ready. unfold Main3D.main, Task2.create_midas_polished_plot.
  split; [| split].
  - intros Hs.
    destruct (plot_girders_not_ready Task2.Z_EXPANSION Task2.GIRDERS "Vy_i" "Vy_j"
                "Shear Force (SFD)" Hs) as [e ->].
    exists e. reflexivity.
  - intros Hs Hm. apply andb_true_iff in Hs as [Hc Hnz].
    destruct (plot_girders_total members nodes ds Task2.Z_EXPANSION Task2.GIRDERS
                "Vy_i" "Vy_j" "Shear Force (SFD)" Hc Hnz)
      as (M & C_MIN & C_MAX & grs & _ & _ & _ & ->).
    destruct (plot_girders_not_ready Task2.Z_EXPANSION Task2.GIRDERS "Mz_i" "Mz_j"
                "Bending Moment (BMD)" Hm) as [e ->].
    do 2 eexists. split; reflexivity.
  - intros Hs Hm. apply andb_true_iff in Hs as [Hc Hnz].
    apply andb_true_iff in Hm as [Hc' Hnz'].
    destruct (plot_girders_total members nodes ds Task2.Z_EXPANSION Task2.GIRDERS
                "Vy_i" "Vy_j" "Shear Force (SFD)" Hc Hnz)
      as (M & C_MIN & C_MAX & grs & _ & _ & _ & ->).
    destruct (plot_girders_total members nodes ds Task2.Z_EXPANSION Task2.GIRDERS
                "Mz_i" "Mz_j" "Bending Moment (BMD)" Hc' Hnz')
      as (M' & C_MIN' & C_MAX' & grs' & _ & _ & _ & ->).
    do 2 eexists. repeat split; reflexivity.
Qed.

End Runs.

Lemma main_2d_outcomes_witness :
  complete Deck.members Deck.nodes Deck.ds_shear_only "Vy_i" "Vy_j"
    Task1.CENTRAL_GIRDER_IDS = true
  /\ complete Deck.members Deck.nodes Deck.ds_shear_only "Mz_i" "Mz_j"
       Task1.CENTRAL_GIRDER_IDS = false
  /\ exists sfd e,
      Main2D.main Deck.members Deck.nodes Deck.ds_shear_only = ([sfd], Some e).
Proof.
  assert (Hs : complete Deck.members Deck.nodes Deck.ds_shear_only "Vy_i" "Vy_j"
                 Task1.CENTRAL_GIRDER_IDS = true) by (vm_compute; reflexivity).
  assert (Hm : complete Deck.members Deck.nodes Deck.ds_shear_only "Mz_i" "Mz_j"
                 Task1.CENTRAL_GIRDER_IDS = false) by (vm_compute; reflexivity).
  split; [exact Hs |]. split; [exact Hm |].
  destruct (main_2d_outcomes Deck.members Deck.nodes Deck.ds_shear_only)
    as (_ & H & _).
  destruct (H Hs Hm) as (sfd & e & _ & Hmain). exists sfd, e. exact Hmain.
Defined.

Lemma main_3d_outcomes_witness :
  Profile3D.complete_all Deck.members Deck.nodes Deck.ds_shear_only
    "Vy_i" "Vy_j" Task2.GIRDERS
  && existsb Profile3D.nonzero
             (Profile3D.requested Deck.ds_shear_only "Vy_i" "Vy_j" Task2.GIRDERS)
  = true
  /\ Profile3D.complete_all Deck.members Deck.nodes Deck.ds_shear_only
       "Mz_i" "Mz_j" Task2.GIRDERS
     && existsb Profile3D.nonzero
                (Profile3D.requested Deck.ds_shear_only "Mz_i" "Mz_j" Task2.GIRDERS)
     = false
  /\ exists sfd e,
      Main3D.main Deck.members Deck.nodes Deck.ds_shear_only = ([sfd], Some e).
Proof.
  assert (Hs : Profile3D.complete_all Deck.members Deck.nodes Deck.ds_shear_only
                 "Vy_i" "Vy_j" Task2.GIRDERS
               && existsb Profile3D.nonzero
                    (Profile3D.requested Deck.ds_shear_only "Vy_i" "Vy_j"
                       Task2.GIRDERS) = true) by (vm_compute; reflexivity).
  assert (Hm : Profile3D.complete_all Deck.members Deck.nodes Deck.ds_shear_only
                 "Mz_i" "Mz_j" Task2.GIRDERS
               && existsb Profile3D.nonzero
                    (Profile3D.requested Deck.ds_shear_only "Mz_i" "Mz_j"
                       Task2.GIRDERS) = false) by (vm_compute; reflexivity).
  split; [exact Hs |]. split; [exact Hm |].
  destruct (main_3d_outcomes Deck.members Deck.nodes Deck.ds_shear_only)
    as (_ & H & _).
  destruct (H Hs Hm) as (sfd & e & _ & Hmain). exists sfd, e. exact Hmain.
Defined.

(** ** One label per change of sign *)

Section CrossingCount.
Import Profile2D.

Variable members : gmap Z (Z * Z).
Variable nodes : gmap Z coord.
Variable ds : gmap (Z * string) Q.




End CrossingCount.


Lemma plot_girder_succeeds_iff_witness :
  (Task1.CENTRAL_GIRDER_IDS <> []
   /\ complete Deck.members Deck.nodes Deck.ds "Vy_i" "Vy_j"
               Task1.CENTRAL_GIRDER_IDS = true)
  /\ (exists fig,
         Task1.generate_midas_style_plot Deck.members Deck.nodes Deck.ds
           "Vy_i" "Vy_j" "SFD - Central Girder" "blue" "kN" true = Ok fig)
  /\ ~ (exists fig,
           Task1.plot_girder Deck.members Deck.nodes Deck.ds []
             "Vy_i" "Vy_j" "SFD - Central Girder" "blue" "kN" true = Ok fig).
Proof.
  assert (H : Task1.CENTRAL_GIRDER_IDS <> []
              /\ complete Deck.members Deck.nodes Deck.ds "Vy_i" "Vy_j"
                          Task1.CENTRAL_GIRDER_IDS = true)
    by (split; [discriminate | vm_compute; reflexivity]).
  split; [exact H |]. split.
  - apply (plot_girder_succeeds_iff Deck.members Deck.nodes Deck.ds
             Task1.CENTRAL_GIRDER_IDS). exact H.
  - intros Hfig.
    apply (plot_girder_succeeds_iff Deck.members Deck.nodes Deck.ds []) in Hfig
      as [Hne _].
    now apply Hne.
Defined.

Lemma plot_girders_succeeds_iff_witness :
  (Profile3D.complete_all Deck.members Deck.nodes Deck.ds "Vy_i" "Vy_j"
     Task2.GIRDERS = true
   /\ existsb Profile3D.nonzero
              (Profile3D.requested Deck.ds "Vy_i" "Vy_j" Task2.GIRDERS) = true)
  /\ (exists fig,
         Task2.create_midas_polished_plot Deck.members Deck.nodes Deck.ds
           "Vy_i" "Vy_j" "Shear Force (SFD)" = Ok fig)
  /\ ~ (exists fig,
           Task2.create_midas_polished_plot Deck.members Deck.nodes Flat.ds
             "Vy_i" "Vy_j" "Shear Force (SFD)" = Ok fig).
Proof.
  assert (H : Profile3D.complete_all Deck.members Deck.nodes Deck.ds "Vy_i" "Vy_j"
                Task2.GIRDERS = true
              /\ existsb Profile3D.nonzero
                   (Profile3D.requested Deck.ds "Vy_i" "Vy_j" Task2.GIRDERS) = true)
    by (split; vm_compute; reflexivity).
  split; [exact H |]. split.
  - apply (plot_girders_succeeds_iff Deck.members Deck.nodes Deck.ds
             Task2.Z_EXPANSION Task2.GIRDERS). exact H.
  - intros Hfig.
    apply (plot_girders_succeeds_iff Deck.members Deck.nodes Flat.ds
             Task2.Z_EXPANSION Task2.GIRDERS) in Hfig as [_ Hnz].
    vm_compute in Hnz. discriminate.
Defined.

(** * Properties that depend on rounding *)

#[local] Set Warnings "-inexact-float".

(** ** Rounding to binary64

    Facts about the rounding function of the format's specification
    ([SpecFloat]): a shift to the right divides the mantissa, so a rounded
    non-negative mantissa is never negative, and above the least exponent a
    rounded positive mantissa is never zero. *)

Section Rounding.
Local Open Scope Z_scope.

Lemma shr_1_m (mrs : shr_record) :
  0 <= shr_m mrs -> shr_m (shr_1 mrs) = shr_m mrs / 2.
Proof.
  destruct mrs as [m r s]. cbn [shr_m]. intros H.
  destruct m as [| p | p]; [reflexivity | | lia].
  destruct p as [p | p |]; cbn [shr_1 shr_m]; [| | reflexivity].
  - apply Z.div_unique with (r := 1); lia.
  - apply Z.div_unique with (r := 0); lia.
Qed.

Lemma iter_pos_shr_m (n : positive) (mrs : shr_record) :
  0 <= shr_m mrs ->
  shr_m (SpecFloat.iter_pos shr_1 n mrs) = shr_m mrs / 2 ^ Zpos n.
Proof.
  revert mrs. induction n as [n IH | n IH |]; intros mrs H;
    cbn [SpecFloat.iter_pos].
  - assert (Hp : 0 < 2 ^ Zpos n) by (apply Z.pow_pos_nonneg; lia).
    assert (H1 : 0 <= shr_m (shr_1 mrs)).
    { rewrite shr_1_m by exact H. apply Z.div_pos; lia. }
    assert (H2 : 0 <= shr_m (SpecFloat.iter_pos shr_1 n (shr_1 mrs))).
    { rewrite IH by exact H1. apply Z.div_pos; [exact H1 | lia]. }
    rewrite IH by exact H2. rewrite IH by exact H1. rewrite shr_1_m by exact H.
    rewrite !Z.div_div by lia. f_equal.
    rewrite (Pos2Z.inj_xI n), Z.pow_add_r, Z.pow_1_r, Z.pow_twice_r by lia. lia.
  - assert (Hp : 0 < 2 ^ Zpos n) by (apply Z.pow_pos_nonneg; lia).
    assert (H2 : 0 <= shr_m (SpecFloat.iter_pos shr_1 n mrs)).
    { rewrite IH by exact H. apply Z.div_pos; [exact H | lia]. }
    rewrite IH by exact H2. rewrite IH by exact H.
    rewrite !Z.div_div by lia. f_equal.
    rewrite (Pos2Z.inj_xO n), Z.pow_twice_r. reflexivity.
  - rewrite shr_1_m by exact H. reflexivity.
Qed.

Lemma digits2_pos_bound (p : positive) :
  2 ^ (Zpos (digits2_pos p) - 1) <= Zpos p.
Proof.
  induction p as [p IH | p IH |]; cbn [digits2_pos].
  - rewrite Pos2Z.inj_succ. replace (Z.succ (Zpos (digits2_pos p)) - 1)
      with (Z.succ (Zpos (digits2_pos p) - 1)) by lia.
    rewrite Z.pow_succ_r by lia. lia.
  - rewrite Pos2Z.inj_succ. replace (Z.succ (Zpos (digits2_pos p)) - 1)
      with (Z.succ (Zpos (digits2_pos p) - 1)) by lia.
    rewrite Z.pow_succ_r by lia. lia.
  - reflexivity.
Qed.

Lemma shr_m_of_loc (m : Z) (l : location) : shr_m (shr_record_of_loc m l) = m.
Proof. destruct l as [| []]; reflexivity. Qed.

(** Rounding keeps a non-negative mantissa non-negative. *)
Lemma shr_fexp_nonneg (m e : Z) (l : location) :
  0 <= m -> 0 <= shr_m (fst (shr_fexp prec emax m e l)).
Proof.
  intros H. unfold shr_fexp, shr.
  destruct (fexp prec emax (Zdigits2 m + e) - e) as [| n | n]; cbn [fst];
    rewrite ?shr_m_of_loc; try exact H.
  rewrite iter_pos_shr_m by (now rewrite shr_m_of_loc).
  rewrite shr_m_of_loc. apply Z.div_pos; [exact H | lia].
Qed.

(** Above the least exponent, rounding keeps a positive mantissa positive. *)
Lemma shr_fexp_pos (m : positive) (e : Z) (l : location) :
  emin <= e ->
  0 < shr_m (fst (shr_fexp prec emax (Zpos m) e l))
  /\ emin <= snd (shr_fexp prec emax (Zpos m) e l).
Proof.
  intros He. unfold shr_fexp, shr. cbn [Zdigits2].
  destruct (fexp prec emax (Zpos (digits2_pos m) + e) - e) as [| n | n] eqn:En;
    cbn [fst snd]; rewrite ?shr_m_of_loc; try (split; [lia | exact He]).
  assert (Hn : Zpos n <= Zpos (digits2_pos m) - 1).
  { revert En He. unfold fexp, SpecFloat.emin, prec, emax. lia. }
  rewrite iter_pos_shr_m by (rewrite shr_m_of_loc; lia).
  rewrite shr_m_of_loc. split; [| lia].
  apply Z.div_str_pos. split; [lia |].
  pose proof (digits2_pos_bound m) as Hd.
  assert (2 ^ Zpos n <= 2 ^ (Zpos (digits2_pos m) - 1))
    by (apply Z.pow_le_mono_r; lia).
  lia.
Qed.

Lemma round_nearest_even_nonneg (m : Z) (l : location) :
  0 <= m -> 0 <= round_nearest_even m l.
Proof.
  intros H. destruct l as [| []]; cbn [round_nearest_even];
    try destruct (Z.even m); lia.
Qed.

Lemma round_nearest_even_pos (m : Z) (l : location) :
  0 < m -> 0 < round_nearest_even m l.
Proof.
  intros H. destruct l as [| []]; cbn [round_nearest_even];
    try destruct (Z.even m); lia.
Qed.

(** The result of a rounding carries the sign it was given, or is NaN. *)
Lemma binary_round_aux_sign (s : bool) (m e : Z) (l : location) :
  signed s (binary_round_aux prec emax s m e l)
  \/ binary_round_aux prec emax s m e l = S754_nan.
Proof.
  unfold binary_round_aux.
  destruct (shr_fexp prec emax m e l) as [mrs' e'].
  destruct (shr_fexp _ _ _ e' loc_Exact) as [mrs'' e''].
  destruct (shr_m mrs''); [left; constructor | | now right].
  destruct (e'' <=? emax - prec); left; constructor.
Qed.

Lemma binary_round_aux_nonneg (s : bool) (m e : Z) (l : location) :
  0 <= m -> signed s (binary_round_aux prec emax s m e l).
Proof.
  intros H. unfold binary_round_aux.
  pose proof (shr_fexp_nonneg m e l H) as H1.
  destruct (shr_fexp prec emax m e l) as [mrs' e']. cbn [fst] in H1.
  pose proof (shr_fexp_nonneg _ e' loc_Exact
                (round_nearest_even_nonneg _ (loc_of_shr_record mrs') H1)) as H2.
  destruct (shr_fexp _ _ _ e' loc_Exact) as [mrs'' e'']. cbn [fst] in H2.
  destruct (shr_m mrs''); [constructor | | lia].
  destruct (e'' <=? emax - prec); constructor.
Qed.

Lemma binary_round_aux_pos (s : bool) (m : positive) (e : Z) (l : location) :
  emin <= e -> nonzero_signed s (binary_round_aux prec emax s (Zpos m) e l).
Proof.
  intros He. unfold binary_round_aux.
  pose proof (shr_fexp_pos m e l He) as [H1 He'].
  destruct (shr_fexp prec emax (Zpos m) e l) as [mrs' e']. cbn [fst snd] in H1, He'.
  pose proof (round_nearest_even_pos _ (loc_of_shr_record mrs') H1) as Hr.
  destruct (round_nearest_even (shr_m mrs') (loc_of_shr_record mrs')) as [| r | r];
    try lia.
  pose proof (shr_fexp_pos r e' loc_Exact He') as [H2 _].
  destruct (shr_fexp prec emax (Zpos r) e' loc_Exact) as [mrs'' e'']. cbn [fst] in H2.
  destruct (shr_m mrs''); try lia.
  destruct (e'' <=? emax - prec); constructor.
Qed.

Lemma binary_round_pos (s : bool) (m : positive) (e : Z) :
  emin <= e -> nonzero_signed s (binary_round prec emax s m e).
Proof.
  intros He. unfold binary_round, shl_align.
  destruct (fexp prec emax (Zpos (digits2_pos m) + e) - e) eqn:E;
    apply binary_round_aux_pos; try exact He.
  unfold fexp, SpecFloat.emin, prec, emax. lia.
Qed.

Lemma binary_round_nonneg (s : bool) (m : positive) (e : Z) :
  signed s (binary_round prec emax s m e).
Proof.
  unfold binary_round.
  destruct (shl_align m e _) as [mz ez]. apply binary_round_aux_nonneg. lia.
Qed.

Lemma valid_emin (s : bool) (m : positive) (e : Z) :
  valid_binary (S754_finite s m e) = true -> emin <= e.
Proof.
  cbn [SpecFloat.valid_binary]. unfold bounded, canonical_mantissa.
  intros H. apply andb_true_iff in H as [H _]. apply Z.eqb_eq in H.
  revert H. unfold fexp, SpecFloat.emin, prec, emax. lia.
Qed.

End Rounding.

(** ** The operations of the format *)

Section SpecOps.

Lemma SFcompare_refl (x : spec_float) :
  x <> S754_nan -> SFcompare x x = Some Eq.
Proof.
  destruct x as [s | s | | s m e]; intros H; try contradiction; cbn.
  - reflexivity.
  - now destruct s.
  - rewrite Z.compare_refl, Pos.compare_cont_refl. now destruct s.
Qed.

Lemma signed_not_nan (s : bool) (x : spec_float) : signed s x -> x <> S754_nan.
Proof. now destruct 1. Qed.

Lemma nonzero_signed_signed (s : bool) (x : spec_float) :
  nonzero_signed s x -> signed s x.
Proof. destruct 1; constructor. Qed.

(** A negative product: both factors are non-zero numbers of opposite
    signs. *)
Lemma SFmul_negative (x y : spec_float) :
  SFltb (SF64mul x y) (S754_zero false) = true ->
  exists s, nonzero_signed s x /\ nonzero_signed (negb s) y.
Proof.
  unfold SF64mul.
  destruct x as [sx | sx | | sx mx ex], y as [sy | sy | | sy my ey];
    cbn [SFmul SFltb SFcompare]; try discriminate;
    try (destruct sx, sy; discriminate).
  - destruct sx, sy; try discriminate; intros _;
      [exists true | exists false]; split; constructor.
  - destruct sx, sy; try discriminate; intros _;
      [exists true | exists false]; split; constructor.
  - destruct sx, sy; try discriminate; intros _;
      [exists true | exists false]; split; constructor.
  - intros H.
    destruct (binary_round_aux_sign (xorb sx sy) (Zpos (mx * my)) (ex + ey) loc_Exact)
      as [Hs | Hn]; [| rewrite Hn in H; discriminate].
    destruct sx, sy; cbn [xorb] in *.
    + inversion Hs as [E | m e E | E]; rewrite <- E in H; discriminate.
    + exists true. split; constructor.
    + exists false. split; constructor.
    + inversion Hs as [E | m e E | E]; rewrite <- E in H; discriminate.
Qed.

Lemma SFltb_negative (x : spec_float) :
  nonzero_signed true x -> SFltb x (S754_zero false) = true.
Proof. now destruct 1. Qed.

Lemma SFltb_positive (x : spec_float) :
  nonzero_signed false x -> SFltb (S754_zero false) x = true.
Proof. now destruct 1. Qed.

Lemma SFeqb_nonzero (s : bool) (x : spec_float) :
  nonzero_signed s x -> SFeqb x (S754_zero false) = false.
Proof. destruct 1; now destruct s. Qed.

(** The difference of two numbers of opposite signs is not zero. *)
Lemma SFsub_opposite (s : bool) (x y : spec_float) :
  valid_binary x = true -> valid_binary y = true ->
  nonzero_signed s x -> nonzero_signed (negb s) y ->
  nonzero_signed (negb s) (SF64sub y x).
Proof.
  intros Vx Vy Hx Hy. unfold SF64sub.
  destruct Hx as [mx ex |], Hy as [my ey |]; cbn [SFsub].
  - apply valid_emin in Vx, Vy.
    destruct (shl_align my ey (Z.min ey ex)) as [M1 e1].
    destruct (shl_align mx ex (Z.min ey ex)) as [M2 e2]. cbn [fst].
    destruct s; cbn [negb cond_Zopp Z.sub Z.opp Z.add binary_normalize];
      apply binary_round_pos; lia.
  - destruct s; constructor.
  - destruct s; constructor.
  - destruct s; constructor.
Qed.

Lemma SFsub_self (x : spec_float) :
  finite_sf x -> SF64sub x x = S754_zero false.
Proof.
  unfold SF64sub. destruct 1 as [s | s m e]; cbn [SFsub].
  - now destruct s.
  - now rewrite Z.sub_diag.
Qed.

Lemma SFmul_zero_l (z q : spec_float) :
  zero_sf z -> finite_sf q -> zero_sf (SF64mul z q).
Proof. intros [sz] [sq | sq mq eq]; constructor. Qed.

Lemma SFmul_zero_r (q z : spec_float) :
  finite_sf q -> zero_sf z -> zero_sf (SF64mul q z).
Proof. intros [sq | sq mq eq] [sz]; constructor. Qed.

Lemma SFdiv_zero (z : spec_float) (s : bool) (m : positive) (e : Z) :
  zero_sf z -> zero_sf (SF64div z (S754_finite s m e)).
Proof. intros [sz]. constructor. Qed.

(** [p + x] is [x], and [(p + x) - x] a zero, for a zero [p] and a finite
    [x]. *)
Lemma SFadd_zero_l (p x : spec_float) :
  zero_sf p -> finite_sf x -> SFeqb (SF64add p x) x = true.
Proof.
  intros [sp] [sx | sx mx ex]; unfold SF64add, SFeqb; cbn [SFadd].
  - now destruct sp, sx.
  - now rewrite SFcompare_refl.
Qed.

Lemma SF_back_to_start (p x : spec_float) :
  zero_sf p -> finite_sf x -> zero_sf (SF64sub (SF64add p x) x).
Proof.
  intros [sp] [sx | sx mx ex]; unfold SF64add; cbn [SFadd].
  - destruct sp, sx; constructor.
  - rewrite SFsub_self by constructor. constructor.
Qed.

Lemma SFcompare_finite_eq (s s' : bool) (m m' : positive) (e e' : Z) :
  SFcompare (S754_finite s m e) (S754_finite s' m' e') = Some Eq ->
  s = s' /\ m = m' /\ e = e'.
Proof.
  cbn [SFcompare]. change (Pos.compare_cont Eq m m') with (Pos.compare m m').
  destruct s, s'; try discriminate;
    destruct (Z.compare_spec e e') as [-> | |]; try discriminate;
    destruct (Pos.compare_spec m m') as [-> | |]; try discriminate;
    intros _; auto.
Qed.

(** Equal finite numbers have a zero difference. *)
Lemma SFsub_equal (x y : spec_float) :
  finite_sf x -> SFeqb x y = true -> zero_sf (SF64sub y x).
Proof.
  unfold SFeqb. intros [sx | sx mx ex] H.
  - destruct y as [sy | sy | | sy my ey]; cbn in H; try discriminate.
    + destruct sx, sy; constructor.
    + now destruct sy.
    + now destruct sy.
  - destruct y as [sy | sy | | sy my ey];
      try (cbn in H; destruct sx; try destruct sy; discriminate).
    destruct (SFcompare (S754_finite sx mx ex) (S754_finite sy my ey)) as [[] |] eqn:E;
      try discriminate.
    apply SFcompare_finite_eq in E as (-> & -> & ->).
    rewrite SFsub_self by constructor. constructor.
Qed.

(** A finite difference has finite operands, a finite quotient by a
    finite number a finite dividend. *)
Lemma SFsub_finite (x y : spec_float) :
  finite_sf (SF64sub y x) -> finite_sf x /\ finite_sf y.
Proof.
  unfold SF64sub.
  destruct x as [sx | sx | | sx mx ex], y as [sy | sy | | sy my ey];
    cbn [SFsub]; intros H; try (split; constructor);
    try (inversion H; fail); destruct sx, sy; inversion H.
Qed.

Lemma SFdiv_finite (d : spec_float) (s : bool) (m : positive) (e : Z) :
  finite_sf (SF64div d (S754_finite s m e)) -> finite_sf d.
Proof.
  unfold SF64div. destruct d as [sd | sd | | sd md ed]; cbn [SFdiv];
    intros H; try constructor; inversion H.
Qed.

(** [a + d * 0 / dx] is [a], for finite [a] and [d] and a divisor that is
    a number other than zero. *)
Lemma SF_start_value (a d z dx : spec_float) (s : bool) :
  finite_sf a -> finite_sf d -> zero_sf z -> nonzero_signed s dx ->
  SFeqb (SF64add a (SF64div (SF64mul d z) dx)) a = true.
Proof.
  intros Ha Hd Hz Hdx. unfold SF64add, SF64div, SF64mul, SFeqb.
  destruct Hz as [sz].
  assert (E : exists s', SFdiv prec emax (SFmul prec emax d (S754_zero sz)) dx
                         = S754_zero s').
  { destruct Hd, Hdx; cbn [SFmul SFdiv]; eauto. }
  destruct E as [s' ->].
  destruct Ha as [sa | sa ma ea]; cbn [SFadd].
  - now destruct sa, s'.
  - now rewrite SFcompare_refl.
Qed.

(** [a + d * 0] is [a], for finite [a] and [d]. *)
Lemma SF_start_value3 (a d z : spec_float) :
  finite_sf a -> finite_sf d -> zero_sf z ->
  SFeqb (SF64add a (SF64mul d z)) a = true.
Proof.
  intros Ha Hd Hz. unfold SF64add, SF64mul, SFeqb. destruct Hz as [sz].
  assert (E : exists s', SFmul prec emax d (S754_zero sz) = S754_zero s').
  { destruct Hd; cbn [SFmul]; eauto. }
  destruct E as [s' ->].
  destruct Ha as [sa | sa ma ea]; cbn [SFadd].
  - now destruct sa, s'.
  - now rewrite SFcompare_refl.
Qed.

(** [d * 0 / 0] is NaN, whatever [d] is, and so is any sum with it. *)
Lemma SF_zero_by_zero (a d z z' : spec_float) :
  zero_sf z -> zero_sf z' ->
  SF64add a (SF64div (SF64mul d z) z') = S754_nan.
Proof.
  intros [sz] [sz']. unfold SF64add, SF64div, SF64mul.
  assert (E : SFdiv prec emax (SFmul prec emax d (S754_zero sz)) (S754_zero sz')
              = S754_nan) by now destruct d.
  rewrite E. now destruct a.
Qed.

Lemma SFdiv_core_nonneg (m1 m2 : positive) (e1 e2 : Z) :
  (0 <= fst (fst (SFdiv_core_binary prec emax (Zpos m1) e1 (Zpos m2) e2)))%Z.
Proof.
  unfold SFdiv_core_binary.
  set (s := (e1 - e2 - _)%Z).
  set (m' := match s with Zpos _ => Z.shiftl (Zpos m1) s | Z0 => Zpos m1 | Zneg _ => 0%Z end).
  assert (Hm : (0 <= m')%Z).
  { subst m'. destruct s; try lia. apply Z.shiftl_nonneg. lia. }
  pose proof (Z_div_mod m' (Zpos m2) ltac:(lia)) as H.
  destruct (Z.div_eucl m' (Zpos m2)) as [q r]. cbn [fst].
  destruct H as [H1 H2]. nia.
Qed.

(** The quotient of a finite number by a finite number other than zero is
    a number. *)
Lemma SFdiv_not_nan (p : spec_float) (s : bool) (m : positive) (e : Z) :
  finite_sf p -> SF64div p (S754_finite s m e) <> S754_nan.
Proof.
  unfold SF64div. destruct 1 as [sp | sp mp ep]; cbn [SFdiv]; [discriminate |].
  pose proof (SFdiv_core_nonneg mp m ep e) as H.
  destruct (SFdiv_core_binary prec emax (Zpos mp) ep (Zpos m) e) as [[mz ez] lz].
  cbn [fst] in H.
  eapply signed_not_nan. now apply binary_round_aux_nonneg.
Qed.

(** The sum of a finite number and a number is a number. *)
Lemma SFadd_not_nan (a b : spec_float) :
  finite_sf a -> b <> S754_nan -> SF64add a b <> S754_nan.
Proof.
  unfold SF64add. intros Ha Hb.
  destruct Ha as [sa | sa ma ea], b as [sb | sb | | sb mb eb];
    try contradiction; cbn [SFadd]; try discriminate.
  - now destruct sa, sb.
  - destruct (cond_Zopp sa _ + cond_Zopp sb _)%Z; cbn [binary_normalize];
      [discriminate | |]; eapply signed_not_nan, binary_round_nonneg.
Qed.

End SpecOps.

(** ** Primitive floats *)

Section Floats.
Local Open Scope float_scope.
Import Binary64.

Lemma is_nan_spec (x : float) : is_nan x = true <-> Prim2SF x = S754_nan.
Proof.
  unfold is_nan. rewrite FloatAxioms.eqb_spec. unfold SFeqb. split.
  - intros H. destruct (Prim2SF x) eqn:E; try reflexivity;
      rewrite SFcompare_refl in H by discriminate; discriminate.
  - now intros ->.
Qed.

Lemma is_nan_false (x : float) : Prim2SF x <> S754_nan -> is_nan x = false.
Proof.
  intros H. destruct (is_nan x) eqn:E; [| reflexivity].
  now apply is_nan_spec in E.
Qed.

Lemma is_finite_spec (x : float) : is_finite x = true -> finite_sf (Prim2SF x).
Proof.
  unfold is_finite, is_nan, is_infinity. rewrite !FloatAxioms.eqb_spec, FloatAxioms.abs_spec.
  change (Prim2SF infinity) with (S754_infinity false). unfold SFeqb.
  destruct (Prim2SF x) as [s | s | | s m e]; intros H; try constructor.
  - destruct s; discriminate.
  - discriminate.
Qed.

Lemma eqb_zero_spec (x : float) : (x =? 0) = true -> zero_sf (Prim2SF x).
Proof.
  rewrite FloatAxioms.eqb_spec. change (Prim2SF 0) with (S754_zero false). unfold SFeqb.
  destruct (Prim2SF x) as [s | s | | s m e]; cbn; try discriminate.
  - constructor.
  - now destruct s.
  - now destruct s.
Qed.

Lemma eqb_nonzero_spec (x : float) :
  is_finite x = true -> (x =? 0) = false ->
  exists s m e, Prim2SF x = S754_finite s m e.
Proof.
  intros Hf. apply is_finite_spec in Hf. rewrite FloatAxioms.eqb_spec.
  change (Prim2SF 0) with (S754_zero false).
  destruct Hf as [s | s m e]; [discriminate | eauto].
Qed.

Lemma is_finite_intro (x : float) : finite_sf (Prim2SF x) -> is_finite x = true.
Proof.
  unfold is_finite, is_nan, is_infinity.
  rewrite !FloatAxioms.eqb_spec, FloatAxioms.abs_spec.
  change (Prim2SF infinity) with (S754_infinity false). unfold SFeqb.
  intros H. rewrite SFcompare_refl by (destruct H; discriminate).
  now destruct H.
Qed.

Lemma eqb_zero_intro (x : float) : zero_sf (Prim2SF x) -> (x =? 0) = true.
Proof.
  rewrite FloatAxioms.eqb_spec. change (Prim2SF 0) with (S754_zero false).
  now intros [s].
Qed.

Lemma sub_self (x : float) : is_finite x = true -> x - x = 0.
Proof.
  intros H. apply Prim2SF_inj. rewrite FloatAxioms.sub_spec.
  now rewrite SFsub_self by now apply is_finite_spec.
Qed.

Lemma mul_negative_signs (a b : float) :
  (a * b <? 0) = true ->
  exists s, nonzero_signed s (Prim2SF a) /\ nonzero_signed (negb s) (Prim2SF b).
Proof.
  rewrite FloatAxioms.ltb_spec, FloatAxioms.mul_spec. apply SFmul_negative.
Qed.

(** A negative product needs factors of strictly opposite signs. *)
Lemma mul_negative_opposite (a b : float) :
  (a * b <? 0) = true -> opposite_signs a b.
Proof.
  intros H. destruct (mul_negative_signs a b H) as (s & Ha & Hb).
  unfold opposite_signs. rewrite !FloatAxioms.ltb_spec.
  change (Prim2SF 0) with (S754_zero false).
  destruct s; [left | right]; split;
    auto using SFltb_negative, SFltb_positive.
Qed.

(** Behind the test of line 98 the divisor of line 99 is not zero. *)
Lemma mul_negative_divisor (a b : float) :
  (a * b <? 0) = true -> (b - a =? 0) = false.
Proof.
  intros H. destruct (mul_negative_signs a b H) as (s & Ha & Hb).
  rewrite FloatAxioms.eqb_spec, FloatAxioms.sub_spec. change (Prim2SF 0) with (S754_zero false).
  eapply SFeqb_nonzero, SFsub_opposite; eauto using Prim2SF_valid.
Qed.

(** Samples of the same sign, a zero sample or equal samples: the product
    is not negative. *)
Lemma no_sign_change_product (a b : float) :
  no_sign_change a b -> (a * b <? 0) = false.
Proof.
  intros H. destruct (a * b <? 0) eqn:E; [| reflexivity]. exfalso.
  destruct (mul_negative_signs a b E) as (s & Ha & Hb).
  revert H. unfold no_sign_change. rewrite !FloatAxioms.leb_spec, !FloatAxioms.eqb_spec.
  change (Prim2SF 0) with (S754_zero false). unfold SFleb, SFeqb.
  destruct Ha, Hb; destruct s; cbn;
    intros [[? ?] | [[? ?] | [? | [? | ?]]]]; discriminate.
Qed.

End Floats.

(** ** The loop bodies in binary64, element by element *)

Section Body64.
Import Binary64.
Local Open Scope float_scope.

Variable members : gmap Z (Z * Z).
Variable nodes : gmap Z Binary64.coord.
Variable ds : gmap (Z * string) float.

(** The division of line 99 never fails behind the test of line 98, in
    binary64 either. *)
Lemma zero_crossing_label_b64 (is_step : bool) (x_i x_j val_i val_j : float) :
  Task1.zero_crossing is_step x_i x_j val_i val_j
  = Ok (crossing_label is_step x_i x_j val_i val_j).
Proof.
  unfold Task1.zero_crossing, crossing_label.
  destruct (negb is_step && (val_i * val_j <? 0)) eqn:E; [| reflexivity].
  apply andb_true_iff in E as [_ E]. unfold py_div.
  now rewrite (mul_negative_divisor _ _ E).
Qed.

Lemma element_resolve_b64 (comp_i comp_j : string) (is_step : bool)
    (st : Task1.loop_state) (eid : Z) :
  Task1.element members nodes ds comp_i comp_j is_step st eid
  = let* r := Binary64.resolve members nodes ds comp_i comp_j eid in
    Ok (extend is_step st r).
Proof.
  unfold Task1.element, Binary64.resolve.
  destruct (member_of members eid) as [[sn en] |]; cbn [bind]; [| reflexivity].
  destruct (node_of nodes sn) as [[[a1 y1] b1] |]; cbn [bind]; [| reflexivity].
  destruct (node_of nodes en) as [[[a2 y2] b2] |]; cbn [bind]; [| reflexivity].
  destruct (sel ds eid comp_i) as [v1 |]; cbn [bind]; [| reflexivity].
  destruct (sel ds eid comp_j) as [v2 |]; cbn [bind]; [| reflexivity].
  unfold extend. cbn [start_x end_x start_val end_val].
  destruct is_step; cbn [end_value]; rewrite zero_crossing_label_b64; reflexivity.
Qed.

Lemma fold_fence_line_b64 (a1 a2 b1 b2 h1 h2 c1 c2 : float) (ks : list nat)
    (g : Task2.geometry) :
  fold_left (Task2.fence_line a1 a2 b1 b2 h1 h2 c1 c2) ks g
  = {| Task2.outline_x := Task2.outline_x g; Task2.outline_y := Task2.outline_y g;
       Task2.outline_z := Task2.outline_z g; Task2.outline_c := Task2.outline_c g;
       Task2.hatch_x := Task2.hatch_x g
         ++ flat_map (fun k => let cx := between a1 a2 k in [Some cx; Some cx; None]) ks;
       Task2.hatch_y := Task2.hatch_y g
         ++ flat_map (fun k => [Some 0; Some (between h1 h2 k); None]) ks;
       Task2.hatch_z := Task2.hatch_z g
         ++ flat_map (fun k => let cz := between b1 b2 k in [Some cz; Some cz; None]) ks;
       Task2.hatch_c := Task2.hatch_c g
         ++ flat_map (fun k => let cc := between c1 c2 k in [cc; cc; cc]) ks |}.
Proof.
  revert g. induction ks as [| k ks IH]; intros g.
  - simpl. rewrite !app_nil_r. now destruct g.
  - cbn [fold_left flat_map]. rewrite IH.
    unfold Task2.fence_line at 1 2 3 4 5 6 7 8.
    cbn [Task2.outline_x Task2.outline_y Task2.outline_z Task2.outline_c
         Task2.hatch_x Task2.hatch_y Task2.hatch_z Task2.hatch_c].
    rewrite <- !app_assoc. reflexivity.
Qed.

Lemma element_resolve3_b64 (Zx HS : float) (comp_i comp_j dt : string)
    (g : Task2.geometry) (eid : Z) :
  Task2.element members nodes ds Zx HS comp_i comp_j dt g eid
  = let* r := Binary64.resolve members nodes ds comp_i comp_j eid in
    Ok (extend3 Zx HS dt g r).
Proof.
  unfold Task2.element, Binary64.resolve.
  destruct (member_of members eid) as [[sn en] |]; cbn [bind]; [| reflexivity].
  destruct (node_of nodes sn) as [[[a1 y1] b1] |]; cbn [bind]; [| reflexivity].
  destruct (node_of nodes en) as [[[a2 y2] b2] |]; cbn [bind]; [| reflexivity].
  destruct (sel ds eid comp_i) as [v1 |]; cbn [bind]; [| reflexivity].
  destruct (sel ds eid comp_j) as [v2 |]; cbn [bind]; [| reflexivity].
  unfold extend3, Task2.diagram_logic, is_sfd.
  cbn [start_x end_x start_z end_z start_val end_val].
  destruct (String.eqb dt "SFD"); cbn [end_value];
    rewrite fold_fence_line_b64; reflexivity.
Qed.

End Body64.

(** ** Zero crossings in binary64 *)

Section Crossings64.
Import Binary64.
Local Open Scope float_scope.

Variable members : gmap Z (Z * Z).
Variable nodes : gmap Z Binary64.coord.
Variable ds : gmap (Z * string) float.

(** C1, as the code has it.  In linear mode the loop body labels a zero
    crossing for an element exactly when the binary64 product
    [val_i * val_j] is negative; the label then sits at
    [x_i - val_i * (x_j - x_i) / (val_j - val_i)], a division that cannot
    fail behind the test.  A negative product needs samples of strictly
    opposite signs, so nothing is labelled when the samples share a sign,
    when one of them is zero or when they are equal; nothing is ever
    labelled in stepped mode. *)
Theorem zero_crossing_iff_negative_product (comp_i comp_j : string)
    (st : Task1.loop_state) (eid : Z) (x_i z_i x_j z_j val_i val_j : float) :
  Binary64.resolve members nodes ds comp_i comp_j eid
  = Ok (Reading x_i z_i x_j z_j val_i val_j) ->
  (exists st',
      Task1.element members nodes ds comp_i comp_j false st eid = Ok st'
      /\ Task1.fig_annotations st'
         = Task1.fig_annotations st
           ++ (if val_i * val_j <? 0 then
                 [Task1.ZeroCrossing (x_i - val_i * (x_j - x_i) / (val_j - val_i))]
               else []))
  /\ ((val_i * val_j <? 0) = true -> opposite_signs val_i val_j)
  /\ (no_sign_change val_i val_j -> (val_i * val_j <? 0) = false)
  /\ (exists st',
         Task1.element members nodes ds comp_i comp_j true st eid = Ok st'
         /\ Task1.fig_annotations st' = Task1.fig_annotations st).
Proof.
  intros Hr. split; [| split; [| split]].
  - rewrite element_resolve_b64, Hr. cbn [bind]. eexists.
    split; reflexivity.
  - apply mul_negative_opposite.
  - apply no_sign_change_product.
  - rewrite element_resolve_b64, Hr. cbn [bind]. eexists.
    split; [reflexivity |]. cbn. now rewrite app_nil_r.
Qed.

End Crossings64.

Lemma zero_crossing_iff_negative_product_witness :
  Binary64.resolve Binary64.Span.members (Binary64.Span.nodes 0 4)
    (Binary64.Span.ds 10 (-5)) "Mz_i" "Mz_j" 1
  = Ok (Binary64.Reading 0 0 4 0 10 (-5))
  /\ exists st',
      Binary64.Task1.element Binary64.Span.members (Binary64.Span.nodes 0 4)
        (Binary64.Span.ds 10 (-5)) "Mz_i" "Mz_j" false Binary64.Span.empty 1
      = Ok st'
      /\ Binary64.Task1.fig_annotations st'
         = [Binary64.Task1.ZeroCrossing (0 - 10 * (4 - 0) / (-5 - 10))%float].
Proof.
  assert (Hr : Binary64.resolve Binary64.Span.members (Binary64.Span.nodes 0 4)
                 (Binary64.Span.ds 10 (-5)) "Mz_i" "Mz_j" 1
               = Ok (Binary64.Reading 0 0 4 0 10 (-5)))
    by (vm_compute; reflexivity).
  split; [exact Hr |].
  destruct (zero_crossing_iff_negative_product Binary64.Span.members
              (Binary64.Span.nodes 0 4) (Binary64.Span.ds 10 (-5))
              "Mz_i" "Mz_j" Binary64.Span.empty 1 _ _ _ _ _ _ Hr)
    as ((st' & Hel & Hann) & _).
  exists st'. split; [exact Hel | exact Hann].
Defined.

(** Two samples of strictly opposite signs whose product underflows to
    [-0.0]: the test of line 98 fails and the element gets no label. *)
Lemma tiny_opposite_samples_get_no_label :
  Binary64.opposite_signs 0x1p-540 (-0x1p-540)
  /\ (0x1p-540 * -0x1p-540 <? 0)%float = false
  /\ exists st',
      Binary64.Task1.element Binary64.Span.members (Binary64.Span.nodes 9 12)
        (Binary64.Span.ds 0x1p-540 (-0x1p-540)) "Mz_i" "Mz_j" false
        Binary64.Span.empty 1
      = Ok st'
      /\ Binary64.Task1.fig_annotations st' = [].
Proof.
  split; [right; split; vm_compute; reflexivity |].
  split; [vm_compute; reflexivity |].
  eexists. split; [vm_compute; reflexivity | reflexivity].
Qed.

(** ** Hatch values in binary64 *)

Section Hatch64.
Import Binary64.
Local Open Scope float_scope.

Lemma length_linspace_b64 (a b : float) (num : nat) :
  length (linspace a b num) = num.
Proof.
  unfold linspace.
  destruct (1 <? num)%nat, (0 <? num - 1)%nat;
    try destruct ((b - a) / of_int (Z.of_nat (num - 1)) =? 0);
    now rewrite ?length_insert, !length_map, length_seq.
Qed.

(** The twelve hatch positions. *)
Lemma linspace_lookup_b64 (a b : float) (k : nat) :
  (k < 12)%nat ->
  linspace a b 12 !! k
  = Some (if (k =? 11)%nat then b
          else if (b - a) / of_int 11 =? 0
               then of_int (Z.of_nat k) / of_int 11 * (b - a) + a
               else of_int (Z.of_nat k) * ((b - a) / of_int 11) + a).
Proof.
  intros Hk. unfold linspace. cbn [Nat.sub Nat.ltb Nat.leb].
  change (Z.of_nat 11) with 11%Z.
  destruct (Nat.eqb_spec k 11) as [-> | Hne].
  - apply list_lookup_insert_eq.
    destruct ((b - a) / of_int 11 =? 0); rewrite !length_map, length_seq; lia.
  - rewrite list_lookup_insert_ne by lia.
    destruct ((b - a) / of_int 11 =? 0);
      rewrite !lookup_map, lookup_seq_lt by exact Hk; reflexivity.
Qed.

Lemma of_int_11 : Prim2SF (of_int 11) = S754_finite false 6192449487634432 (-49).
Proof. reflexivity. Qed.

Lemma fraction_finite (k : nat) :
  (k < 12)%nat -> is_finite (of_int (Z.of_nat k) / of_int 11) = true.
Proof.
  intros Hk. do 12 (destruct k as [| k]; [reflexivity |]). lia.
Qed.

(** The hatch positions of an element whose end nodes have equal finite
    x-coordinates are all at the start node. *)
Lemma linspace_equal_ends (a b hx : float) :
  is_finite a = true -> (a =? b) = true ->
  hx ∈ linspace a b 12 -> zero_sf (Prim2SF (hx - a)).
Proof.
  intros Hf He Hin. apply is_finite_spec in Hf.
  rewrite FloatAxioms.eqb_spec in He.
  pose proof (SFsub_equal _ _ Hf He) as Hd. rewrite <- FloatAxioms.sub_spec in Hd.
  apply list_elem_of_lookup in Hin as [k Hk].
  assert (Hlt : (k < 12)%nat).
  { apply lookup_lt_Some in Hk. now rewrite length_linspace_b64 in Hk. }
  rewrite linspace_lookup_b64 in Hk by exact Hlt. injection Hk as <-.
  destruct (Nat.eqb_spec k 11) as [-> | Hne]; [exact Hd |].
  assert (Hz : ((b - a) / of_int 11 =? 0) = true).
  { rewrite FloatAxioms.eqb_spec, FloatAxioms.div_spec, of_int_11.
    destruct Hd as [s]. now destruct s. }
  rewrite Hz, FloatAxioms.sub_spec, FloatAxioms.add_spec, FloatAxioms.mul_spec.
  apply SF_back_to_start; [| exact Hf].
  apply SFmul_zero_r; [| exact Hd].
  apply is_finite_spec, fraction_finite. lia.
Qed.

(** Line 90 with a zero divisor, at the start node: NaN. *)
Lemma hatch_value_nan_b64 (val_start val_end x_i x_j hx : float) :
  zero_sf (Prim2SF (hx - x_i)) -> zero_sf (Prim2SF (x_j - x_i)) ->
  is_nan (Task1.hatch_value false val_start val_end x_i x_j hx) = true.
Proof.
  intros Ht Hd. apply is_nan_spec. unfold Task1.hatch_value.
  rewrite FloatAxioms.add_spec, FloatAxioms.div_spec, FloatAxioms.mul_spec.
  now apply SF_zero_by_zero.
Qed.

(** Line 90 with finite operands and a divisor other than zero: a
    number. *)
Lemma hatch_value_number_b64 (val_start val_end x_i x_j hx : float) :
  is_finite val_start = true ->
  is_finite ((val_end - val_start) * (hx - x_i)) = true ->
  is_finite (x_j - x_i) = true -> (x_j - x_i =? 0) = false ->
  is_nan (Task1.hatch_value false val_start val_end x_i x_j hx) = false.
Proof.
  intros Hs Hp Hd Hne. apply is_nan_false. unfold Task1.hatch_value.
  destruct (eqb_nonzero_spec _ Hd Hne) as (s & m & e & E).
  rewrite FloatAxioms.add_spec, FloatAxioms.div_spec, E.
  apply SFadd_not_nan; [now apply is_finite_spec |].
  apply SFdiv_not_nan. now apply is_finite_spec.
Qed.

(** Line 90 at the start node: the start sample. *)
Lemma hatch_value_start_b64 (val_start val_end x_i x_j hx : float) :
  is_finite (val_end - val_start) = true ->
  zero_sf (Prim2SF (hx - x_i)) ->
  is_finite (x_j - x_i) = true -> (x_j - x_i =? 0) = false ->
  (Task1.hatch_value false val_start val_end x_i x_j hx =? val_start) = true.
Proof.
  intros Hv Ht Hd Hne. unfold Task1.hatch_value.
  destruct (eqb_nonzero_spec _ Hd Hne) as (s & m & e & E).
  apply is_finite_spec in Hv. pose proof Hv as Hv'.
  rewrite FloatAxioms.sub_spec in Hv'. apply SFsub_finite in Hv' as [Hs _].
  rewrite FloatAxioms.eqb_spec, FloatAxioms.add_spec, FloatAxioms.div_spec,
    FloatAxioms.mul_spec, E.
  eapply SF_start_value; eauto. constructor.
Qed.

(** The first hatch position is the start node. *)
Lemma linspace_first (a b : float) :
  is_finite ((b - a) / of_int 11) = true ->
  exists hx, linspace a b 12 !! 0%nat = Some hx
             /\ (hx =? a) = true /\ zero_sf (Prim2SF (hx - a)).
Proof.
  intros Hstep. rewrite linspace_lookup_b64 by lia. cbn [Nat.eqb].
  change (of_int (Z.of_nat 0)) with 0.
  apply is_finite_spec in Hstep. pose proof Hstep as Hd.
  rewrite FloatAxioms.div_spec, of_int_11 in Hd. apply SFdiv_finite in Hd.
  pose proof Hd as Ha. rewrite FloatAxioms.sub_spec in Ha.
  apply SFsub_finite in Ha as [Ha _].
  assert (H0 : zero_sf (Prim2SF (0 / of_int 11))) by (vm_compute; constructor).
  assert (Z0 : zero_sf (Prim2SF 0)) by (vm_compute; constructor).
  eexists. split; [reflexivity |].
  destruct ((b - a) / of_int 11 =? 0); split.
  - rewrite FloatAxioms.eqb_spec, FloatAxioms.add_spec, FloatAxioms.mul_spec.
    apply SFadd_zero_l; [| exact Ha]. now apply SFmul_zero_l.
  - rewrite FloatAxioms.sub_spec, FloatAxioms.add_spec, FloatAxioms.mul_spec.
    apply SF_back_to_start; [| exact Ha]. now apply SFmul_zero_l.
  - rewrite FloatAxioms.eqb_spec, FloatAxioms.add_spec, FloatAxioms.mul_spec.
    apply SFadd_zero_l; [| exact Ha]. now apply SFmul_zero_l.
  - rewrite FloatAxioms.sub_spec, FloatAxioms.add_spec, FloatAxioms.mul_spec.
    apply SF_back_to_start; [| exact Ha]. now apply SFmul_zero_l.
Qed.

End Hatch64.

(** ** When a hatch value is a number *)

Section Defined64.
Import Binary64.
Local Open Scope float_scope.

Variable members : gmap Z (Z * Z).
Variable nodes : gmap Z Binary64.coord.
Variable ds : gmap (Z * string) float.

(** C10, as the code has it.  In linear mode every hatch value of an
    element is the binary64 value of
    [val_start + (val_end - val_start) * (hx - x_i) / (x_j - x_i)], a
    quotient by the difference of the end x-coordinates.  Distinct
    coordinates are necessary: when the end nodes share a finite
    x-coordinate the divisor is zero and all twelve hatch values are NaN.
    They are not sufficient: for a divisor other than zero the value is a
    number provided the start sample, the product
    [(val_end - val_start) * (hx - x_i)] and the divisor are finite. *)
Theorem hatch_value_needs_distinct_x (comp_i comp_j : string)
    (st : Task1.loop_state) (eid : Z) (r : Binary64.reading) :
  Binary64.resolve members nodes ds comp_i comp_j eid = Ok r ->
  exists st' hs,
    Task1.element members nodes ds comp_i comp_j false st eid = Ok st'
    /\ Task1.fig_shapes st' = Task1.fig_shapes st ++ hs
    /\ hs = map (fun hx =>
                   Task1.Line hx 0 hx
                     (start_val r
                      + (end_val r - start_val r) * (hx - start_x r)
                        / (end_x r - start_x r)))
                (linspace (start_x r) (end_x r) 12)
    /\ length hs = 12%nat
    /\ (is_finite (start_x r) = true -> (start_x r =? end_x r) = true ->
        (end_x r - start_x r =? 0) = true
        /\ Forall (fun s => is_nan (Task1.y1 s) = true) hs)
    /\ (is_finite (start_val r) = true ->
        is_finite (end_x r - start_x r) = true ->
        (end_x r - start_x r =? 0) = false ->
        Forall (fun s =>
                  is_finite ((end_val r - start_val r) * (Task1.x0 s - start_x r))
                  = true ->
                  is_nan (Task1.y1 s) = false) hs).
Proof.
  intros Hr. rewrite element_resolve_b64, Hr. cbn [bind].
  exists (extend false st r),
    (Task1.hatch_lines false (start_val r) (end_val r) (start_x r) (end_x r)).
  split; [reflexivity |]. split; [reflexivity |]. split; [reflexivity |].
  split; [| split].
  - unfold Task1.hatch_lines, Task1.hatch_density.
    now rewrite length_map, length_linspace_b64.
  - intros Hf He.
    assert (Hd : zero_sf (Prim2SF (end_x r - start_x r))).
    { rewrite FloatAxioms.sub_spec. apply SFsub_equal.
      - now apply is_finite_spec.
      - now rewrite <- FloatAxioms.eqb_spec. }
    split; [now apply eqb_zero_intro |].
    unfold Task1.hatch_lines, Task1.hatch_density.
    apply List.Forall_map, Forall_forall. intros hx Hin. cbn [Task1.y1].
    apply hatch_value_nan_b64; [| exact Hd].
    now apply (linspace_equal_ends (start_x r) (end_x r)).
  - intros Hs Hd Hne. unfold Task1.hatch_lines, Task1.hatch_density.
    apply List.Forall_map, Forall_forall. intros hx _. cbn [Task1.y1 Task1.x0].
    intros Hp. now apply hatch_value_number_b64.
Qed.

End Defined64.

Lemma hatch_value_needs_distinct_x_witness :
  Binary64.resolve Binary64.Span.members (Binary64.Span.nodes 3 3)
    (Binary64.Span.ds 10 (-5)) "Mz_i" "Mz_j" 1
  = Ok (Binary64.Reading 3 0 3 0 10 (-5))
  /\ exists st',
      Binary64.Task1.element Binary64.Span.members (Binary64.Span.nodes 3 3)
        (Binary64.Span.ds 10 (-5)) "Mz_i" "Mz_j" false Binary64.Span.empty 1
      = Ok st'
      /\ length (Binary64.Task1.fig_shapes st') = 12%nat
      /\ Forall (fun s => is_nan (Binary64.Task1.y1 s) = true)
                (Binary64.Task1.fig_shapes st').
Proof.
  assert (Hr : Binary64.resolve Binary64.Span.members (Binary64.Span.nodes 3 3)
                 (Binary64.Span.ds 10 (-5)) "Mz_i" "Mz_j" 1
               = Ok (Binary64.Reading 3 0 3 0 10 (-5)))
    by (vm_compute; reflexivity).
  split; [exact Hr |].
  destruct (hatch_value_needs_distinct_x Binary64.Span.members
              (Binary64.Span.nodes 3 3) (Binary64.Span.ds 10 (-5))
              "Mz_i" "Mz_j" Binary64.Span.empty 1 _ Hr)
    as (st' & hs & Hel & Hs & _ & Hlen & Hnan & _).
  exists st'. split; [exact Hel |]. rewrite Hs. cbn [Binary64.Span.empty
    Binary64.Task1.fig_shapes app]. split; [exact Hlen |].
  apply Hnan; reflexivity.
Defined.

(** An element from x = 0 to x = 4 whose samples are 2^1023 and -2^1023:
    the end coordinates differ, the difference of the samples overflows,
    and the hatch value at the start node is NaN. *)
Lemma overflowing_samples_give_nan :
  (0 =? 4)%float = false
  /\ is_finite 0x1p1023 = true /\ is_finite (-0x1p1023) = true
  /\ exists st' s rest,
      Binary64.Task1.element Binary64.Span.members (Binary64.Span.nodes 0 4)
        (Binary64.Span.ds 0x1p1023 (-0x1p1023)) "Mz_i" "Mz_j" false
        Binary64.Span.empty 1
      = Ok st'
      /\ Binary64.Task1.fig_shapes st' = s :: rest
      /\ Binary64.Task1.x0 s = 0%float
      /\ is_nan (Binary64.Task1.y1 s) = true.
Proof.
  split; [reflexivity |]. split; [reflexivity |]. split; [reflexivity |].
  do 3 eexists. split; [vm_compute; reflexivity |].
  split; [reflexivity |]. split; reflexivity.
Qed.

(** ** Linear interpolation *)

Section Interpolation.
Local Open Scope float_scope.

Lemma frac_0 : zero_sf (Prim2SF (Binary64.frac 0)).
Proof. vm_compute. constructor. Qed.

(** The point at the fraction 0 between two values is the first one. *)
Lemma between_start (a b : float) :
  is_finite (b - a) = true -> (Binary64.between a b 0 =? a) = true.
Proof.
  intros H. apply is_finite_spec in H. pose proof H as Ha.
  rewrite FloatAxioms.sub_spec in Ha. apply SFsub_finite in Ha as [Ha _].
  unfold Binary64.between.
  rewrite FloatAxioms.eqb_spec, FloatAxioms.add_spec, FloatAxioms.mul_spec.
  apply SF_start_value3; auto using frac_0.
Qed.

(** C4, as the code has it.  In linear mode the value drawn at the
    fraction [f] of an element is [value_start + f * (value_end - value_start)]
    up to rounding.  In exact arithmetic: line 90 gives that value at the
    position [x_i + f * (x_j - x_i)], for every [f], when the end nodes
    have distinct x-coordinates; the hatch line [k] of the 2D loop stands
    at the fraction [k / 11] and reaches that value (it is NaN when the
    x-coordinates are equal); the fence line [k] of the 3D loop carries
    that value as its colour, and that value times the height scale as its
    height, at [f = k / 10].  In binary64 the twelve hatch lines carry the
    values of line 90 at the positions of [linspace], and the eleven fence
    lines the values of lines 137 and 140 at the fractions [k / 10]; the
    first line, at [f = 0], carries the raw start sample exactly, as long
    as the differences involved are finite; the last line, at [f = 1],
    carries the end sample only up to rounding. *)
Theorem linear_interpolation_up_to_rounding :
  (forall (members : gmap Z (Z * Z)) (nodes : gmap Z coord)
          (ds : gmap (Z * string) Q) (comp_i comp_j : string) (eid : Z)
          (r : reading),
      resolve members nodes ds comp_i comp_j eid = Ok r ->
      (forall f : Q,
          ~ (start_x r == end_x r)%Q ->
          exists hy,
            Task1.hatch_value false (start_val r) (end_val r) (start_x r) (end_x r)
              (start_x r + f * (end_x r - start_x r))%Q
            = Some hy
            /\ (hy == start_val r + f * (end_val r - start_val r))%Q)
      /\ (forall st : Task1.loop_state,
          exists st' hs,
            Task1.element members nodes ds comp_i comp_j false st eid = Ok st'
            /\ Task1.fig_shapes st' = Task1.fig_shapes st ++ hs
            /\ forall k : nat,
                (k < 12)%nat ->
                let f := (inject_Z (Z.of_nat k) / 11)%Q in
                exists hx y,
                  hs !! k = Some (Task1.Line hx 0 hx y)
                  /\ (hx == start_x r + f * (end_x r - start_x r))%Q
                  /\ (~ (start_x r == end_x r)%Q ->
                      exists hy,
                        y = Some hy
                        /\ (hy == start_val r + f * (end_val r - start_val r))%Q)
                  /\ ((start_x r == end_x r)%Q -> y = None))
      /\ (forall (Zx HS : Q) (dt : string) (g : Task2.geometry),
             Profile3D.is_sfd dt = false ->
             exists g' hy hc,
               Task2.element members nodes ds Zx HS comp_i comp_j dt g eid = Ok g'
               /\ Task2.hatch_y g' = Task2.hatch_y g ++ hy
               /\ Task2.hatch_c g' = Task2.hatch_c g ++ hc
               /\ forall k : nat,
                   (k <= 10)%nat ->
                   let f := (inject_Z (Z.of_nat k) / 10)%Q in
                   exists ch cc,
                     hy !! (3 * k + 1)%nat = Some (Some ch)
                     /\ hc !! (3 * k)%nat = Some cc
                     /\ (cc == start_val r + f * (end_val r - start_val r))%Q
                     /\ (ch == (start_val r + f * (end_val r - start_val r)) * HS)%Q))
  /\ (forall (members : gmap Z (Z * Z)) (nodes : gmap Z Binary64.coord)
             (ds : gmap (Z * string) float) (comp_i comp_j : string) (eid : Z)
             (r : Binary64.reading),
         Binary64.resolve members nodes ds comp_i comp_j eid = Ok r ->
         (forall st : Binary64.Task1.loop_state,
             exists st',
               Binary64.Task1.element members nodes ds comp_i comp_j false st eid
               = Ok st'
               /\ Binary64.Task1.fig_shapes st'
                  = Binary64.Task1.fig_shapes st
                    ++ map (fun hx =>
                              Binary64.Task1.Line hx 0 hx
                                (Binary64.start_val r
                                 + (Binary64.end_val r - Binary64.start_val r)
                                   * (hx - Binary64.start_x r)
                                   / (Binary64.end_x r - Binary64.start_x r)))
                           (Binary64.linspace (Binary64.start_x r)
                              (Binary64.end_x r) 12))
         /\ (forall (Zx HS : float) (dt : string) (g : Binary64.Task2.geometry),
                Binary64.is_sfd dt = false ->
                exists g',
                  Binary64.Task2.element members nodes ds Zx HS comp_i comp_j dt g eid
                  = Ok g'
                  /\ Binary64.Task2.hatch_y g'
                     = Binary64.Task2.hatch_y g
                       ++ flat_map
                            (fun k =>
                               [Some 0;
                                Some (Binary64.between (Binary64.start_val r * HS)
                                        (Binary64.end_val r * HS) k);
                                None])
                            Binary64.fence_indices
                  /\ Binary64.Task2.hatch_c g'
                     = Binary64.Task2.hatch_c g
                       ++ flat_map
                            (fun k =>
                               let cc := Binary64.between (Binary64.start_val r)
                                           (Binary64.end_val r) k in
                               [cc; cc; cc])
                            Binary64.fence_indices)
         /\ (is_finite (Binary64.end_val r - Binary64.start_val r) = true ->
             (is_finite ((Binary64.end_x r - Binary64.start_x r)
                         / Binary64.of_int 11) = true ->
              (Binary64.end_x r - Binary64.start_x r =? 0) = false ->
              forall st : Binary64.Task1.loop_state,
                exists st' hs hx hy,
                  Binary64.Task1.element members nodes ds comp_i comp_j false st eid
                  = Ok st'
                  /\ Binary64.Task1.fig_shapes st'
                     = Binary64.Task1.fig_shapes st ++ hs
                  /\ hs !! 0%nat = Some (Binary64.Task1.Line hx 0 hx hy)
                  /\ (hx =? Binary64.start_x r) = true
                  /\ (hy =? Binary64.start_val r) = true)
             /\ (forall (Zx HS : float) (dt : string)
                        (g : Binary64.Task2.geometry),
                    Binary64.is_sfd dt = false ->
                    is_finite (Binary64.end_val r * HS - Binary64.start_val r * HS)
                    = true ->
                    exists g' hy hc ch cc,
                      Binary64.Task2.element members nodes ds Zx HS comp_i comp_j
                        dt g eid
                      = Ok g'
                      /\ Binary64.Task2.hatch_y g' = Binary64.Task2.hatch_y g ++ hy
                      /\ Binary64.Task2.hatch_c g' = Binary64.Task2.hatch_c g ++ hc
                      /\ hy !! 1%nat = Some (Some ch)
                      /\ hc !! 0%nat = Some cc
                      /\ (cc =? Binary64.start_val r) = true
                      /\ (ch =? Binary64.start_val r * HS) = true))).
Proof.
  split.
  - intros members nodes ds comp_i comp_j eid r Hr. split; [| split].
    + intros f Hne. rewrite hatch_value_linear by exact Hne.
      eexists. split; [reflexivity |]. field. lra.
    + intros st. rewrite element_resolve, Hr. cbn [bind].
      do 2 eexists. split; [reflexivity |].
      cbn [Profile2D.extend Task1.fig_shapes]. split; [reflexivity |].
      intros k Hk. unfold Profile2D.hatch_of. cbn [end_value].
      destruct (hatch_lines_lookup false (start_val r) (end_val r)
                  (start_x r) (end_x r) k Hk) as (hx & Hlk & Hhx).
      exists hx. eexists. split; [exact Hlk |]. split; [exact Hhx |]. split.
      * intros Hne. rewrite hatch_value_linear by exact Hne.
        eexists. split; [reflexivity |]. rewrite Hhx. field. lra.
      * intros He. now apply hatch_value_nan.
    + intros Zx HS dt g Hdt. rewrite element_resolve3, Hr. cbn [bind].
      exists (Profile3D.extend Zx HS dt g r), (Profile3D.hy_of dt HS r),
        (Profile3D.hc_of dt r).
      split; [reflexivity |]. split; [reflexivity |]. split; [reflexivity |].
      intros k Hk.
      exists (Profile3D.between (Profile3D.h1_of HS r) (Profile3D.h2_of dt HS r) k),
        (Profile3D.between (start_val r) (Profile3D.c2_of dt r) k).
      unfold Profile3D.hy_of, Profile3D.hc_of.
      rewrite (fence_lookup _ k 1) by (auto; unfold Task2.num_lines; lia).
      rewrite <- (Nat.add_0_r (3 * k)).
      rewrite (fence_lookup _ k 0) by (auto; unfold Task2.num_lines; lia).
      split; [reflexivity |]. split; [reflexivity |].
      unfold Profile3D.between, Profile3D.frac, Profile3D.h1_of, Profile3D.h2_of,
        Profile3D.c2_of.
      rewrite Hdt. cbn [end_value].
      change (inject_Z (Z.of_nat Task2.num_lines)) with 10%Q.
      split; ring.
  - intros members nodes ds comp_i comp_j eid r Hr. split; [| split].
    { intros st. rewrite element_resolve_b64, Hr. cbn [bind].
      eexists. split; reflexivity. }
    { intros Zx HS dt g Hdt. rewrite element_resolve3_b64, Hr. cbn [bind].
      eexists. split; [reflexivity |].
      cbn [Binary64.extend3 Binary64.Task2.hatch_y Binary64.Task2.hatch_c].
      rewrite Hdt. cbn [Binary64.end_value]. split; reflexivity. }
    intros Hv. split.
    + intros Hstep Hne st. rewrite element_resolve_b64, Hr. cbn [bind].
      destruct (linspace_first _ _ Hstep) as (hx & Hlk & Hhx & Ht).
      assert (Hd : is_finite (Binary64.end_x r - Binary64.start_x r) = true).
      { apply is_finite_intro. apply is_finite_spec in Hstep.
        rewrite FloatAxioms.div_spec, of_int_11 in Hstep.
        now apply SFdiv_finite in Hstep. }
      exists (Binary64.extend false st r). do 3 eexists.
      split; [reflexivity |]. split; [reflexivity |]. split; [| split].
      * unfold Binary64.Task1.hatch_lines, Binary64.Task1.hatch_density.
        rewrite lookup_map, Hlk. reflexivity.
      * exact Hhx.
      * now apply hatch_value_start_b64.
    + intros Zx HS dt g Hdt Hh. rewrite element_resolve3_b64, Hr. cbn [bind].
      exists (Binary64.extend3 Zx HS dt g r). do 4 eexists.
      split; [reflexivity |]. split; [reflexivity |]. split; [reflexivity |].
      split; [reflexivity |]. split; [reflexivity |].
      rewrite Hdt. cbn [Binary64.end_value]. split; now apply between_start.
Qed.

End Interpolation.

Lemma linear_interpolation_up_to_rounding_witness :
  (resolve Deck.members Deck.nodes Deck.ds "Mz_i" "Mz_j" 15
   = Ok (Reading 0 (10 # 2) 3 (10 # 2) (-35 / 2) (-26 / 2))
   /\ exists st' hs,
       Task1.element Deck.members Deck.nodes Deck.ds "Mz_i" "Mz_j" false
         (Task1.MkState [] [] [] []) 15 = Ok st'
       /\ Task1.fig_shapes st' = [] ++ hs)
  /\ (Binary64.resolve Binary64.Span.members (Binary64.Span.nodes 0 3)
        (Binary64.Span.ds (-3) (-1.4)) "Mz_i" "Mz_j" 1
      = Ok (Binary64.Reading 0 0 3 0 (-3) (-1.4))
      /\ is_finite (-1.4 - -3) = true
      /\ is_finite ((3 - 0) / Binary64.of_int 11) = true
      /\ (3 - 0 =? 0)%float = false
      /\ exists st' hs hx hy,
          Binary64.Task1.element Binary64.Span.members (Binary64.Span.nodes 0 3)
            (Binary64.Span.ds (-3) (-1.4)) "Mz_i" "Mz_j" false
            Binary64.Span.empty 1
          = Ok st'
          /\ Binary64.Task1.fig_shapes st' = [] ++ hs
          /\ hs !! 0%nat = Some (Binary64.Task1.Line hx 0 hx hy)
          /\ (hy =? -3)%float = true).
Proof.
  assert (Hr : resolve Deck.members Deck.nodes Deck.ds "Mz_i" "Mz_j" 15
               = Ok (Reading 0 (10 # 2) 3 (10 # 2) (-35 / 2) (-26 / 2)))
    by (vm_compute; reflexivity).
  assert (Hr' : Binary64.resolve Binary64.Span.members (Binary64.Span.nodes 0 3)
                  (Binary64.Span.ds (-3) (-1.4)) "Mz_i" "Mz_j" 1
                = Ok (Binary64.Reading 0 0 3 0 (-3) (-1.4)))
    by (vm_compute; reflexivity).
  assert (Hv : is_finite (-1.4 - -3) = true) by (vm_compute; reflexivity).
  assert (Hs : is_finite ((3 - 0) / Binary64.of_int 11) = true)
    by (vm_compute; reflexivity).
  assert (Hn : (3 - 0 =? 0)%float = false) by (vm_compute; reflexivity).
  destruct linear_interpolation_up_to_rounding as [HQ HB].
  split.
  - split; [exact Hr |].
    destruct (HQ _ _ _ _ _ _ _ Hr) as (_ & H2 & _).
    destruct (H2 (Task1.MkState [] [] [] [])) as (st' & hs & Hel & Hsh & _).
    exists st', hs. auto.
  - split; [exact Hr' |]. split; [exact Hv |]. split; [exact Hs |].
    split; [exact Hn |].
    destruct (HB _ _ _ _ _ _ _ Hr') as (_ & _ & H3).
    destruct (H3 Hv) as [H2 _].
    destruct (H2 Hs Hn Binary64.Span.empty)
      as (st' & hs & hx & hy & Hel & Hsh & Hlk & _ & Hy).
    exists st', hs, hx, hy. auto.
Defined.

(** The end sample is missed by rounding.  An element from x = 0 to x = 3
    with the samples -3.0 and -1.4: the last of the twelve 2D hatch lines
    stands on the end node and reaches -1.3999999999999997.  With the
    samples -4.0 and -1.8 the last fence line of the 3D loop carries the
    colour -1.7999999999999998.  And an element whose end nodes are both at
    x = 3 has no hatch value at all. *)
Lemma end_sample_missed_by_rounding :
  (exists st' s,
      Binary64.Task1.element Binary64.Span.members (Binary64.Span.nodes 0 3)
        (Binary64.Span.ds (-3) (-1.4)) "Mz_i" "Mz_j" false Binary64.Span.empty 1
      = Ok st'
      /\ Binary64.Task1.fig_shapes st' !! 11%nat = Some s
      /\ Binary64.Task1.x0 s = 3%float
      /\ Binary64.Task1.y1 s = (-1.3999999999999997)%float
      /\ (Binary64.Task1.y1 s =? -1.4)%float = false)
  /\ (exists g cc,
         Binary64.Task2.element Binary64.Span.members (Binary64.Span.nodes 0 3)
           (Binary64.Span.ds (-4) (-1.8)) 1.5 1 "Mz_i" "Mz_j" "BMD"
           Binary64.Span.empty3 1
         = Ok g
         /\ Binary64.Task2.hatch_c g !! 30%nat = Some cc
         /\ cc = (-1.7999999999999998)%float
         /\ (cc =? -1.8)%float = false)
  /\ (exists st',
         Binary64.Task1.element Binary64.Span.members (Binary64.Span.nodes 3 3)
           (Binary64.Span.ds (-3) (-1.4)) "Mz_i" "Mz_j" false Binary64.Span.empty 1
         = Ok st'
         /\ length (Binary64.Task1.fig_shapes st') = 12%nat
         /\ Forall (fun s => is_nan (Binary64.Task1.y1 s) = true)
                   (Binary64.Task1.fig_shapes st')).
Proof.
  split; [| split].
  - do 2 eexists. split; [vm_compute; reflexivity |].
    split; [reflexivity |]. repeat split.
  - do 2 eexists. split; [vm_compute; reflexivity |].
    split; [reflexivity |]. repeat split.
  - eexists. split; [vm_compute; reflexivity |]. split; [reflexivity |].
    repeat constructor.
Qed.

(** ** Stepped segments *)

Section SteppedValues.
Local Open Scope float_scope.

Lemma SFadd_zero_r (a z : spec_float) :
  finite_sf a -> zero_sf z -> SFeqb (SF64add a z) a = true.
Proof.
  intros [sa | sa ma ea] [sz]; unfold SF64add, SFeqb; cbn [SFadd].
  - now destruct sa, sz.
  - now rewrite SFcompare_refl.
Qed.

Lemma frac_finite (k : nat) :
  (k <= 10)%nat -> is_finite (Binary64.frac k) = true.
Proof.
  intros Hk. do 11 (destruct k as [| k]; [reflexivity |]). lia.
Qed.

(** The point at any fraction between a finite value and itself is that
    value. *)
Lemma between_same (a : float) (k : nat) :
  is_finite a = true -> (k <= 10)%nat -> (Binary64.between a a k =? a) = true.
Proof.
  intros Ha Hk. unfold Binary64.between. rewrite (sub_self a Ha).
  rewrite FloatAxioms.eqb_spec, FloatAxioms.add_spec, FloatAxioms.mul_spec.
  apply SFadd_zero_r; [now apply is_finite_spec |].
  apply SFmul_zero_l; [constructor |].
  now apply is_finite_spec, frac_finite.
Qed.

End SteppedValues.

Section Stepped.
Import Task2 Profile3D.

Variable members : gmap Z (Z * Z).
Variable nodes : gmap Z coord.
Variable ds : gmap (Z * string) Q.

(** C3, as the code has it.  In stepped mode the segment of an element is
    flat at the start sample: both ends of the 2D segment and all twelve
    hatch lines carry the start sample, and the 3D segment carries it as
    the colour value of both ends and, in binary64 as long as it is finite,
    of every fence line.  The end sample must be present but the element's
    own values never use it: the 2D figure is the same for data sets that
    differ only in end samples, and so is what the element adds to the 3D
    geometry under a given height scale.  The heights of the 3D segment are
    the start sample times the height scale, at both ends and, in binary64
    as long as that product is finite, on every fence line.  The height
    scale is the factor [TARGET_HEIGHT / M] of the whole diagram, [M] being
    the greatest absolute value among the start and the end samples of all
    elements: through this factor the end samples do reach the heights of
    the 3D segments. *)
Theorem stepped_segment_flat_up_to_global_scale (comp_i comp_j : string) :
  (forall (st : Task1.loop_state) (eid : Z) (r : reading),
      resolve members nodes ds comp_i comp_j eid = Ok r ->
      exists st' hs,
        Task1.element members nodes ds comp_i comp_j true st eid = Ok st'
        /\ Task1.x_full_path st' = Task1.x_full_path st ++ [start_x r; end_x r]
        /\ Task1.y_full_path st' = Task1.y_full_path st ++ [start_val r; start_val r]
        /\ Task1.fig_shapes st' = Task1.fig_shapes st ++ hs
        /\ length hs = 12%nat
        /\ Forall (fun s => Task1.y1 s = Some (start_val r)) hs)
  /\ (forall (ds' : gmap (Z * string) Q) (ids : list Z) (title color unit : string),
         Forall (fun eid =>
                   ds !! (eid, comp_i) = ds' !! (eid, comp_i)
                   /\ present (ds !! (eid, comp_j)) = present (ds' !! (eid, comp_j)))
                ids ->
         Task1.plot_girder members nodes ds ids comp_i comp_j title color unit true
         = Task1.plot_girder members nodes ds' ids comp_i comp_j title color unit true)
  /\ (forall (Zx HS : Q) (g : geometry) (eid : Z) (r : reading),
         resolve members nodes ds comp_i comp_j eid = Ok r ->
         exists g' hy hc,
           element members nodes ds Zx HS comp_i comp_j "SFD" g eid = Ok g'
           /\ outline_y g'
              = outline_y g ++ [Some (start_val r * HS); Some (start_val r * HS); None]
           /\ outline_c g' = outline_c g ++ [start_val r; start_val r; start_val r]
           /\ hatch_y g' = hatch_y g ++ hy
           /\ hatch_c g' = hatch_c g ++ hc
           /\ length hy = (3 * 11)%nat
           /\ length hc = (3 * 11)%nat)
  /\ (forall (ds' : gmap (Z * string) Q) (Zx HS : Q) (g : geometry) (eid : Z),
         ds !! (eid, comp_i) = ds' !! (eid, comp_i) ->
         present (ds !! (eid, comp_j)) = present (ds' !! (eid, comp_j)) ->
         element members nodes ds Zx HS comp_i comp_j "SFD" g eid
         = element members nodes ds' Zx HS comp_i comp_j "SFD" g eid)
  /\ (forall (Zx : Q) (girders : list (string * girder)) (title : string),
         contains "Vy" comp_i = true ->
         complete_all members nodes ds comp_i comp_j girders = true ->
         existsb nonzero (requested ds comp_i comp_j girders) = true ->
         exists fig M,
           plot_girders members nodes ds Zx girders comp_i comp_j title = Ok fig
           /\ max_abs_of ds comp_i comp_j girders M
           /\ forall (k j : nat) (g_name : string) (g : girder) (eid : Z) (v1 : Q),
               girders !! k = Some (g_name, g) ->
               elements g !! j = Some eid ->
               ds !! (eid, comp_i) = Some v1 ->
               exists top,
                 data fig !! (3 * k + 1)%nat = Some top
                 /\ tr_y top !! (3 * j)%nat
                    = Some (Some (v1 * (TARGET_HEIGHT / M)))
                 /\ tr_y top !! (3 * j + 1)%nat
                    = Some (Some (v1 * (TARGET_HEIGHT / M))))
  /\ (forall (nodes' : gmap Z Binary64.coord) (ds' : gmap (Z * string) float)
             (st : Binary64.Task1.loop_state) (eid : Z) (r : Binary64.reading),
         Binary64.resolve members nodes' ds' comp_i comp_j eid = Ok r ->
         exists st' hs,
           Binary64.Task1.element members nodes' ds' comp_i comp_j true st eid
           = Ok st'
           /\ Binary64.Task1.y_full_path st'
              = Binary64.Task1.y_full_path st
                ++ [Binary64.start_val r; Binary64.start_val r]
           /\ Binary64.Task1.fig_shapes st' = Binary64.Task1.fig_shapes st ++ hs
           /\ length hs = 12%nat
           /\ Forall (fun s => Binary64.Task1.y1 s = Binary64.start_val r) hs)
  /\ (forall (nodes' : gmap Z Binary64.coord) (ds' : gmap (Z * string) float)
             (Zx HS : float) (g : Binary64.Task2.geometry) (eid : Z)
             (r : Binary64.reading),
         Binary64.resolve members nodes' ds' comp_i comp_j eid = Ok r ->
         let v1 := Binary64.start_val r in
         exists g' hy hc,
           Binary64.Task2.element members nodes' ds' Zx HS comp_i comp_j "SFD" g eid
           = Ok g'
           /\ Binary64.Task2.outline_y g'
              = Binary64.Task2.outline_y g
                ++ [Some (v1 * HS)%float; Some (v1 * HS)%float; None]
           /\ Binary64.Task2.outline_c g'
              = Binary64.Task2.outline_c g ++ [v1; v1; v1]
           /\ Binary64.Task2.hatch_y g' = Binary64.Task2.hatch_y g ++ hy
           /\ Binary64.Task2.hatch_c g' = Binary64.Task2.hatch_c g ++ hc
           /\ forall k : nat,
               (k <= 10)%nat ->
               exists ch cc,
                 hy !! (3 * k + 1)%nat = Some (Some ch)
                 /\ hc !! (3 * k)%nat = Some cc
                 /\ (is_finite v1 = true -> (cc =? v1)%float = true)
                 /\ (is_finite (v1 * HS) = true -> (ch =? v1 * HS)%float = true)).
Proof.
  split; [| split; [| split; [| split; [| split; [| split]]]]].
  - intros st eid r Hr. rewrite element_resolve, Hr. cbn [bind].
    do 2 eexists. split; [reflexivity |].
    cbn [Profile2D.extend Task1.x_full_path Task1.y_full_path Task1.fig_shapes].
    split; [reflexivity |]. split; [reflexivity |]. split; [reflexivity |].
    unfold Profile2D.hatch_of, Task1.hatch_lines. split.
    + now rewrite length_map, length_linspace.
    + apply List.Forall_map, Forall_true. intros hx. reflexivity.
  - intros ds' ids title color unit H. unfold Task1.plot_girder.
    rewrite (for_each_ext_in _ (Task1.element members nodes ds' comp_i comp_j true));
      [reflexivity |].
    eapply Forall_impl; [exact H |]. intros eid [Hi Hj] st.
    now apply element_ignores_end_sample.
  - intros Zx HS g eid r Hr. rewrite element_resolve3, Hr. cbn [bind].
    exists (Profile3D.extend Zx HS "SFD" g r), (hy_of "SFD" HS r), (hc_of "SFD" r).
    split; [reflexivity |]. split; [reflexivity |]. split; [reflexivity |].
    split; [reflexivity |]. split; [reflexivity |].
    split; [unfold hy_of; now rewrite (length_flat_map_chunk _ 3) |].
    unfold hc_of. now rewrite (length_flat_map_chunk _ 3).
  - intros ds' Zx HS g eid. apply element3_ignores_end_sample.
  - intros Zx girders title Hvy Hc Hnz.
    destruct (plot_girders_total members nodes ds Zx girders comp_i comp_j title Hc Hnz)
      as (M & C_MIN & C_MAX & grs & HM & _ & Hgrs & Hplot).
    eexists. exists M. split; [exact Hplot |]. split; [exact HM |].
    intros k j g_name g eid v1 Hk Hj Hv1. cbn [data].
    destruct (readings_lookup _ _ _ _ _ _ _ _ _ _ Hgrs Hk) as (cs & rs & Hgr & Hrs).
    destruct (map_result_lookup _ _ _ _ _ Hrs Hj) as (r & Hr & Hlk).
    apply resolve_inv in Hr as (sn & en & ys & ye & _ & _ & _ & Hi & _).
    rewrite Hv1 in Hi. injection Hi as Hi.
    rewrite (traces_lookup _ _ _ _ _ _ _ 1 _ Hgr) by lia.
    cbn [traces_of lookup list_lookup]. eexists. split; [reflexivity |].
    cbn [tr_y]. split.
    + rewrite (lookup_flat_map_chunk_0 (oy_of _ _) 3 rs j r) by (auto; lia).
      cbn. unfold h1_of. now rewrite <- Hi.
    + rewrite (lookup_flat_map_chunk (oy_of _ _) 3 rs j 1 r) by (auto; lia).
      cbn. unfold h2_of, end_value. rewrite is_sfd_diagram_type, Hvy, <- Hi.
      reflexivity.
  - intros nodes' ds' st eid r Hr. rewrite element_resolve_b64, Hr. cbn [bind].
    do 2 eexists. split; [reflexivity |].
    cbn [Binary64.extend Binary64.Task1.y_full_path Binary64.Task1.fig_shapes
         Binary64.end_value].
    split; [reflexivity |]. split; [reflexivity |].
    unfold Binary64.Task1.hatch_lines, Binary64.Task1.hatch_density. split.
    + now rewrite length_map, length_linspace_b64.
    + apply List.Forall_map, Forall_true. intros hx. reflexivity.
  - intros nodes' ds' Zx HS g eid r Hr v1.
    rewrite element_resolve3_b64, Hr. cbn [bind].
    exists (Binary64.extend3 Zx HS "SFD" g r). do 2 eexists.
    split; [reflexivity |]. split; [reflexivity |]. split; [reflexivity |].
    split; [reflexivity |]. split; [reflexivity |].
    intros k Hk.
    change (Binary64.is_sfd "SFD") with true. cbn [Binary64.end_value].
    change Binary64.fence_indices with fence_indices.
    rewrite (fence_lookup _ k 1) by (auto; unfold num_lines; lia).
    rewrite <- (Nat.add_0_r (3 * k)).
    rewrite (fence_lookup _ k 0) by (auto; unfold num_lines; lia).
    do 2 eexists. split; [reflexivity |]. split; [reflexivity |].
    split; intros Hf; now apply between_same.
Qed.

End Stepped.

Lemma stepped_segment_flat_up_to_global_scale_witness :
  Forall (fun eid =>
            Deck.ds !! (eid, "Vy_i") = Deck.ds_other_ends !! (eid, "Vy_i")
            /\ present (Deck.ds !! (eid, "Vy_j"))
               = present (Deck.ds_other_ends !! (eid, "Vy_j")))
         Task1.CENTRAL_GIRDER_IDS
  /\ Deck.ds !! (15%Z, "Vy_j") <> Deck.ds_other_ends !! (15%Z, "Vy_j")
  /\ Task1.generate_midas_style_plot Deck.members Deck.nodes Deck.ds
       "Vy_i" "Vy_j" "SFD - Central Girder" "blue" "kN" true
     = Task1.generate_midas_style_plot Deck.members Deck.nodes Deck.ds_other_ends
         "Vy_i" "Vy_j" "SFD - Central Girder" "blue" "kN" true.
Proof.
  assert (H : Forall (fun eid =>
                 Deck.ds !! (eid, "Vy_i") = Deck.ds_other_ends !! (eid, "Vy_i")
                 /\ present (Deck.ds !! (eid, "Vy_j"))
                    = present (Deck.ds_other_ends !! (eid, "Vy_j")))
              Task1.CENTRAL_GIRDER_IDS).
  { unfold Task1.CENTRAL_GIRDER_IDS.
    repeat (constructor; [split; vm_compute; reflexivity |]). constructor. }
  split; [exact H |]. split; [vm_compute; discriminate |].
  destruct (stepped_segment_flat_up_to_global_scale Deck.members Deck.nodes
              Deck.ds "Vy_i" "Vy_j") as (_ & H2 & _).
  apply (H2 Deck.ds_other_ends Task1.CENTRAL_GIRDER_IDS). exact H.
Defined.

(** The end sample of an element changes its stepped 3D segment.  Two data
    sets for the girder of two elements agree on every sample but the end
    sample of the second element, -4 in the one and -40 in the other: the
    stepped segment of that element stands at the height -2 with the one
    and at -1/2 with the other (and the segment of the first element at 5
    and at 5/4). *)
Lemma stepped_height_follows_an_end_sample :
  Forall (fun eid =>
            Scenario.ds !! (eid, "Vy_i") = Scenario.ds_other_end !! (eid, "Vy_i"))
         [1; 2]%Z
  /\ Scenario.ds !! (1%Z, "Vy_j") = Scenario.ds_other_end !! (1%Z, "Vy_j")
  /\ Scenario.ds !! (2%Z, "Vy_j") = Some (-4)
  /\ Scenario.ds_other_end !! (2%Z, "Vy_j") = Some (-40)
  /\ exists fig fig' top top' h h' h1 h1',
      Task2.plot_girders Scenario.members Scenario.nodes Scenario.ds
        Task2.Z_EXPANSION Scenario.girders "Vy_i" "Vy_j" "Shear Force (SFD)"
      = Ok fig
      /\ Task2.plot_girders Scenario.members Scenario.nodes Scenario.ds_other_end
           Task2.Z_EXPANSION Scenario.girders "Vy_i" "Vy_j" "Shear Force (SFD)"
         = Ok fig'
      /\ Task2.data fig !! 1%nat = Some top
      /\ Task2.data fig' !! 1%nat = Some top'
      /\ Task2.tr_y top !! 3%nat = Some (Some h)
      /\ Task2.tr_y top' !! 3%nat = Some (Some h')
      /\ h == -2 /\ h' == - (1 # 2) /\ ~ h == h'
      /\ Task2.tr_y top !! 0%nat = Some (Some h1)
      /\ Task2.tr_y top' !! 0%nat = Some (Some h1')
      /\ h1 == 5 /\ h1' == 5 # 4.
Proof.
  split; [repeat constructor |]. split; [reflexivity |].
  split; [reflexivity |]. split; [reflexivity |].
  do 8 eexists. split; [vm_compute; reflexivity |].
  split; [vm_compute; reflexivity |].
  split; [reflexivity |]. split; [reflexivity |].
  split; [reflexivity |]. split; [reflexivity |].
  split; [vm_compute; reflexivity |]. split; [vm_compute; reflexivity |].
  split; [vm_compute; discriminate |].
  split; [reflexivity |]. split; [reflexivity |].
  split; vm_compute; reflexivity.
Qed.
